(** * Rules-Emerging-Pattern: tiered evaluation, enforcement and conflict resolution

    A shallow embedding of the Python sources

    - [rules_emerging_pattern/models/rule.py], [models/validation.py]
    - [rule_engines/enforcement/*.py], [rule_engines/base/rule_manager.py]
    - [conflict_resolution/resolution_strategies/priority_based.py]
    - [conflict_resolution/conflict_detectors/priority_conflict_detector.py]
    - [rules_emerging_pattern/core/tiered_rules/*.py]
    - [rules_emerging_pattern/core/rule_engine.py]

    Conventions.  Python [str] is Rocq's [string], read as the sequence
    of its code points, each below 256 (ASCII and the rest of Latin-1);
    a model field of enum type is the enum member, with a note of how
    the object holds it where the code reads [.value] from it;
    [int] is [Z]; [float] is the kernel's binary64 [float]; [Optional[T]]
    is [option T]; a [Dict[str, Any]] that is only read is a
    [gmap string PyVal]; the evaluation cache, whose eviction depends on
    insertion order, is an association list.  Raising code returns in the
    [result] type below.  Attributes that only hold wall-clock readings,
    request ids or content hashes ([processing_time_ms], [evaluated_at],
    [detected_at], [request_id], [content_hash]) are left out of the
    records, as are attributes no modelled function ever reads or sets. *)

From Stdlib Require Import ZArith String Ascii List Bool Lia Floats.
From Stdlib Require Import Sorted Permutation.
From stdpp Require Import gmap strings list pretty.

Set Warnings "-inexact-float".

Open Scope Z_scope.
Open Scope string_scope.

(* ===================================================================== *)
(** ** Python primitives *)
(* ===================================================================== *)

Module Py.

(** Exceptions the modelled code can raise. *)
Inductive exn : Type :=
| TypeError (msg : string)
| NameError (name : string)
| IndexError (msg : string)
| AttributeError (msg : string)
| Exception (msg : string).

Inductive result (A : Type) : Type :=
| Ok (a : A)
| Raise (e : exn).
Arguments Ok {A} a.
Arguments Raise {A} e.

Definition bind {A B} (m : result A) (k : A -> result B) : result B :=
  match m with
  | Ok a => k a
  | Raise e => Raise e
  end.

(** [str(e)] of an exception, as used in log lines and error texts. *)
Definition str_of_exn (e : exn) : string :=
  match e with
  | TypeError m => m
  | NameError n => "name '" +:+ n +:+ "' is not defined"
  | IndexError m => m
  | AttributeError m => m
  | Exception m => m
  end.

(** Values of a loosely typed dictionary: the model covers [None], [int],
    [str] and [datetime] values. *)
Inductive PyVal : Type :=
| PNone
| PInt (z : Z)
| PStr (s : string)
| PDatetime (us : Z).

#[export] Instance PyVal_eq_dec : EqDecision PyVal.
Proof. solve_decision. Defined.

(** [str(v)] inside an f-string. *)
Definition py_str (v : PyVal) : string :=
  match v with
  | PNone => "None"
  | PInt z => pretty z
  | PStr s => s
  | PDatetime us => pretty us
  end.

(** *** Strings *)

(** A [str] is modelled as the sequence of its code points, each below
    256: the Latin-1 range of Unicode, whose first half is ASCII.  On
    this range [str.lower()] maps every character to a character of the
    range, and is modelled exactly.  [str.upper()] does not: it turns
    [ß] (223) into the two characters [SS], and [µ] (181) and [ÿ] (255)
    into characters beyond the range. *)

(** The characters [c.lower()] changes: [A]..[Z], [À]..[Ö] and
    [Ø]..[Þ]. *)
Definition is_upper (c : ascii) : bool :=
  let n := nat_of_ascii c in
  ((65 <=? n)%nat && (n <=? 90)%nat)
  || ((192 <=? n)%nat && (n <=? 214)%nat)
  || ((216 <=? n)%nat && (n <=? 222)%nat).

(** The characters whose upper-case form is one character of the
    range: [a]..[z], [à]..[ö] and [ø]..[þ]. *)
Definition is_lower (c : ascii) : bool :=
  let n := nat_of_ascii c in
  ((97 <=? n)%nat && (n <=? 122)%nat)
  || ((224 <=? n)%nat && (n <=? 246)%nat)
  || ((248 <=? n)%nat && (n <=? 254)%nat).

(** [c.lower()] *)
Definition lower_char (c : ascii) : ascii :=
  if is_upper c then ascii_of_nat (nat_of_ascii c + 32) else c.

(** [c.upper()]: a string, since [ß] becomes [SS]; [None] where the
    upper-case form lies beyond the range ([µ] and [ÿ]). *)
Definition upper_char (c : ascii) : option string :=
  let n := nat_of_ascii c in
  if is_lower c then Some (String (ascii_of_nat (n - 32)) EmptyString)
  else if (n =? 223)%nat then Some "SS"
  else if (n =? 181)%nat || (n =? 255)%nat then None
  else Some (String c EmptyString).


(** [s.lower()] *)
Fixpoint lower (s : string) : string :=
  match s with
  | EmptyString => EmptyString
  | String c t => String (lower_char c) (lower t)
  end.

(** [s.startswith(p)] *)
Fixpoint startswith (s p : string) : bool :=
  match p, s with
  | EmptyString, _ => true
  | String _ _, EmptyString => false
  | String a p', String b s' => if ascii_dec a b then startswith s' p' else false
  end.

(** [needle in hay] on two strings: substring search. *)
Fixpoint contains (needle hay : string) : bool :=
  startswith hay needle
  || match hay with
     | EmptyString => false
     | String _ t => contains needle t
     end.

(** [s.split(':', 1)[1]]: what follows the first colon; the subscript
    raises [IndexError] when there is no colon. *)
Fixpoint after_colon (s : string) : result string :=
  match s with
  | EmptyString => Raise (IndexError "list index out of range")
  | String c t => if ascii_dec c ":" then Ok t else after_colon t
  end.

(** [c.isspace()]: the white space of the range, which beside the
    ASCII characters 9..13 and 28..32 holds the next-line control (133)
    and the no-break space (160). *)
Definition isspace (c : ascii) : bool :=
  let n := nat_of_ascii c in
  ((9 <=? n)%nat && (n <=? 13)%nat) || ((28 <=? n)%nat && (n <=? 32)%nat)
  || (n =? 133)%nat || (n =? 160)%nat.

(** [not s.strip()]: nothing but white space. *)
Fixpoint blank (s : string) : bool :=
  match s with
  | EmptyString => true
  | String c t => isspace c && blank t
  end.

(** [any(f(x) for x in xs)] where [f] may raise: elements are tried in
    order and the first [True] or the first exception ends the scan. *)
Fixpoint any_m {A} (f : A -> result bool) (xs : list A) : result bool :=
  match xs with
  | [] => Ok false
  | x :: xs' =>
      match f x with
      | Raise e => Raise e
      | Ok true => Ok true
      | Ok false => any_m f xs'
      end
  end.

(** [x in container] for a string [x]. *)
Definition str_in (x : string) (container : PyVal) : result bool :=
  match container with
  | PStr s => Ok (contains x s)
  | PNone => Raise (TypeError "argument of type 'NoneType' is not iterable")
  | PInt _ => Raise (TypeError "argument of type 'int' is not iterable")
  | PDatetime _ =>
      Raise (TypeError "argument of type 'datetime.datetime' is not iterable")
  end.

(** [min(a, b)] on floats: the first argument unless the second is
    strictly smaller. *)
Definition fmin (a b : float) : float := if PrimFloat.ltb b a then b else a.

End Py.

Export Py.

Notation "'try!' x ':=' m 'in' k" := (Py.bind m (fun x => k))
  (at level 10, x name, m at level 100, k at level 200).

(* ===================================================================== *)
(** ** models/rule.py and models/validation.py *)
(* ===================================================================== *)

Module Models.

Inductive RuleTier := SAFETY | OPERATIONAL | PREFERENCE.
Inductive EnforcementLevel := STRICT | ADVISORY | ADAPTIVE | FALLBACK.
Inductive RuleType :=
| CONTENT_FILTERING | PATTERN_MATCHING | SEMANTIC_ANALYSIS
| STRUCTURAL_VALIDATION | COMPLIANCE_CHECK | QUALITY_ASSESSMENT | CUSTOM.
Inductive RuleSeverity := LOW | MEDIUM | HIGH | CRITICAL.
Inductive RuleStatus := ACTIVE | INACTIVE | DEPRECATED | TESTING.

#[export] Instance RuleTier_eq_dec : EqDecision RuleTier.
Proof. solve_decision. Defined.
#[export] Instance EnforcementLevel_eq_dec : EqDecision EnforcementLevel.
Proof. solve_decision. Defined.
#[export] Instance RuleType_eq_dec : EqDecision RuleType.
Proof. solve_decision. Defined.
#[export] Instance RuleSeverity_eq_dec : EqDecision RuleSeverity.
Proof. solve_decision. Defined.
#[export] Instance RuleStatus_eq_dec : EqDecision RuleStatus.
Proof. solve_decision. Defined.

(** The [.value] of the string-valued enums. *)
Definition tier_value (t : RuleTier) : string :=
  match t with
  | SAFETY => "safety" | OPERATIONAL => "operational" | PREFERENCE => "preference"
  end.

Definition enforcement_value (e : EnforcementLevel) : string :=
  match e with
  | STRICT => "strict" | ADVISORY => "advisory"
  | ADAPTIVE => "adaptive" | FALLBACK => "fallback"
  end.

Definition status_value (s : RuleStatus) : string :=
  match s with
  | ACTIVE => "active" | INACTIVE => "inactive"
  | DEPRECATED => "deprecated" | TESTING => "testing"
  end.

(** A field of enum type as the object holds it.  The models set
    [use_enum_values]: what the constructor is given for such a field it
    stores as the member's value, a plain [str]; a default the
    constructor is not given stays the enum member.  The enums derive
    from [str], so the two compare and hash alike, and they differ under
    [.value], which a [str] does not have. *)
Inductive EnumField :=
| Member (value : string)
| Plain (value : string).

(** [field.value] *)
Definition dot_value (field : EnumField) : result string :=
  match field with
  | Member value => Ok value
  | Plain _ => Raise (AttributeError "'str' object has no attribute 'value'")
  end.

Record RulePattern := {
  pattern_type : RuleType;
  keywords : list string;
  regex_patterns : list string;
  ml_model : option string;
  confidence_threshold : float;
  pattern_action : string
}.

(** [Rule], as its constructor builds it.  [status_given] tells whether
    [status], the one field of enum type with a default, was passed to
    the constructor. *)
Record Rule := {
  id : string;
  name : string;
  description : string;
  tier : RuleTier;
  rule_type : RuleType;
  severity : RuleSeverity;
  status : RuleStatus;
  status_given : bool;
  patterns : list RulePattern;
  enforcement_level : EnforcementLevel;
  auto_block : bool;
  user_override : bool;
  override_justification_required : bool;
  tags : list string;
  priority : Z;
  timeout_ms : Z;
  cache_ttl_seconds : Z
}.

(** [rule.status] as held: the member while left at its default. *)
Definition held_status (rule : Rule) : EnumField :=
  if status_given rule then Plain (status_value (status rule))
  else Member (status_value (status rule)).

(** [rule.enforcement_level] as held: the field has no default, so the
    constructor was given it. *)
Definition held_enforcement_level (rule : Rule) : EnumField :=
  Plain (enforcement_value (enforcement_level rule)).

Record RuleContext := {
  user_id : option string;
  session_id : option string;
  domain : option string;
  user_role : option string;
  content_type : option string;
  content_length : option Z;
  language : option string;
  organization : option string;
  project : option string;
  business_process : option string;
  timestamp : Z;
  time_zone : option string;
  metadata : gmap string PyVal
}.

Definition opt_str (o : option string) : PyVal :=
  match o with Some s => PStr s | None => PNone end.

Definition opt_int (o : option Z) : PyVal :=
  match o with Some z => PInt z | None => PNone end.

(** [RuleContext.get_effective_context]: the twelve attributes, then
    [**self.metadata], whose entries override equal keys. *)
Definition get_effective_context (c : RuleContext) : gmap string PyVal :=
  metadata c ∪
  list_to_map
    [ ("user_id", opt_str (user_id c));
      ("session_id", opt_str (session_id c));
      ("domain", opt_str (domain c));
      ("user_role", opt_str (user_role c));
      ("content_type", opt_str (content_type c));
      ("content_length", opt_int (content_length c));
      ("language", opt_str (language c));
      ("organization", opt_str (organization c));
      ("project", opt_str (project c));
      ("business_process", opt_str (business_process c));
      ("timestamp", PDatetime (timestamp c));
      ("time_zone", opt_str (time_zone c)) ].

(** [tag.split(':', 1)[1] == value] *)
Definition tag_equals (value : PyVal) (tag : string) : result bool :=
  try! suffix := after_colon tag in
  Ok (bool_decide (PStr suffix = value)).

(** [tag.split(':', 1)[1] in value] *)
Definition tag_within (value : PyVal) (tag : string) : result bool :=
  try! suffix := after_colon tag in
  str_in suffix value.

(** [Rule.is_applicable_to_context] *)
Definition is_applicable_to_context (r : Rule) (context : gmap string PyVal)
  : result bool :=
  if bool_decide (context = ∅) then Ok true else
  try! domain_ok :=
    match context !! "domain" with
    | Some d =>
        let rule_domains := List.filter (fun tag => startswith tag "domain:") (tags r) in
        match rule_domains with
        | [] => Ok true
        | _ => any_m (tag_equals d) rule_domains
        end
    | None => Ok true
    end in
  if negb domain_ok then Ok false else
  try! role_ok :=
    match context !! "user_role" with
    | Some u =>
        let rule_roles := List.filter (fun tag => startswith tag "role:") (tags r) in
        match rule_roles with
        | [] => Ok true
        | _ => any_m (tag_within u) rule_roles
        end
    | None => Ok true
    end in
  if negb role_ok then Ok false else Ok true.

Record RuleEvaluationRequest := {
  content : string;
  context : option RuleContext;
  rule_ids : option (list string);
  req_tier : option RuleTier;
  rule_types : option (list RuleType);
  options : gmap string PyVal;
  req_timeout_ms : Z;
  parallel_evaluation : bool;
  early_termination : bool
}.

(** [request.context.get_effective_context() if request.context else {}] *)
Definition context_dict (c : option RuleContext) : gmap string PyVal :=
  match c with
  | Some c => get_effective_context c
  | None => ∅
  end.

Inductive ViolationType :=
| KEYWORD_MATCH | REGEX_MATCH | SEMANTIC_VIOLATION | STRUCTURAL_VIOLATION
| COMPLIANCE_VIOLATION | QUALITY_VIOLATION | CUSTOM_VIOLATION.

Inductive ActionTaken :=
| NONE | WARNING | SUGGESTION | BLOCK | REDACT | QUARANTINE | ESCALATE.

#[export] Instance ActionTaken_eq_dec : EqDecision ActionTaken.
Proof. solve_decision. Defined.

Record Violation := {
  rule_id : string;
  rule_name : string;
  rule_tier : RuleTier;
  rule_severity : RuleSeverity;
  violation_type : ViolationType;
  matched_content : option string;
  matched_patterns : list string;
  confidence_score : float;
  action_taken : ActionTaken;
  blocked : bool;
  user_override_allowed : bool;
  explanation : option string;
  violation_context : gmap string PyVal
}.

(** [Violation.is_critical] *)
Definition is_critical (v : Violation) : bool :=
  bool_decide (rule_severity v = CRITICAL).

Record Suggestion := {
  suggestion_type : string;
  title : string;
  suggestion_description : string;
  suggestion_confidence : float;
  auto_applicable : bool;
  user_approval_required : bool;
  source_rule : option string
}.

Record ValidationResult := {
  valid : bool;
  total_score : float;
  confidence : float;
  total_rules_evaluated : Z;
  rules_triggered : Z;
  rules_violated : Z;
  violations : list Violation;
  critical_violations : list Violation;
  warnings : list Violation;
  suggestions : list Suggestion
}.

(** [ValidationResult(valid=v, total_score=s, confidence=c, ...)] with
    every other attribute at its default. *)
Definition new_result (v : bool) (s c : float) : ValidationResult :=
  {| valid := v; total_score := s; confidence := c;
     total_rules_evaluated := 0; rules_triggered := 0; rules_violated := 0;
     violations := []; critical_violations := []; warnings := [];
     suggestions := [] |}.

(** [ValidationResult.has_violations] *)
Definition has_violations (r : ValidationResult) : bool :=
  bool_decide (0 < Z.of_nat (length (violations r))).

(** [ValidationResult.is_blocked] *)
Definition is_blocked (r : ValidationResult) : bool :=
  existsb blocked (violations r).

End Models.

Export Models.

(* ===================================================================== *)
(** ** rule_engines/base/rule_manager.py: the authoring-time validator *)
(* ===================================================================== *)

Module Manager.

(** [RuleValidator.validate_rule]: the list of error texts, empty for an
    acceptable rule.  [BaseRuleManager.add_rule] raises [ValueError]
    unless this list is empty. *)
Definition validate_rule (rule : Rule) : list string :=
  (if blank (id rule) then ["Rule ID is required"] else [])
  ++ (if blank (name rule) then ["Rule name is required"] else [])
  ++ (if blank (description rule) then ["Rule description is required"] else [])
  ++ (if bool_decide (tier rule = SAFETY)
         && negb (bool_decide (enforcement_level rule = STRICT))
      then ["Safety rules must use strict enforcement"] else [])
  ++ (if bool_decide (tier rule = SAFETY) && user_override rule
      then ["Safety rules cannot allow user override"] else [])
  ++ (match patterns rule with
      | [] => ["Rule must have at least one pattern"]
      | _ => []
      end)
  ++ (if negb ((1 <=? priority rule)%Z && (priority rule <=? 1000)%Z)
      then ["Rule priority must be between 1 and 1000"] else [])
  ++ (if negb ((1 <=? timeout_ms rule)%Z && (timeout_ms rule <=? 10000)%Z)
      then ["Rule timeout must be between 1 and 10000 ms"] else []).

End Manager.

(* ===================================================================== *)
(** ** rule_engines/enforcement *)
(* ===================================================================== *)

Module Enforcement.

(** The scan every enforcer and the engine's single-rule evaluation
    share:

    [for keyword in pattern.keywords: if keyword.lower() in content_lower]

    answering with the first keyword found. *)
Fixpoint find_keyword (kws : list string) (content_lower : string) : option string :=
  match kws with
  | [] => None
  | keyword :: rest =>
      if contains (lower keyword) content_lower then Some keyword
      else find_keyword rest content_lower
  end.

(** [for pattern in rule.patterns: if pattern.keywords: ...] *)
Fixpoint first_match (ps : list RulePattern) (content : string) : option string :=
  match ps with
  | [] => None
  | pattern :: rest =>
      match keywords pattern with
      | [] => first_match rest content
      | kws =>
          let content_lower := lower content in
          match find_keyword kws content_lower with
          | Some keyword => Some keyword
          | None => first_match rest content
          end
      end
  end.

(** *** strict_enforcer.py *)

Record StrictEnforcer := {
  strict_enforcement_count : Z;
  block_count : Z
}.

Definition strict_enforce (self : StrictEnforcer) (rule : Rule) (content : string)
  : option Violation * StrictEnforcer :=
  let self := {| strict_enforcement_count := strict_enforcement_count self + 1;
                 block_count := block_count self |} in
  match first_match (patterns rule) content with
  | Some keyword =>
      let violation :=
        {| rule_id := id rule;
           rule_name := name rule;
           rule_tier := tier rule;
           rule_severity := CRITICAL;
           violation_type := KEYWORD_MATCH;
           matched_content := Some keyword;
           matched_patterns := [keyword];
           confidence_score := 0.95%float;
           action_taken := BLOCK;
           blocked := true;
           user_override_allowed := false;
           explanation := Some ("Strict enforcement: " +:+ description rule);
           violation_context := ∅ |} in
      (Some violation,
       {| strict_enforcement_count := strict_enforcement_count self;
          block_count := block_count self + 1 |})
  | None => (None, self)
  end.

(** *** advisory_enforcer.py *)

Record AdvisoryEnforcer := {
  advisory_enforcement_count : Z;
  warning_count : Z
}.

Definition advisory_enforce (self : AdvisoryEnforcer) (rule : Rule) (content : string)
  : option Violation * AdvisoryEnforcer :=
  let self := {| advisory_enforcement_count := advisory_enforcement_count self + 1;
                 warning_count := warning_count self |} in
  match first_match (patterns rule) content with
  | Some keyword =>
      let violation :=
        {| rule_id := id rule;
           rule_name := name rule;
           rule_tier := tier rule;
           rule_severity := MEDIUM;
           violation_type := KEYWORD_MATCH;
           matched_content := Some keyword;
           matched_patterns := [keyword];
           confidence_score := 0.8%float;
           action_taken := WARNING;
           blocked := false;
           user_override_allowed := true;
           explanation :=
             Some ("Advisory: " +:+ description rule +:+ ". User can override.");
           violation_context := ∅ |} in
      (Some violation,
       {| advisory_enforcement_count := advisory_enforcement_count self;
          warning_count := warning_count self + 1 |})
  | None => (None, self)
  end.

(** *** adaptive_enforcer.py *)

Record AdaptiveEnforcer := {
  adaptive_enforcement_count : Z;
  suggestion_count : Z
}.

Definition adaptive_enforce (self : AdaptiveEnforcer) (rule : Rule) (content : string)
    (context : option RuleContext) : option Violation * AdaptiveEnforcer :=
  let self := {| adaptive_enforcement_count := adaptive_enforcement_count self + 1;
                 suggestion_count := suggestion_count self |} in
  let is_admin :=
    match context with
    | Some c =>
        let ctx := get_effective_context c in
        let user_role := default (PStr "") (ctx !! "user_role") in
        bool_decide (user_role = PStr "admin")
    | None => false
    end in
  if is_admin then (None, self) else
  match first_match (patterns rule) content with
  | Some keyword =>
      let violation :=
        {| rule_id := id rule;
           rule_name := name rule;
           rule_tier := tier rule;
           rule_severity := LOW;
           violation_type := KEYWORD_MATCH;
           matched_content := Some keyword;
           matched_patterns := [keyword];
           confidence_score := 0.7%float;
           action_taken := SUGGESTION;
           blocked := false;
           user_override_allowed := true;
           explanation := Some ("Suggestion: " +:+ description rule);
           violation_context := ∅ |} in
      (Some violation,
       {| adaptive_enforcement_count := adaptive_enforcement_count self;
          suggestion_count := suggestion_count self + 1 |})
  | None => (None, self)
  end.

(** *** fallback_handler.py *)

Record FallbackHandler := { fallback_count : Z }.

Definition handle_failure (self : FallbackHandler) (rule : Rule)
    (content error : string) : option Violation * FallbackHandler :=
  let self := {| fallback_count := fallback_count self + 1 |} in
  if bool_decide (tier rule = SAFETY) then
    let violation :=
      {| rule_id := "fallback_" +:+ id rule;
         rule_name := "Fallback: " +:+ name rule;
         rule_tier := tier rule;
         rule_severity := HIGH;
         violation_type := CUSTOM_VIOLATION;
         matched_content := Some "";
         matched_patterns := [];
         confidence_score := 0.5%float;
         action_taken := WARNING;
         blocked := false;
         user_override_allowed := true;
         explanation := Some ("Rule enforcement failed. Error: " +:+ error);
         violation_context := ∅ |} in
    (Some violation, self)
  else (None, self).

End Enforcement.

(* ===================================================================== *)
(** ** conflict_resolution *)
(* ===================================================================== *)

Module Conflict.

(** Rules reach the conflict subsystem as [Dict[str, Any]]. *)
Abbreviation RuleDict := (gmap string PyVal).

(** [d.get(key, fallback)] *)
Definition get (d : RuleDict) (key : string) (fallback : PyVal) : PyVal :=
  default fallback (d !! key).

(** [a - b] on dictionary values: defined on two ints. *)
Definition py_sub (a b : PyVal) : result Z :=
  match a, b with
  | PInt x, PInt y => Ok (x - y)
  | _, _ => Raise (TypeError "unsupported operand type(s) for -")
  end.

(** *** resolution_strategies/priority_based.py *)

Record ResolutionResult := {
  winning_rule_id : PyVal;
  losing_rule_id : PyVal;
  strategy : string;
  reason : string
}.

(** [self.tier_weights], set once in [__init__]. *)
Definition tier_weights : gmap string Z :=
  list_to_map [("safety", 1000); ("operational", 500); ("preference", 100)].

(** [self.tier_weights.get(tier, 0)] for a key of any type. *)
Definition weight_of (tier : PyVal) : Z :=
  match tier with
  | PStr s => default 0 (tier_weights !! s)
  | _ => 0
  end.

(** [weight + (1000 - priority)] of one rule. *)
Definition score (rule : RuleDict) : result Z :=
  let tier := get rule "tier" (PStr "preference") in
  let weight := weight_of tier in
  let priority := get rule "priority" (PInt 100) in
  try! d := py_sub (PInt 1000) priority in
  Ok (weight + d).

(** [PriorityBasedResolver.resolve] *)
Definition resolve (rule_1 rule_2 : RuleDict) : result ResolutionResult :=
  let tier_1 := get rule_1 "tier" (PStr "preference") in
  let tier_2 := get rule_2 "tier" (PStr "preference") in
  let priority_1 := get rule_1 "priority" (PInt 100) in
  let priority_2 := get rule_2 "priority" (PInt 100) in
  try! score_1 := score rule_1 in
  try! score_2 := score rule_2 in
  if (score_1 >? score_2)%Z then
    Ok {| winning_rule_id := get rule_1 "id" (PStr "unknown");
          losing_rule_id := get rule_2 "id" (PStr "unknown");
          strategy := "priority_based";
          reason := "Higher priority: " +:+ py_str tier_1
                    +:+ " tier with priority " +:+ py_str priority_1 |}
  else
    Ok {| winning_rule_id := get rule_2 "id" (PStr "unknown");
          losing_rule_id := get rule_1 "id" (PStr "unknown");
          strategy := "priority_based";
          reason := "Higher priority: " +:+ py_str tier_2
                    +:+ " tier with priority " +:+ py_str priority_2 |}.

(** *** conflict_detectors/priority_conflict_detector.py *)

Record PriorityConflict := {
  rule_1_id : PyVal;
  rule_2_id : PyVal;
  tier_1 : PyVal;
  tier_2 : PyVal;
  conflict_description : string
}.

(** [PriorityConflictDetector.detect_priority_conflict] *)
Definition detect_priority_conflict (rule_1 rule_2 : RuleDict)
  : result (option PriorityConflict) :=
  let t1 := get rule_1 "tier" (PStr "preference") in
  let t2 := get rule_2 "tier" (PStr "preference") in
  if bool_decide (t1 = t2) then
    let priority_1 := get rule_1 "priority" (PInt 100) in
    let priority_2 := get rule_2 "priority" (PInt 100) in
    try! gap := py_sub priority_1 priority_2 in
    if (Z.abs gap >? 50)%Z then
      Ok (Some {| rule_1_id := get rule_1 "id" (PStr "unknown");
                  rule_2_id := get rule_2 "id" (PStr "unknown");
                  tier_1 := t1;
                  tier_2 := t2;
                  conflict_description :=
                    "Large priority gap: " +:+ py_str priority_1
                    +:+ " vs " +:+ py_str priority_2 |})
    else Ok None
  else Ok None.

End Conflict.

(* ===================================================================== *)
(** ** core/tiered_rules: the three tier evaluators *)
(* ===================================================================== *)

(** Each evaluator scans its own built-in pattern table against the
    lower-cased content and counts its runs in [evaluation_count].  None
    of them has a raising path; they still answer in [result] because
    the orchestrator calls them under [try]/[except]. *)

Module SafetyEngine.

Record t := { evaluation_count : Z; block_count : Z }.

Record pattern_data := {
  pattern : string; pattern_severity : RuleSeverity; category : string
}.

(** [_get_safety_patterns] *)
Definition _get_safety_patterns : list pattern_data :=
  [ {| pattern := "child exploitation"; pattern_severity := CRITICAL;
       category := "child_safety" |};
    {| pattern := "how to make a bomb"; pattern_severity := CRITICAL;
       category := "dangerous_content" |};
    {| pattern := "create weapon"; pattern_severity := HIGH;
       category := "weapons" |};
    {| pattern := "malware code"; pattern_severity := HIGH;
       category := "malicious_code" |} ].

Definition make_violation (request : RuleEvaluationRequest) (pd : pattern_data)
  : Violation :=
  {| rule_id := "safety_" +:+ category pd;
     rule_name := "Safety Rule: " +:+ category pd;
     rule_tier := SAFETY;
     rule_severity := pattern_severity pd;
     violation_type := KEYWORD_MATCH;
     matched_content := Some (pattern pd);
     matched_patterns := [pattern pd];
     confidence_score := 0.95%float;
     action_taken := BLOCK;
     blocked := true;
     user_override_allowed := false;
     explanation := Some ("Safety violation detected: " +:+ category pd);
     violation_context := context_dict (context request) |}.

(** One turn of [for pattern_data in safety_patterns]. *)
Definition step (request : RuleEvaluationRequest) (content_lower : string)
    (acc : ValidationResult * t) (pd : pattern_data) : ValidationResult * t :=
  let (result, self) := acc in
  if contains (pattern pd) content_lower then
    let violation := make_violation request pd in
    ({| valid := false;
        total_score := total_score result;
        confidence := confidence result;
        total_rules_evaluated := total_rules_evaluated result;
        rules_triggered := rules_triggered result;
        rules_violated := rules_violated result;
        violations := violations result ++ [violation];
        critical_violations := critical_violations result ++ [violation];
        warnings := warnings result;
        suggestions := suggestions result |},
     {| evaluation_count := evaluation_count self;
        block_count := block_count self + 1 |})
  else acc.

(** [SafetyRuleEngine.evaluate] *)
Definition evaluate (self : t) (request : RuleEvaluationRequest)
  : result ValidationResult * t :=
  let result := new_result true 1.0%float 1.0%float in
  let safety_patterns := _get_safety_patterns in
  let content_lower := lower (content request) in
  let (result, self) :=
    fold_left (step request content_lower) safety_patterns (result, self) in
  let self := {| evaluation_count := evaluation_count self + 1;
                 block_count := block_count self |} in
  (Ok {| valid := valid result;
         total_score := total_score result;
         confidence := confidence result;
         total_rules_evaluated := Z.of_nat (length safety_patterns);
         rules_triggered := Z.of_nat (length (violations result));
         rules_violated := rules_violated result;
         violations := violations result;
         critical_violations := critical_violations result;
         warnings := warnings result;
         suggestions := suggestions result |},
   self).

End SafetyEngine.

Module OperationalEngine.

Record t := { evaluation_count : Z; warning_count : Z }.

Record pattern_data := {
  pattern : string; pattern_severity : RuleSeverity; category : string;
  action : ActionTaken
}.

(** [_get_operational_patterns] *)
Definition _get_operational_patterns : list pattern_data :=
  [ {| pattern := "copyright violation"; pattern_severity := MEDIUM;
       category := "copyright"; action := WARNING |};
    {| pattern := "personal information"; pattern_severity := HIGH;
       category := "pii"; action := BLOCK |};
    {| pattern := "inappropriate language"; pattern_severity := LOW;
       category := "language"; action := WARNING |} ].

Definition make_violation (request : RuleEvaluationRequest) (pd : pattern_data)
  : Violation :=
  {| rule_id := "operational_" +:+ category pd;
     rule_name := "Operational Rule: " +:+ category pd;
     rule_tier := OPERATIONAL;
     rule_severity := pattern_severity pd;
     violation_type := COMPLIANCE_VIOLATION;
     matched_content := Some (pattern pd);
     matched_patterns := [pattern pd];
     confidence_score := 0.85%float;
     action_taken := action pd;
     blocked := bool_decide (action pd = BLOCK);
     user_override_allowed := true;
     explanation := Some ("Operational guideline: " +:+ category pd);
     violation_context := context_dict (context request) |}.

Definition step (request : RuleEvaluationRequest) (content_lower : string)
    (acc : ValidationResult * t) (pd : pattern_data) : ValidationResult * t :=
  let (result, self) := acc in
  if contains (pattern pd) content_lower then
    let violation := make_violation request pd in
    ({| valid := if bool_decide (action pd = BLOCK) then false else valid result;
        total_score := total_score result;
        confidence := confidence result;
        total_rules_evaluated := total_rules_evaluated result;
        rules_triggered := rules_triggered result;
        rules_violated := rules_violated result;
        violations := violations result ++ [violation];
        critical_violations := critical_violations result;
        warnings := if bool_decide (action pd = WARNING)
                    then warnings result ++ [violation] else warnings result;
        suggestions := suggestions result |},
     {| evaluation_count := evaluation_count self;
        warning_count := warning_count self + 1 |})
  else acc.

(** [OperationalRuleEngine.evaluate] *)
Definition evaluate (self : t) (request : RuleEvaluationRequest)
  : result ValidationResult * t :=
  let result := new_result true 1.0%float 0.9%float in
  let operational_patterns := _get_operational_patterns in
  let content_lower := lower (content request) in
  let (result, self) :=
    fold_left (step request content_lower) operational_patterns (result, self) in
  let self := {| evaluation_count := evaluation_count self + 1;
                 warning_count := warning_count self |} in
  (Ok {| valid := valid result;
         total_score := total_score result;
         confidence := confidence result;
         total_rules_evaluated := Z.of_nat (length operational_patterns);
         rules_triggered := Z.of_nat (length (violations result));
         rules_violated := rules_violated result;
         violations := violations result;
         critical_violations := critical_violations result;
         warnings := warnings result;
         suggestions := suggestions result |},
   self).

End OperationalEngine.

Module PreferenceEngine.

Record t := { evaluation_count : Z; suggestion_count : Z }.

Record pattern_data := {
  pattern : string; category : string; suggestion : string
}.

(** [_get_preference_patterns] *)
Definition _get_preference_patterns : list pattern_data :=
  [ {| pattern := "informal tone"; category := "tone";
       suggestion := "Consider using a more professional tone" |};
    {| pattern := "no formatting"; category := "formatting";
       suggestion := "Add proper formatting for better readability" |} ].

Definition make_suggestion (pd : pattern_data) : Suggestion :=
  {| suggestion_type := "preference";
     title := "Preference: " +:+ category pd;
     suggestion_description := suggestion pd;
     suggestion_confidence := 0.75%float;
     auto_applicable := false;
     user_approval_required := true;
     source_rule := Some ("preference_" +:+ category pd) |}.

Definition step (content_lower : string)
    (acc : ValidationResult * t) (pd : pattern_data) : ValidationResult * t :=
  let (result, self) := acc in
  if contains (pattern pd) content_lower then
    ({| valid := valid result;
        total_score := total_score result;
        confidence := confidence result;
        total_rules_evaluated := total_rules_evaluated result;
        rules_triggered := rules_triggered result;
        rules_violated := rules_violated result;
        violations := violations result;
        critical_violations := critical_violations result;
        warnings := warnings result;
        suggestions := suggestions result ++ [make_suggestion pd] |},
     {| evaluation_count := evaluation_count self;
        suggestion_count := suggestion_count self + 1 |})
  else acc.

(** [PreferenceRuleEngine.evaluate] *)
Definition evaluate (self : t) (request : RuleEvaluationRequest)
  : result ValidationResult * t :=
  let result := new_result true 1.0%float 0.8%float in
  let preference_patterns := _get_preference_patterns in
  let content_lower := lower (content request) in
  let (result, self) :=
    fold_left (step content_lower) preference_patterns (result, self) in
  let self := {| evaluation_count := evaluation_count self + 1;
                 suggestion_count := suggestion_count self |} in
  (Ok {| valid := valid result;
         total_score := total_score result;
         confidence := confidence result;
         total_rules_evaluated := Z.of_nat (length preference_patterns);
         rules_triggered := rules_triggered result;
         rules_violated := rules_violated result;
         violations := violations result;
         critical_violations := critical_violations result;
         warnings := warnings result;
         suggestions := suggestions result |},
   self).

End PreferenceEngine.

(* ===================================================================== *)
(** ** core/rule_engine.py: the evaluation orchestrator *)
(* ===================================================================== *)

Module Engine.

(** [self.evaluation_stats]; [average_time_ms], a function of wall-clock
    readings only, is left out. *)
Record Stats := {
  total_evaluations : Z;
  successful_evaluations : Z;
  failed_evaluations : Z;
  violations_detected : Z;
  blocks_applied : Z
}.

(** One value of [self.evaluation_cache]; [datetime] values are counted
    in microseconds, the resolution [datetime] has. *)
Record CacheItem := { cached_result : ValidationResult; cached_timestamp : Z }.

(** The rule repository the engine is constructed with, seen through the
    four queries the engine sends it; each may raise. *)
Record RuleManager := {
  get_rule : string -> result (option Rule);
  get_rules_by_tier : RuleTier -> result (list Rule);
  get_rules_by_type : RuleType -> result (list Rule);
  get_applicable_rules : RuleContext -> result (list Rule)
}.

(** [hashlib.sha256(s.encode()).hexdigest()] and [hash(str(context))],
    which the cache key is built from. *)
Record Hashing := {
  sha256_hexdigest : string -> string;
  hash_of_context : RuleContext -> Z
}.

(** The readings of [datetime.utcnow()] one call of [evaluate] takes,
    in the order it takes them. *)
Record Clock := { at_lookup : Z; at_context : Z; at_store : Z }.

Record RuleEngine := {
  rule_manager : option RuleManager;
  evaluation_stats : Stats;
  evaluation_cache : list (string * CacheItem);
  cache_ttl : Z;
  safety_engine : SafetyEngine.t;
  operational_engine : OperationalEngine.t;
  preference_engine : PreferenceEngine.t
}.

(** [RuleEngine.__init__] with [_initialize_tier_engines] *)
Definition init (rule_manager : option RuleManager) : RuleEngine :=
  {| rule_manager := rule_manager;
     evaluation_stats :=
       {| total_evaluations := 0; successful_evaluations := 0;
          failed_evaluations := 0; violations_detected := 0;
          blocks_applied := 0 |};
     evaluation_cache := [];
     cache_ttl := 300;
     safety_engine :=
       {| SafetyEngine.evaluation_count := 0; SafetyEngine.block_count := 0 |};
     operational_engine :=
       {| OperationalEngine.evaluation_count := 0;
          OperationalEngine.warning_count := 0 |};
     preference_engine :=
       {| PreferenceEngine.evaluation_count := 0;
          PreferenceEngine.suggestion_count := 0 |} |}.

Definition set_cache (self : RuleEngine) (c : list (string * CacheItem)) : RuleEngine :=
  {| rule_manager := rule_manager self; evaluation_stats := evaluation_stats self;
     evaluation_cache := c; cache_ttl := cache_ttl self;
     safety_engine := safety_engine self;
     operational_engine := operational_engine self;
     preference_engine := preference_engine self |}.

Definition set_stats (self : RuleEngine) (st : Stats) : RuleEngine :=
  {| rule_manager := rule_manager self; evaluation_stats := st;
     evaluation_cache := evaluation_cache self; cache_ttl := cache_ttl self;
     safety_engine := safety_engine self;
     operational_engine := operational_engine self;
     preference_engine := preference_engine self |}.

Definition set_safety (self : RuleEngine) (e : SafetyEngine.t) : RuleEngine :=
  {| rule_manager := rule_manager self; evaluation_stats := evaluation_stats self;
     evaluation_cache := evaluation_cache self; cache_ttl := cache_ttl self;
     safety_engine := e;
     operational_engine := operational_engine self;
     preference_engine := preference_engine self |}.

Definition set_operational (self : RuleEngine) (e : OperationalEngine.t) : RuleEngine :=
  {| rule_manager := rule_manager self; evaluation_stats := evaluation_stats self;
     evaluation_cache := evaluation_cache self; cache_ttl := cache_ttl self;
     safety_engine := safety_engine self;
     operational_engine := e;
     preference_engine := preference_engine self |}.

Definition set_preference (self : RuleEngine) (e : PreferenceEngine.t) : RuleEngine :=
  {| rule_manager := rule_manager self; evaluation_stats := evaluation_stats self;
     evaluation_cache := evaluation_cache self; cache_ttl := cache_ttl self;
     safety_engine := safety_engine self;
     operational_engine := operational_engine self;
     preference_engine := e |}.

(** *** The cache as an insertion-ordered dictionary *)

Section Dict.
Context {V : Type}.

(** [d[k]] / [k in d] *)
Fixpoint dict_get (d : list (string * V)) (k : string) : option V :=
  match d with
  | [] => None
  | (k', v) :: rest => if bool_decide (k' = k) then Some v else dict_get rest k
  end.

(** [d[k] = v]: an old key keeps its place, a new one goes last. *)
Fixpoint dict_set (d : list (string * V)) (k : string) (v : V) : list (string * V) :=
  match d with
  | [] => [(k, v)]
  | (k', v') :: rest =>
      if bool_decide (k' = k) then (k, v) :: rest else (k', v') :: dict_set rest k v
  end.

(** [del d[k]]: no binding of [k] is left. *)
Fixpoint dict_del (d : list (string * V)) (k : string) : list (string * V) :=
  match d with
  | [] => []
  | (k', v') :: rest =>
      if bool_decide (k' = k) then dict_del rest k else (k', v') :: dict_del rest k
  end.
End Dict.

(** [sorted(cache.keys(), key=lambda k: cache[k]['timestamp'])]: a stable
    sort of the entries by time stamp. *)
Fixpoint insert_by_timestamp (x : string * CacheItem) (l : list (string * CacheItem))
  : list (string * CacheItem) :=
  match l with
  | [] => [x]
  | y :: rest =>
      if (cached_timestamp (snd y) <? cached_timestamp (snd x))%Z
      then y :: insert_by_timestamp x rest
      else x :: y :: rest
  end.

Definition sorted_by_timestamp (d : list (string * CacheItem)) : list string :=
  map fst (fold_right insert_by_timestamp [] d).

(** [delta.total_seconds() < seconds] for a [timedelta] of [delta_us]
    microseconds and an integer number of seconds.  The quotient
    [delta_us / 10**6] is below [seconds] exactly when [delta_us] is
    below [seconds * 10**6]. *)
Definition total_seconds_lt (delta_us seconds : Z) : bool :=
  (delta_us <? seconds * 1000000)%Z.

(** *** Name resolution in rule_engine.py *)

(** The names the module binds at top level: its imports, [logger] and
    the class itself. *)
Definition module_globals : list string :=
  [ "asyncio"; "time"; "List"; "Dict"; "Any"; "Optional"; "Union"; "Set";
    "datetime"; "logging"; "ThreadPoolExecutor"; "TimeoutError"; "hashlib";
    "Rule"; "RuleTier"; "RuleType"; "RuleContext"; "RuleEvaluationRequest";
    "ValidationResult"; "Violation"; "ViolationType"; "ActionTaken"; "Suggestion";
    "RuleConflict"; "ConflictType"; "ConflictResolution"; "ResolutionStrategy";
    "logger"; "RuleEngine" ].

(** Looking a global name up when the expression naming it is run. *)
Definition load_global (name : string) : result unit :=
  if bool_decide (name ∈ module_globals) then Ok tt else Raise (NameError name).

Section WithHashing.
Variable H : Hashing.

(** [_get_content_hash] *)
Definition _get_content_hash (content : string) : string :=
  String.substring 0 16 (sha256_hexdigest H content).

(** [f"{content_hash}:{hash(str(context)) if context else 'no_context'}"] *)
Definition cache_key (content_hash : string) (context : option RuleContext) : string :=
  content_hash +:+ ":" +:+
  match context with
  | Some c => pretty (hash_of_context H c)
  | None => "no_context"
  end.

(** [_get_cached_result], at clock reading [now] *)
Definition _get_cached_result (self : RuleEngine) (now : Z)
    (content_hash : string) (context : option RuleContext)
  : option ValidationResult * RuleEngine :=
  let key := cache_key content_hash context in
  match dict_get (evaluation_cache self) key with
  | Some cached_item =>
      let timestamp := cached_timestamp cached_item in
      if total_seconds_lt (now - timestamp) (cache_ttl self)
      then (Some (cached_result cached_item), self)
      else (None, set_cache self (dict_del (evaluation_cache self) key))
  | None => (None, self)
  end.

(** [_cache_result], at clock reading [now] *)
Definition _cache_result (self : RuleEngine) (now : Z) (content_hash : string)
    (context : option RuleContext) (result : ValidationResult) : RuleEngine :=
  let key := cache_key content_hash context in
  let cache :=
    dict_set (evaluation_cache self) key
             {| cached_result := result; cached_timestamp := now |} in
  if (Z.of_nat (length cache) >? 1000)%Z then
    let oldest_keys := take 100 (sorted_by_timestamp cache) in
    set_cache self (fold_left dict_del oldest_keys cache)
  else set_cache self cache.

(** The default [RuleContext()], created at clock reading [now]. *)
Definition default_context (now : Z) : RuleContext :=
  {| user_id := None; session_id := None; domain := None; user_role := None;
     content_type := None; content_length := None; language := None;
     organization := None; project := None; business_process := None;
     timestamp := now; time_zone := None; metadata := ∅ |}.

(** [rule and rule.status.value == "active"] *)
Definition is_active_rule (rule : option Rule) : result bool :=
  match rule with
  | None => Ok false
  | Some r =>
      try! value := dot_value (held_status r) in
      Ok (bool_decide (value = "active"))
  end.

(** [for rule_id in request.rule_ids: ...] *)
Fixpoint rules_by_ids (m : RuleManager) (ids : list string) : result (list Rule) :=
  match ids with
  | [] => Ok []
  | rule_id :: rest =>
      try! rule := get_rule m rule_id in
      try! active := is_active_rule rule in
      try! rules := rules_by_ids m rest in
      Ok (match rule with
          | Some r => if active then r :: rules else rules
          | None => rules
          end)
  end.

(** [for rule_type in request.rule_types: rules.extend(...)] *)
Fixpoint rules_by_types (m : RuleManager) (types : list RuleType)
  : result (list Rule) :=
  match types with
  | [] => Ok []
  | rule_type :: rest =>
      try! here := get_rules_by_type m rule_type in
      try! rules := rules_by_types m rest in
      Ok (here ++ rules)%list
  end.

(** [_get_applicable_rules] *)
Definition _get_applicable_rules (self : RuleEngine) (now : Z)
    (request : RuleEvaluationRequest) : result (list Rule) :=
  match rule_manager self with
  | None => Ok []
  | Some m =>
      match rule_ids request with
      | Some (i :: ids) => rules_by_ids m (i :: ids)
      | _ =>
          match req_tier request with
          | Some tier => get_rules_by_tier m tier
          | None =>
              match rule_types request with
              | Some (ty :: tys) => rules_by_types m (ty :: tys)
              | _ =>
                  let context :=
                    default (default_context now) (context request) in
                  get_applicable_rules m context
              end
          end
      end
  end.

(** [_get_action_for_rule] *)
Definition _get_action_for_rule (rule : Rule) : result ActionTaken :=
  try! value := dot_value (held_enforcement_level rule) in
  if bool_decide (value = "strict") then Ok BLOCK else
  try! value := dot_value (held_enforcement_level rule) in
  if bool_decide (value = "advisory") then Ok WARNING else
  try! value := dot_value (held_enforcement_level rule) in
  if bool_decide (value = "adaptive") then Ok SUGGESTION else
  Ok NONE.

(** [_evaluate_single_rule] *)
Definition _evaluate_single_rule (rule : Rule) (content : string)
    (context : option RuleContext) : result (option Violation) :=
  try! applicable :=
    match context with
    | Some c => is_applicable_to_context rule (get_effective_context c)
    | None => Ok true
    end in
  if negb applicable then Ok None else
  match Enforcement.first_match (patterns rule) content with
  | Some keyword =>
      try! action := _get_action_for_rule rule in
      Ok (Some
        {| rule_id := id rule;
           rule_name := name rule;
           rule_tier := tier rule;
           rule_severity := severity rule;
           violation_type := KEYWORD_MATCH;
           matched_content := Some keyword;
           matched_patterns := [keyword];
           confidence_score := 0.8%float;
           action_taken := action;
           blocked := auto_block rule;
           user_override_allowed := user_override rule;
           explanation :=
             Some ("Content contains prohibited keyword: " +:+ keyword);
           violation_context := context_dict context |})
  | None => Ok None
  end.

(** One turn of the loop of [_evaluate_rules_directly]; an exception of
    the single-rule evaluation is logged and the loop goes on. *)
Definition direct_step (request : RuleEvaluationRequest)
    (result : ValidationResult) (rule : Rule) : ValidationResult :=
  match _evaluate_single_rule rule (content request) (context request) with
  | Ok (Some violation) =>
      {| valid := if blocked violation then false else valid result;
         total_score := total_score result;
         confidence := confidence result;
         total_rules_evaluated := total_rules_evaluated result;
         rules_triggered := rules_triggered result;
         rules_violated := rules_violated result;
         violations := violations result ++ [violation];
         critical_violations :=
           if is_critical violation
           then critical_violations result ++ [violation]
           else critical_violations result;
         warnings :=
           if bool_decide (action_taken violation = WARNING)
           then warnings result ++ [violation] else warnings result;
         suggestions := suggestions result |}
  | Ok None => result
  | Raise _ => result
  end.

(** [_evaluate_rules_directly] *)
Definition _evaluate_rules_directly (result : ValidationResult)
    (rules : list Rule) (request : RuleEvaluationRequest) : ValidationResult :=
  fold_left (direct_step request) rules result.

(** [_merge_tier_result] *)
Definition _merge_tier_result (main_result tier_result : ValidationResult)
  : ValidationResult :=
  {| valid := if negb (valid tier_result) then false else valid main_result;
     total_score := fmin (total_score main_result) (total_score tier_result);
     confidence := ((confidence main_result + confidence tier_result) / 2)%float;
     total_rules_evaluated := total_rules_evaluated main_result;
     rules_triggered := rules_triggered main_result;
     rules_violated := rules_violated main_result;
     violations := violations main_result ++ violations tier_result;
     critical_violations :=
       critical_violations main_result ++ critical_violations tier_result;
     warnings := warnings main_result ++ warnings tier_result;
     suggestions := suggestions main_result ++ suggestions tier_result |}.

(** The loop [for rule in rules: rules_by_tier[rule.tier].append(rule)];
    a tier is a key of the dictionary once a rule of it was seen. *)
Definition group_step (d : RuleTier -> option (list Rule)) (rule : Rule)
  : RuleTier -> option (list Rule) :=
  fun t =>
    if bool_decide (t = tier rule)
    then Some (default [] (d t) ++ [rule])%list
    else d t.

Definition group_by_tier (rules : list Rule) : RuleTier -> option (list Rule) :=
  fold_left group_step rules (fun _ => None).

(** [self.tier_engines.get(tier)] followed by [tier_engine.evaluate].
    [_initialize_tier_engines] stores an evaluator under each of the
    three tiers and nothing removes one, so the lookup always finds
    its evaluator and the source's arm for a missing one is never
    taken. *)
Definition run_tier_engine (self : RuleEngine) (tier : RuleTier)
    (request : RuleEvaluationRequest) : result ValidationResult * RuleEngine :=
  match tier with
  | SAFETY =>
      let (r, e) := SafetyEngine.evaluate (safety_engine self) request in
      (r, set_safety self e)
  | OPERATIONAL =>
      let (r, e) := OperationalEngine.evaluate (operational_engine self) request in
      (r, set_operational self e)
  | PREFERENCE =>
      let (r, e) := PreferenceEngine.evaluate (preference_engine self) request in
      (r, set_preference self e)
  end.

(** The request handed to a tier evaluator by [_evaluate_by_tiers]. *)
Definition tier_request (request : RuleEvaluationRequest) (tier_rules : list Rule)
  : RuleEvaluationRequest :=
  {| content := content request;
     context := context request;
     rule_ids := Some (map id tier_rules);
     req_tier := None;
     rule_types := None;
     options := options request;
     req_timeout_ms := 1000;
     parallel_evaluation := true;
     early_termination := true |}.

(** [for tier in tier_order] of [_evaluate_by_tiers]. *)
Fixpoint tier_loop (tiers : list RuleTier) (request : RuleEvaluationRequest)
    (rules_by_tier : RuleTier -> option (list Rule))
    (acc : ValidationResult * RuleEngine) : ValidationResult * RuleEngine :=
  match tiers with
  | [] => acc
  | tier :: rest =>
      let (result, self) := acc in
      match rules_by_tier tier with
      | None => tier_loop rest request rules_by_tier acc
      | Some tier_rules =>
          let (tier_result, self) :=
            run_tier_engine self tier (tier_request request tier_rules) in
          match tier_result with
          | Ok tier_result =>
              let result := _merge_tier_result result tier_result in
              if bool_decide (tier = SAFETY) && is_blocked result
              then (result, self)
              else tier_loop rest request rules_by_tier (result, self)
          | Raise _ =>
              let result := _evaluate_rules_directly result tier_rules request in
              tier_loop rest request rules_by_tier (result, self)
          end
      end
  end.

(** [_evaluate_by_tiers] *)
Definition _evaluate_by_tiers (self : RuleEngine) (request : RuleEvaluationRequest)
    (rules : list Rule) : ValidationResult * RuleEngine :=
  let rules_by_tier := group_by_tier rules in
  let result := new_result true 1.0%float 1.0%float in
  let tier_order := [SAFETY; OPERATIONAL; PREFERENCE] in
  let (result, self) := tier_loop tier_order request rules_by_tier (result, self) in
  ({| valid := valid result;
      total_score := total_score result;
      confidence := confidence result;
      total_rules_evaluated := Z.of_nat (length rules);
      rules_triggered := Z.of_nat (length (violations result));
      rules_violated :=
        Z.of_nat (length (List.filter
          (fun v => negb (bool_decide (action_taken v = NONE)))
          (violations result)));
      violations := violations result;
      critical_violations := critical_violations result;
      warnings := warnings result;
      suggestions := suggestions result |},
   self).

(** [for tier in ...] of [evaluate_tiered]. *)
Fixpoint tiered_loop (tiers : list RuleTier) (request : RuleEvaluationRequest)
    (acc : ValidationResult * RuleEngine) : ValidationResult * RuleEngine :=
  match tiers with
  | [] => acc
  | tier :: rest =>
      let (result, self) := acc in
      let skip :=
        match req_tier request with
        | Some t => negb (bool_decide (t = tier))
        | None => false
        end in
      if skip then tiered_loop rest request acc else
      let (tier_result, self) := run_tier_engine self tier request in
      match tier_result with
      | Ok tier_result =>
          let result := _merge_tier_result result tier_result in
          if bool_decide (tier = SAFETY) && is_blocked result
          then (result, self)
          else tiered_loop rest request (result, self)
      | Raise _ => tiered_loop rest request (result, self)
      end
  end.

(** [evaluate_tiered] *)
Definition evaluate_tiered (self : RuleEngine) (request : RuleEvaluationRequest)
  : ValidationResult * RuleEngine :=
  tiered_loop [SAFETY; OPERATIONAL; PREFERENCE] request
              (new_result true 1.0%float 1.0%float, self).

(** [_create_empty_result] *)
Definition _create_empty_result : ValidationResult :=
  new_result true 1.0%float 1.0%float.

(** [_create_error_result].  The call names, in evaluation order, the
    globals [ValidationResult], [Violation], [RuleTier], [RuleSeverity],
    [ViolationType] and [ActionTaken]. *)
Definition _create_error_result (request : RuleEvaluationRequest) (error : string)
  : result ValidationResult :=
  try! _v := load_global "ValidationResult" in
  try! _v := load_global "Violation" in
  try! _v := load_global "RuleTier" in
  try! _v := load_global "RuleSeverity" in
  try! _v := load_global "ViolationType" in
  try! _v := load_global "ActionTaken" in
  let violation :=
    {| rule_id := "system_error";
       rule_name := "System Error";
       rule_tier := SAFETY;
       rule_severity := CRITICAL;
       violation_type := CUSTOM_VIOLATION;
       matched_content := None;
       matched_patterns := [];
       confidence_score := 1.0%float;
       action_taken := BLOCK;
       blocked := true;
       user_override_allowed := false;
       explanation := Some ("Evaluation failed: " +:+ error);
       violation_context := ∅ |} in
  Ok {| valid := false;
        total_score := 0.0%float;
        confidence := 0.0%float;
        total_rules_evaluated := 0;
        rules_triggered := 0;
        rules_violated := 0;
        violations := [violation];
        critical_violations := [];
        warnings := [];
        suggestions := [] |}.

(** [_update_statistics] *)
Definition _update_statistics (self : RuleEngine) (result : ValidationResult)
  : RuleEngine :=
  let st := evaluation_stats self in
  set_stats self
    {| total_evaluations := total_evaluations st + 1;
       successful_evaluations :=
         if valid result then successful_evaluations st + 1
         else successful_evaluations st;
       failed_evaluations :=
         if valid result then failed_evaluations st
         else failed_evaluations st + 1;
       violations_detected :=
         if has_violations result
         then violations_detected st + Z.of_nat (length (violations result))
         else violations_detected st;
       blocks_applied :=
         if is_blocked result then blocks_applied st + 1
         else blocks_applied st |}.

(** The [try] suite of [evaluate]: what it returns or raises, and the
    engine as the suite leaves it. *)
Definition evaluate_body (self : RuleEngine) (clock : Clock)
    (request : RuleEvaluationRequest) : result ValidationResult * RuleEngine :=
  let content_hash := _get_content_hash (content request) in
  let (cached_result, self) :=
    _get_cached_result self (at_lookup clock) content_hash (context request) in
  match cached_result with
  | Some cached => (Ok cached, self)
  | None =>
      match _get_applicable_rules self (at_context clock) request with
      | Raise e => (Raise e, self)
      | Ok [] => (Ok _create_empty_result, self)
      | Ok applicable_rules =>
          let (result, self) := _evaluate_by_tiers self request applicable_rules in
          let self := _update_statistics self result in
          let self :=
            _cache_result self (at_store clock) content_hash
                          (context request) result in
          (Ok result, self)
      end
  end.

(** [evaluate]: the suite above under [except Exception as e]. *)
Definition evaluate (self : RuleEngine) (clock : Clock)
    (request : RuleEvaluationRequest) : result ValidationResult * RuleEngine :=
  match evaluate_body self clock request with
  | (Ok result, self) => (Ok result, self)
  | (Raise e, self) =>
      let st := evaluation_stats self in
      let self :=
        set_stats self
          {| total_evaluations := total_evaluations st;
             successful_evaluations := successful_evaluations st;
             failed_evaluations := failed_evaluations st + 1;
             violations_detected := violations_detected st;
             blocks_applied := blocks_applied st |} in
      (_create_error_result request (str_of_exn e), self)
  end.

End WithHashing.

End Engine.

(* ===================================================================== *)
(** ** rule_engines/base/rule_manager.py: the rule store *)
(* ===================================================================== *)

Module BaseManager.
Import Engine.

(** [', '.join(parts)] *)
Fixpoint join (parts : list string) : string :=
  match parts with
  | [] => ""
  | [x] => x
  | x :: rest => x +:+ ", " +:+ join rest
  end.

(** [BaseRuleManager]: the rule store with its two indexes and its
    look-aside cache.  The indexes are [defaultdict(list)]: a tier or
    type never appended to reads as the empty list.  Attributes the
    modelled methods never read ([rule_sets], [validation_errors],
    [load_time], [parser], [config_path]) are left out. *)
Record t := {
  rules : list (string * Rule);
  rules_by_tier : RuleTier -> list Rule;
  rules_by_type : RuleType -> list Rule;
  rule_count : Z;
  _rule_cache : list (string * Rule);
  _cache_timestamp : list (string * Z);
  _cache_ttl : Z
}.

(** [BaseRuleManager.__init__] *)
Definition init : t :=
  {| rules := []; rules_by_tier := fun _ => []; rules_by_type := fun _ => [];
     rule_count := 0; _rule_cache := []; _cache_timestamp := []; _cache_ttl := 300 |}.

(** [_update_cache], at clock reading [now] *)
Definition _update_cache (self : t) (now : Z) (rule : Rule) : t :=
  {| rules := rules self;
     rules_by_tier := rules_by_tier self;
     rules_by_type := rules_by_type self;
     rule_count := rule_count self;
     _rule_cache := dict_set (_rule_cache self) (id rule) rule;
     _cache_timestamp := dict_set (_cache_timestamp self) (id rule) now;
     _cache_ttl := _cache_ttl self |}.

(** [_is_cache_valid], at clock reading [now] *)
Definition _is_cache_valid (self : t) (now : Z) (rule_id : string) : bool :=
  match dict_get (_cache_timestamp self) rule_id with
  | None => false
  | Some stamp => total_seconds_lt (now - stamp) (_cache_ttl self)
  end.

(** [add_rule], at clock reading [now]; an invalid rule raises
    [ValueError], a subclass of [Exception], before anything is stored. *)
Definition add_rule (self : t) (now : Z) (rule : Rule) : result unit * t :=
  match Manager.validate_rule rule with
  | [] =>
      let stored := dict_set (rules self) (id rule) rule in
      let self :=
        {| rules := stored;
           rules_by_tier :=
             fun tr => if bool_decide (tr = tier rule)
                       then (rules_by_tier self tr ++ [rule])%list
                       else rules_by_tier self tr;
           rules_by_type :=
             fun ty => if bool_decide (ty = rule_type rule)
                       then (rules_by_type self ty ++ [rule])%list
                       else rules_by_type self ty;
           rule_count := rule_count self;
           _rule_cache := _rule_cache self;
           _cache_timestamp := _cache_timestamp self;
           _cache_ttl := _cache_ttl self |} in
      let self := _update_cache self now rule in
      (Ok tt,
       {| rules := rules self;
          rules_by_tier := rules_by_tier self;
          rules_by_type := rules_by_type self;
          rule_count := Z.of_nat (length (rules self));
          _rule_cache := _rule_cache self;
          _cache_timestamp := _cache_timestamp self;
          _cache_ttl := _cache_ttl self |})
  | errors => (Raise (Exception ("Invalid rule: " +:+ join errors)), self)
  end.

Section WithEquality.
(** [a == b] on two [Rule] objects, which [in] and [list.remove] use. *)
Variable rule_eq : Rule -> Rule -> bool.

(** [l.remove(x)] guarded by [x in l]: the first element equal to [x]
    goes, if there is one. *)
Fixpoint remove_first (x : Rule) (l : list Rule) : list Rule :=
  match l with
  | [] => []
  | y :: rest => if rule_eq y x then rest else y :: remove_first x rest
  end.

(** [remove_rule] *)
Definition remove_rule (self : t) (rule_id : string) : bool * t :=
  match dict_get (rules self) rule_id with
  | None => (false, self)
  | Some rule =>
      let stored := dict_del (rules self) rule_id in
      (true,
       {| rules := stored;
          rules_by_tier :=
            fun tr => if bool_decide (tr = tier rule)
                      then remove_first rule (rules_by_tier self tr)
                      else rules_by_tier self tr;
          rules_by_type :=
            fun ty => if bool_decide (ty = rule_type rule)
                      then remove_first rule (rules_by_type self ty)
                      else rules_by_type self ty;
          rule_count := Z.of_nat (length stored);
          _rule_cache := dict_del (_rule_cache self) rule_id;
          _cache_timestamp := dict_del (_cache_timestamp self) rule_id;
          _cache_ttl := _cache_ttl self |})
  end.
End WithEquality.

(** [get_rule], with the clock reading [now] of the validity check and
    the reading [now'] of the cache refresh *)
Definition get_rule (self : t) (now now' : Z) (rule_id : string) : option Rule * t :=
  let lookup (self : t) :=
    match dict_get (rules self) rule_id with
    | Some rule => (Some rule, _update_cache self now' rule)
    | None => (None, self)
    end in
  match dict_get (_rule_cache self) rule_id with
  | Some cached =>
      if _is_cache_valid self now rule_id then (Some cached, self)
      else
        lookup {| rules := rules self;
                  rules_by_tier := rules_by_tier self;
                  rules_by_type := rules_by_type self;
                  rule_count := rule_count self;
                  _rule_cache := dict_del (_rule_cache self) rule_id;
                  _cache_timestamp := dict_del (_cache_timestamp self) rule_id;
                  _cache_ttl := _cache_ttl self |}
  | None => lookup self
  end.

(** [get_rules_by_tier] *)
Definition get_rules_by_tier (self : t) (tr : RuleTier) : list Rule :=
  rules_by_tier self tr.

(** [get_rules_by_type] *)
Definition get_rules_by_type (self : t) (ty : RuleType) : list Rule :=
  rules_by_type self ty.

(** [get_active_rules] *)
Definition get_active_rules (self : t) : list Rule :=
  List.filter (fun rule => bool_decide (status rule = ACTIVE)) (map snd (rules self)).

(** [for rule in active_rules: if rule.is_applicable_to_context(...)] *)
Fixpoint keep_applicable (ctx : gmap string PyVal) (active_rules : list Rule)
  : result (list Rule) :=
  match active_rules with
  | [] => Ok []
  | rule :: rest =>
      try! applicable := is_applicable_to_context rule ctx in
      try! applicable_rules := keep_applicable ctx rest in
      Ok (if applicable then rule :: applicable_rules else applicable_rules)
  end.

(** [get_applicable_rules] *)
Definition get_applicable_rules (self : t) (context : option RuleContext)
  : result (list Rule) :=
  let active_rules := get_active_rules self in
  match context with
  | None => Ok active_rules
  | Some c => keep_applicable (get_effective_context c) active_rules
  end.

End BaseManager.

(* ===================================================================== *)
(** ** core/rule_engine.py: batches *)
(* ===================================================================== *)

Module EngineBatch.
Import Engine.

Section WithHashing.
Variable H : Hashing.

(** [asyncio.gather] over one [evaluate_single(req)] per request, with
    [return_exceptions=True].  Nothing [evaluate] awaits ever suspends
    (it awaits coroutines of the engine only, and the semaphore is free
    whenever a task starts), so the tasks run to completion one after
    another, in request order, each on the engine the previous one left;
    an exception becomes the result of its task.  [clocks i] holds the
    clock readings of the task of request [i]. *)
Fixpoint gather (self : RuleEngine) (clocks : nat -> Clock) (i : nat)
    (requests : list RuleEvaluationRequest)
  : list (result ValidationResult) * RuleEngine :=
  match requests with
  | [] => ([], self)
  | request :: rest =>
      let (r, self) := evaluate H self (clocks i) request in
      let (rs, self) := gather self clocks (S i) rest in
      (r :: rs, self)
  end.

(** [for i, result in enumerate(results): ...], with [requests[i:]] *)
Fixpoint process_results (requests : list RuleEvaluationRequest)
    (results : list (result ValidationResult)) : result (list ValidationResult) :=
  match results with
  | [] => Ok []
  | Ok r :: results' =>
      try! processed_results := process_results (tail requests) results' in
      Ok (r :: processed_results)
  | Raise e :: results' =>
      match requests with
      | [] => Raise (IndexError "list index out of range")
      | request :: _ =>
          try! r := _create_error_result request (str_of_exn e) in
          try! processed_results := process_results (tail requests) results' in
          Ok (r :: processed_results)
      end
  end.

(** [evaluate_batch] *)
Definition evaluate_batch (self : RuleEngine) (clocks : nat -> Clock)
    (requests : list RuleEvaluationRequest)
  : result (list ValidationResult) * RuleEngine :=
  match requests with
  | [] => (Ok [], self)
  | _ =>
      let (results, self) := gather self clocks 0 requests in
      (process_results requests results, self)
  end.

End WithHashing.

End EngineBatch.

(* ===================================================================== *)
(** ** conflict_detectors/semantic_conflict_detector.py *)
(* ===================================================================== *)

Module SemanticDetector.
Import Conflict.

Record SemanticConflict := {
  rule_1_id : PyVal;
  rule_2_id : PyVal;
  conflict_type : string;
  description : string
}.

(** [self.contradiction_patterns], set once in [__init__]. *)
Definition contradiction_patterns : list (string * string) :=
  [("allow", "deny"); ("enable", "disable"); ("require", "forbid"); ("must", "must_not")].

(** [v.lower()], a method of [str] alone. *)
Definition py_lower (v : PyVal) : result string :=
  match v with
  | PStr s => Ok (lower s)
  | PNone => Raise (AttributeError "'NoneType' object has no attribute 'lower'")
  | PInt _ => Raise (AttributeError "'int' object has no attribute 'lower'")
  | PDatetime _ =>
      Raise (AttributeError "'datetime.datetime' object has no attribute 'lower'")
  end.

(** [for pos, neg in self.contradiction_patterns: if ...: return ...] *)
Fixpoint first_contradiction (rule_1 rule_2 : RuleDict) (desc_1 desc_2 : string)
    (patterns : list (string * string)) : option SemanticConflict :=
  match patterns with
  | [] => None
  | (pos, neg) :: rest =>
      if (contains pos desc_1 && contains neg desc_2)
         || (contains neg desc_1 && contains pos desc_2)
      then Some {| rule_1_id := get rule_1 "id" (PStr "unknown");
                   rule_2_id := get rule_2 "id" (PStr "unknown");
                   conflict_type := "semantic_contradiction";
                   description := "Contradictory terms: " +:+ pos +:+ " vs " +:+ neg |}
      else first_contradiction rule_1 rule_2 desc_1 desc_2 rest
  end.

(** [SemanticConflictDetector.detect_semantic_conflict] *)
Definition detect_semantic_conflict (rule_1 rule_2 : RuleDict)
  : result (option SemanticConflict) :=
  try! desc_1 := py_lower (get rule_1 "description" (PStr "")) in
  try! desc_2 := py_lower (get rule_2 "description" (PStr "")) in
  Ok (first_contradiction rule_1 rule_2 desc_1 desc_2 contradiction_patterns).

End SemanticDetector.

(* ===================================================================== *)
(** ** The specification's scoring rule, and sample rules *)
(* ===================================================================== *)

Module PrioritySpec.
Import Conflict.

(** The specification's table: Safety=1000, Operational=500,
    Preference=100. *)
Definition tier_weight (t : RuleTier) : Z :=
  match t with
  | SAFETY => 1000
  | OPERATIONAL => 500
  | PREFERENCE => 100
  end.

(** The specification's formula: tier_weight(tier) + (1000 - priority). *)
Definition spec_score (t : RuleTier) (priority : Z) : Z :=
  tier_weight t + (1000 - priority).

(** A rule dictionary read as a rule of tier [t] and priority [p], with
    the defaults the code applies to absent keys. *)
Definition describes (d : RuleDict) (t : RuleTier) (p : Z) : Prop :=
  get d "tier" (PStr "preference") = PStr (tier_value t)
  /\ get d "priority" (PInt 100) = PInt p.

(** The identifier a dictionary is reported under. *)
Definition id_of (d : RuleDict) : PyVal := get d "id" (PStr "unknown").

Definition mk_rule (i t : string) (p : Z) : RuleDict :=
  {[ "id" := PStr i; "tier" := PStr t; "priority" := PInt p ]}.

Definition safety_10 : RuleDict := mk_rule "A" "safety" 10.
Definition preference_900 : RuleDict := mk_rule "B" "preference" 900.
Definition tie_rule_a : RuleDict := mk_rule "A" "operational" 100.
Definition tie_rule_b : RuleDict := mk_rule "B" "operational" 100.

End PrioritySpec.

(* ===================================================================== *)
(** ** Matching and letter case, stated apart from the scanning loops *)
(* ===================================================================== *)

Module MatchSpec.

(** Some keyword of some pattern of the rule occurs in the content,
    both taken in lower case. *)
Definition keyword_match (rule : Rule) (content : string) : Prop :=
  exists p k, In p (patterns rule) /\ In k (keywords p)
              /\ contains (lower k) (lower content) = true.


(** The scan found a keyword. *)
Definition found (o : option string) : bool :=
  match o with Some _ => true | None => false end.


(** Two characters that differ at most in letter case: the second is
    the first, or its upper-case form where that is one character, or its
    lower-case form. *)
Definition char_case_variant (a b : ascii) : Prop :=
  b = a \/ upper_char a = Some (String b EmptyString) \/ b = lower_char a.

(** Two strings that differ at most in the letter case of their
    characters. *)
Inductive case_variant : string -> string -> Prop :=
| cv_empty : case_variant EmptyString EmptyString
| cv_char a b s t :
    char_case_variant a b -> case_variant s t ->
    case_variant (String a s) (String b t).



Definition sample_pattern (kws : list string) : RulePattern :=
  {| pattern_type := CONTENT_FILTERING; keywords := kws; regex_patterns := [];
     ml_model := None; confidence_threshold := 0.7%float;
     pattern_action := "warn" |}.

(** A Safety rule as [Rule(...)] builds it when [user_override] is left
    at its default, [True]. *)
Definition sample_safety_rule (kws : list string) : Rule :=
  {| id := "weapons"; name := "Weapons"; description := "No weapons talk";
     tier := SAFETY; rule_type := CONTENT_FILTERING; severity := CRITICAL;
     status := ACTIVE; status_given := false;
     patterns := [sample_pattern kws];
     enforcement_level := STRICT; auto_block := true; user_override := true;
     override_justification_required := false; tags := [];
     priority := 100; timeout_ms := 1000; cache_ttl_seconds := 300 |}.

(** The same rule with the override switched off, as the validator
    demands of a Safety rule. *)
Definition validated_safety_rule (kws : list string) : Rule :=
  {| id := "weapons"; name := "Weapons"; description := "No weapons talk";
     tier := SAFETY; rule_type := CONTENT_FILTERING; severity := CRITICAL;
     status := ACTIVE; status_given := false;
     patterns := [sample_pattern kws];
     enforcement_level := STRICT; auto_block := true; user_override := false;
     override_justification_required := false; tags := [];
     priority := 100; timeout_ms := 1000; cache_ttl_seconds := 300 |}.

(** A Preference rule with the given keywords. *)
Definition sample_preference_rule (kws : list string) : Rule :=
  {| id := "tone"; name := "Tone"; description := "Mind the tone";
     tier := PREFERENCE; rule_type := QUALITY_ASSESSMENT; severity := LOW;
     status := ACTIVE; status_given := false;
     patterns := [sample_pattern kws];
     enforcement_level := ADAPTIVE; auto_block := false; user_override := true;
     override_justification_required := false; tags := [];
     priority := 100; timeout_ms := 1000; cache_ttl_seconds := 300 |}.





End MatchSpec.

(* ===================================================================== *)
(** ** Tier matching, and sample requests *)
(* ===================================================================== *)

Module EngineSpec.
Import Engine.

(** The content trips one of the Safety evaluator's patterns. *)
Definition safety_matches (content : string) : Prop :=
  exists pd, In pd SafetyEngine._get_safety_patterns
             /\ contains (SafetyEngine.pattern pd) (lower content) = true.

(** The content trips one of the Preference evaluator's patterns. *)
Definition preference_matches (content : string) : Prop :=
  exists pd, In pd PreferenceEngine._get_preference_patterns
             /\ contains (PreferenceEngine.pattern pd) (lower content) = true.

(** What an evaluation that stopped after the Safety tier leaves behind:
    the Operational and Preference evaluators' state is untouched
    (their run counters included), the Safety evaluator ran once, no
    suggestion was collected, and every violation is a blocking Safety
    violation listed among the critical ones. *)
Definition only_safety_ran (self : RuleEngine) (out : ValidationResult * RuleEngine)
  : Prop :=
  operational_engine (snd out) = operational_engine self
  /\ preference_engine (snd out) = preference_engine self
  /\ SafetyEngine.evaluation_count (safety_engine (snd out))
     = SafetyEngine.evaluation_count (safety_engine self) + 1
  /\ suggestions (fst out) = []
  /\ is_blocked (fst out) = true
  /\ valid (fst out) = false
  /\ critical_violations (fst out) = violations (fst out)
  /\ Forall (fun v => rule_tier v = SAFETY /\ blocked v = true) (violations (fst out)).

(** The violations the Safety evaluator files for a pattern table. *)
Definition safety_hits (request : RuleEvaluationRequest) (content_lower : string)
    (pats : list SafetyEngine.pattern_data) : list Violation :=
  map (SafetyEngine.make_violation request)
      (List.filter (fun pd => contains (SafetyEngine.pattern pd) content_lower) pats).

(** The age of a time stamp at [now] is below [ttl] seconds. *)
Definition fresh (now timestamp ttl : Z) : Prop :=
  now - timestamp < ttl * 1000000.

(** A stand-in for the two hash functions. *)
Definition sample_hashing : Hashing :=
  {| sha256_hexdigest := fun s => s; hash_of_context := fun _ => 0 |}.

Definition sample_clock : Clock :=
  {| at_lookup := 0; at_context := 0; at_store := 0 |}.

(** [RuleEvaluationRequest(content=c)] *)
Definition sample_request (c : string) : RuleEvaluationRequest :=
  {| content := c; context := None; rule_ids := None; req_tier := None;
     rule_types := None; options := ∅; req_timeout_ms := 1000;
     parallel_evaluation := true; early_termination := true |}.

(** Content that holds the keyword of a Safety rule and the keyword of
    a Preference rule, and the two rules. *)
Definition keyword_request : RuleEvaluationRequest :=
  sample_request "Dangerous weapons in an informal tone".

Definition keyword_rules : list Rule :=
  [MatchSpec.sample_safety_rule ["dangerous weapons"];
   MatchSpec.sample_preference_rule ["informal tone"]].

(** A repository whose every query fails. *)
Definition unavailable_repository : RuleManager :=
  {| get_rule := fun _ => Raise (Exception "repository unavailable");
     get_rules_by_tier := fun _ => Raise (Exception "repository unavailable");
     get_rules_by_type := fun _ => Raise (Exception "repository unavailable");
     get_applicable_rules := fun _ => Raise (Exception "repository unavailable") |}.

(** An engine whose cache holds one entry, stored at time 0. *)
Definition engine_with_entry (r : ValidationResult) : RuleEngine :=
  set_cache (init None)
    [ (cache_key sample_hashing "abc" None,
       {| cached_result := r; cached_timestamp := 0 |}) ].

End EngineSpec.

(* ===================================================================== *)
(** ** The evaluation pipeline, stated apart from its loops *)
(* ===================================================================== *)

Module PipelineSpec.
Import Engine.

(** The violations the Operational evaluator files for a pattern table. *)
Definition operational_hits (request : RuleEvaluationRequest) (content_lower : string)
    (pats : list OperationalEngine.pattern_data) : list Violation :=
  map (OperationalEngine.make_violation request)
      (List.filter (fun pd => contains (OperationalEngine.pattern pd) content_lower) pats).

(** The suggestions the Preference evaluator makes for a pattern table. *)
Definition preference_hits (content_lower : string)
    (pats : list PreferenceEngine.pattern_data) : list Suggestion :=
  map PreferenceEngine.make_suggestion
      (List.filter (fun pd => contains (PreferenceEngine.pattern pd) content_lower) pats).

(** A result whose validity flag and derived lists agree with its
    violations: valid exactly when no violation blocks, and the critical
    and warning lists are sub-lists of the violation list. *)
Definition coherent (r : ValidationResult) : Prop :=
  valid r = negb (is_blocked r)
  /\ sublist (critical_violations r) (violations r)
  /\ sublist (warnings r) (violations r).

(** No built-in pattern of any tier occurs in the content. *)
Definition clean (content : string) : Prop :=
  (forall pd, In pd SafetyEngine._get_safety_patterns ->
     contains (SafetyEngine.pattern pd) (lower content) = false)
  /\ (forall pd, In pd OperationalEngine._get_operational_patterns ->
     contains (OperationalEngine.pattern pd) (lower content) = false)
  /\ (forall pd, In pd PreferenceEngine._get_preference_patterns ->
     contains (PreferenceEngine.pattern pd) (lower content) = false).

(** A result that reports nothing at all. *)
Definition spotless (r : ValidationResult) : Prop :=
  valid r = true /\ violations r = [] /\ critical_violations r = []
  /\ warnings r = [] /\ suggestions r = [].

(** The evaluator of tier [t] is in [self'] as it was in [self]: it did
    not run in between. *)
Definition untouched (t : RuleTier) (self self' : RuleEngine) : Prop :=
  match t with
  | SAFETY => safety_engine self' = safety_engine self
  | OPERATIONAL => operational_engine self' = operational_engine self
  | PREFERENCE => preference_engine self' = preference_engine self
  end.

(** One cache entry is at least as old as another. *)
Definition older_or_same (a b : string * CacheItem) : Prop :=
  cached_timestamp (snd a) <= cached_timestamp (snd b).

(** A cache filled to its bound: a thousand entries, keyed "0" to "999",
    stored at times 0 to 999. *)
Definition full_cache : list (string * CacheItem) :=
  map (fun n => (pretty (Z.of_nat n),
                 {| cached_result := _create_empty_result;
                    cached_timestamp := Z.of_nat n |}))
      (seq 0 1000).

Definition full_engine : RuleEngine := set_cache (init None) full_cache.

(** Two engine states with the same repository, cache, TTL and
    statistics. *)
Definition same_store (a b : RuleEngine) : Prop :=
  evaluation_cache b = evaluation_cache a
  /\ cache_ttl b = cache_ttl a
  /\ rule_manager b = rule_manager a
  /\ evaluation_stats b = evaluation_stats a.

(** A repository that answers every query with one Safety rule. *)
Definition one_rule_repository : RuleManager :=
  {| get_rule := fun _ => Ok (Some (MatchSpec.validated_safety_rule ["bomb"]));
     get_rules_by_tier := fun _ => Ok [MatchSpec.validated_safety_rule ["bomb"]];
     get_rules_by_type := fun _ => Ok [MatchSpec.validated_safety_rule ["bomb"]];
     get_applicable_rules := fun _ => Ok [MatchSpec.validated_safety_rule ["bomb"]] |}.

(** A request that names two rule ids and a tier as well. *)
Definition by_id_request : RuleEvaluationRequest :=
  {| content := "x"; context := None; rule_ids := Some ["a"; "b"];
     req_tier := Some PREFERENCE; rule_types := None; options := ∅;
     req_timeout_ms := 1000; parallel_evaluation := true; early_termination := true |}.

(** A rule as rule_parser.py builds it: [status] is passed to the
    constructor. *)
Definition parsed_rule (rule_id : string) : Rule :=
  {| id := rule_id; name := "Weapons"; description := "No weapons talk";
     tier := SAFETY; rule_type := CONTENT_FILTERING; severity := CRITICAL;
     status := ACTIVE; status_given := true;
     patterns := [MatchSpec.sample_pattern ["bomb"]];
     enforcement_level := STRICT; auto_block := true; user_override := false;
     override_justification_required := false; tags := [];
     priority := 100; timeout_ms := 1000; cache_ttl_seconds := 300 |}.

(** A repository that knows the id "b" alone, and holds a parsed rule
    under it. *)
Definition parsed_repository : RuleManager :=
  {| get_rule := fun rule_id =>
       Ok (if bool_decide (rule_id = "b") then Some (parsed_rule "b") else None);
     get_rules_by_tier := fun _ => Ok [parsed_rule "b"];
     get_rules_by_type := fun _ => Ok [parsed_rule "b"];
     get_applicable_rules := fun _ => Ok [parsed_rule "b"] |}.

(** The cache as a well-formed dictionary within its size bound. *)
Definition cache_ok (self : RuleEngine) : Prop :=
  List.NoDup (map fst (evaluation_cache self))
  /\ (length (evaluation_cache self) <= 1000)%nat.

End PipelineSpec.

(* ===================================================================== *)
(** ** Context applicability, stated apart from the code *)
(* ===================================================================== *)

Module ContextSpec.

(** [s] without its prefix [p], when it has that prefix. *)
Fixpoint strip_prefix (p s : string) : option string :=
  match p, s with
  | EmptyString, _ => Some s
  | String _ _, EmptyString => None
  | String a p', String b s' => if ascii_dec a b then strip_prefix p' s' else None
  end.

(** The tags of a rule that begin with a given prefix. *)
Definition tags_with (prefix : string) (r : Rule) : list string :=
  List.filter (fun tag => startswith tag prefix) (tags r).

(** Some tag, after the prefix, satisfies [test]. *)
Definition some_tag (prefix : string) (test : string -> bool) (tags : list string) : bool :=
  existsb (fun tag => match strip_prefix prefix tag with
                      | Some x => test x
                      | None => false
                      end) tags.

(** The user role a context presents: the metadata entry when there is
    one, the attribute otherwise. *)
Definition effective_role (c : RuleContext) : PyVal :=
  match metadata c !! "user_role" with
  | Some v => v
  | None => opt_str (user_role c)
  end.

(** What the rule validator demands of a rule. *)
Definition acceptable (rule : Rule) : Prop :=
  blank (id rule) = false
  /\ blank (name rule) = false
  /\ blank (description rule) = false
  /\ (tier rule = SAFETY -> enforcement_level rule = STRICT /\ user_override rule = false)
  /\ patterns rule <> []
  /\ 1 <= priority rule <= 1000
  /\ 1 <= timeout_ms rule <= 10000.

(** A violation reports a keyword of the rule that occurs in the
    content. *)
Definition reports_match (rule : Rule) (content : string) (v : Violation) : Prop :=
  exists p k, In p (patterns rule) /\ In k (keywords p)
    /\ contains (lower k) (lower content) = true
    /\ matched_content v = Some k /\ matched_patterns v = [k]
    /\ rule_id v = id rule /\ rule_tier v = tier rule.

(** A guest whose metadata carries a user role of its own. *)
Definition escalated_context : RuleContext :=
  {| user_id := None; session_id := None; domain := None; user_role := Some "guest";
     content_type := None; content_length := None; language := None;
     organization := None; project := None; business_process := None;
     timestamp := 0; time_zone := None;
     metadata := {[ "user_role" := PStr "admin" ]} |}.

(** A context that sets nothing but, perhaps, domain and user role. *)
Definition sample_context (d u : option string) : RuleContext :=
  {| user_id := None; session_id := None; domain := d; user_role := u;
     content_type := None; content_length := None; language := None;
     organization := None; project := None; business_process := None;
     timestamp := 0; time_zone := None; metadata := ∅ |}.

(** A rule that matches the keyword "tone" and carries the given tags. *)
Definition tagged_rule (tgs : list string) : Rule :=
  {| id := "tone"; name := "Tone"; description := "Mind the tone";
     tier := PREFERENCE; rule_type := QUALITY_ASSESSMENT; severity := LOW;
     status := ACTIVE; status_given := false;
     patterns := [MatchSpec.sample_pattern ["tone"]];
     enforcement_level := ADAPTIVE; auto_block := false; user_override := true;
     override_justification_required := false; tags := tgs;
     priority := 100; timeout_ms := 1000; cache_ttl_seconds := 300 |}.

End ContextSpec.

(* ===================================================================== *)
(** ** The rule store: its reachable states and its invariant *)
(* ===================================================================== *)

Module StoreSpec.
Import Engine BaseManager.

(** One call on the store. *)
Inductive call :=
| AddRule (now : Z) (rule : Rule)
| RemoveRule (rule_eq : Rule -> Rule -> bool) (rule_id : string)
| GetRule (now now' : Z) (rule_id : string).

Definition run (self : t) (c : call) : t :=
  match c with
  | AddRule now rule => snd (add_rule self now rule)
  | RemoveRule rule_eq rule_id => snd (remove_rule rule_eq self rule_id)
  | GetRule now now' rule_id => snd (get_rule self now now' rule_id)
  end.

(** The store a fresh manager reaches through calls of [add_rule],
    [remove_rule] and [get_rule]. *)
Definition after (calls : list call) : t := fold_left run calls init.

(** What every reachable store satisfies: ids are unique and name the
    rule stored under them, every stored or indexed rule passed the
    validator, an index list holds rules of its own tier or type, the
    look-aside cache agrees with the store, and [rule_count] is the
    number of stored rules. *)
Record consistent (self : t) : Prop := {
  ids_unique : List.NoDup (map fst (rules self));
  stored_valid : forall k r, dict_get (rules self) k = Some r ->
                   id r = k /\ Manager.validate_rule r = [];
  tier_index_valid : forall tr, Forall (fun r => tier r = tr /\ Manager.validate_rule r = [])
                                       (rules_by_tier self tr);
  type_index_valid : forall ty, Forall (fun r => rule_type r = ty /\ Manager.validate_rule r = [])
                                       (rules_by_type self ty);
  cache_agrees : forall k r, dict_get (_rule_cache self) k = Some r ->
                   dict_get (rules self) k = Some r;
  count_agrees : rule_count self = Z.of_nat (length (rules self))
}.

(** The store as the engine's rule manager: the four queries the engine
    calls, at the clock readings [now] and [now'] of [get_rule]. *)
Definition as_repository (self : t) (now now' : Z) : RuleManager :=
  {| Engine.get_rule := fun rule_id => Ok (fst (get_rule self now now' rule_id));
     Engine.get_rules_by_tier := fun tr => Ok (get_rules_by_tier self tr);
     Engine.get_rules_by_type := fun ty => Ok (get_rules_by_type self ty);
     Engine.get_applicable_rules := fun c => get_applicable_rules self (Some c) |}.

(** A second acceptable rule, of the Operational tier. *)
Definition operational_rule (rule_id : string) : Rule :=
  {| id := rule_id; name := "format"; description := "keep the format";
     tier := OPERATIONAL; rule_type := STRUCTURAL_VALIDATION; severity := LOW;
     status := ACTIVE; status_given := false;
     patterns := [MatchSpec.sample_pattern ["tabs"]];
     enforcement_level := ADVISORY; auto_block := false; user_override := true;
     override_justification_required := false; tags := [];
     priority := 500; timeout_ms := 1000; cache_ttl_seconds := 300 |}.

End StoreSpec.

(* ===================================================================== *)
(** ** Statistics, and conflicts seen from the other side *)
(* ===================================================================== *)

Module CountSpec.
Import Engine.


(** The same readings for every task of a batch. *)
Definition steady_clock (i : nat) : Clock := EngineSpec.sample_clock.

End CountSpec.

Module SemanticSpec.
Import Conflict SemanticDetector.

(** The same conflict, reported from the other rule's side. *)
Definition mirrored (c : SemanticConflict) : SemanticConflict :=
  {| rule_1_id := rule_2_id c;
     rule_2_id := rule_1_id c;
     conflict_type := conflict_type c;
     description := description c |}.

Definition described (rule_id text : string) : RuleDict :=
  <["id" := PStr rule_id]> (<["description" := PStr text]> ∅).

End SemanticSpec.

(* ===================================================================== *)
(** ** Conflict resolution and detection: proofs *)
(* ===================================================================== *)

Module ConflictFacts.
Import Conflict PrioritySpec.

Lemma weight_of_tier (t : RuleTier) : weight_of (PStr (tier_value t)) = tier_weight t.
Proof. destruct t; reflexivity. Qed.

Lemma score_of_described (d : RuleDict) (t : RuleTier) (p : Z) :
  describes d t p -> score d = Ok (spec_score t p).
Proof.
  intros [Ht Hp]. unfold score. rewrite Ht, Hp. cbn [py_sub bind].
  rewrite weight_of_tier. reflexivity.
Qed.

(** What [resolve] answers once both scores are known. *)
Lemma resolve_by_scores (r1 r2 : RuleDict) (s1 s2 : Z) :
  score r1 = Ok s1 -> score r2 = Ok s2 ->
  exists res, resolve r1 r2 = Ok res
    /\ winning_rule_id res = (if (s1 >? s2)%Z then id_of r1 else id_of r2)
    /\ losing_rule_id res = (if (s1 >? s2)%Z then id_of r2 else id_of r1).
Proof.
  intros H1 H2. unfold resolve. rewrite H1, H2. cbn [bind].
  destruct (s1 >? s2)%Z; eexists; split; try reflexivity; split; reflexivity.
Qed.

(** C3, as stated, fails: two Operational rules of priority 100 score
    1400 each, and the resolver names the second one, "B", the winner. *)
Lemma tie_winner_is_not_first :
  score tie_rule_a = Ok 1400
  /\ score tie_rule_b = Ok 1400
  /\ exists res, resolve tie_rule_a tie_rule_b = Ok res
       /\ winning_rule_id res = PStr "B"
       /\ winning_rule_id res <> id_of tie_rule_a.
Proof.
  split; [reflexivity|]. split; [reflexivity|].
  eexists. split; [vm_compute; reflexivity|]. split; [reflexivity|].
  vm_compute. discriminate.
Qed.

(** C3 (amended): for every pair of rules whose priority-based scores
    are equal, the resolver returns rule B (the second argument) as the
    winner and rule A as the loser. *)
Theorem tie_goes_to_second (r1 r2 : RuleDict) (s : Z) :
  score r1 = Ok s -> score r2 = Ok s ->
  exists res, resolve r1 r2 = Ok res
    /\ winning_rule_id res = id_of r2
    /\ losing_rule_id res = id_of r1.
Proof.
  intros H1 H2.
  destruct (resolve_by_scores r1 r2 s s H1 H2) as (res & Hr & Hw & Hl).
  assert (E : (s >? s)%Z = false) by (rewrite Z.gtb_ltb; apply Z.ltb_irrefl).
  rewrite E in Hw, Hl. exists res. auto.
Qed.

Lemma tie_goes_to_second_witness :
  exists res, resolve tie_rule_a tie_rule_b = Ok res
    /\ winning_rule_id res = id_of tie_rule_b
    /\ losing_rule_id res = id_of tie_rule_a.
Proof.
  apply (tie_goes_to_second tie_rule_a tie_rule_b 1400); reflexivity.
Defined.

(** C7: the resolver scores a rule tier_weight(tier) + (1000 - priority)
    with weights Safety=1000, Operational=500, Preference=100; the rule
    with the strictly higher score wins; and a Safety rule of priority
    10 beats a Preference rule of priority 900, whichever argument it
    is. *)
Theorem priority_resolver_scores (r1 r2 : RuleDict) (t1 t2 : RuleTier) (p1 p2 : Z) :
  describes r1 t1 p1 -> describes r2 t2 p2 ->
  score r1 = Ok (spec_score t1 p1)
  /\ score r2 = Ok (spec_score t2 p2)
  /\ (exists res, resolve r1 r2 = Ok res
       /\ (spec_score t1 p1 > spec_score t2 p2 ->
           winning_rule_id res = id_of r1 /\ losing_rule_id res = id_of r2)
       /\ (spec_score t2 p2 > spec_score t1 p1 ->
           winning_rule_id res = id_of r2 /\ losing_rule_id res = id_of r1)
       /\ (t1 = SAFETY -> p1 = 10 -> t2 = PREFERENCE -> p2 = 900 ->
           winning_rule_id res = id_of r1))
  /\ (exists res, resolve r2 r1 = Ok res
       /\ (t1 = SAFETY -> p1 = 10 -> t2 = PREFERENCE -> p2 = 900 ->
           winning_rule_id res = id_of r1)).
Proof.
  intros D1 D2.
  pose proof (score_of_described _ _ _ D1) as S1.
  pose proof (score_of_described _ _ _ D2) as S2.
  split; [exact S1|]. split; [exact S2|]. split.
  - destruct (resolve_by_scores _ _ _ _ S1 S2) as (res & Hr & Hw & Hl).
    exists res. split; [exact Hr|]. rewrite Hw, Hl. repeat split.
    + destruct (Z.gtb_spec (spec_score t1 p1) (spec_score t2 p2)); [reflexivity|lia].
    + destruct (Z.gtb_spec (spec_score t1 p1) (spec_score t2 p2)); [reflexivity|lia].
    + destruct (Z.gtb_spec (spec_score t1 p1) (spec_score t2 p2)); [lia|reflexivity].
    + destruct (Z.gtb_spec (spec_score t1 p1) (spec_score t2 p2)); [lia|reflexivity].
    + intros -> -> -> ->. reflexivity.
  - destruct (resolve_by_scores _ _ _ _ S2 S1) as (res & Hr & Hw & Hl).
    exists res. split; [exact Hr|]. rewrite Hw.
    intros -> -> -> ->. reflexivity.
Qed.

Lemma priority_resolver_scores_witness :
  score safety_10 = Ok 1990
  /\ score preference_900 = Ok 200
  /\ (exists res, resolve safety_10 preference_900 = Ok res
       /\ winning_rule_id res = PStr "A")
  /\ (exists res, resolve preference_900 safety_10 = Ok res
       /\ winning_rule_id res = PStr "A").
Proof.
  destruct (priority_resolver_scores safety_10 preference_900 SAFETY PREFERENCE 10 900)
    as (S1 & S2 & (res & Hr & _ & _ & Hw) & (res' & Hr' & Hw')).
  - split; reflexivity.
  - split; reflexivity.
  - split; [exact S1|]. split; [exact S2|]. split.
    + exists res. split; [exact Hr|]. apply Hw; reflexivity.
    + exists res'. split; [exact Hr'|]. apply Hw'; reflexivity.
Defined.

(** C6: the priority-gap detector reports a conflict if and only if the
    two rules have the same tier and their priorities differ by more
    than 50 in absolute value; a gap of exactly 50, or two different
    tiers, give no conflict. *)
Theorem priority_gap_conflict_iff (r1 r2 : RuleDict) :
  (exists c, detect_priority_conflict r1 r2 = Ok (Some c))
  <-> (get r1 "tier" (PStr "preference") = get r2 "tier" (PStr "preference")
       /\ exists p1 p2,
            get r1 "priority" (PInt 100) = PInt p1
            /\ get r2 "priority" (PInt 100) = PInt p2
            /\ Z.abs (p1 - p2) > 50).
Proof.
  unfold detect_priority_conflict. split.
  - intros [c Hc]. case_bool_decide as Ht; [|discriminate].
    split; [exact Ht|].
    destruct (get r1 "priority" (PInt 100)) as [|p1| |] eqn:E1; try discriminate;
    destruct (get r2 "priority" (PInt 100)) as [|p2| |] eqn:E2; try discriminate.
    cbn [py_sub bind] in Hc.
    destruct (Z.gtb_spec (Z.abs (p1 - p2)) 50); [|discriminate].
    exists p1, p2. repeat split; lia.
  - intros (Ht & p1 & p2 & E1 & E2 & Hgap).
    rewrite bool_decide_eq_true_2 by exact Ht.
    rewrite E1, E2. cbn [py_sub bind].
    destruct (Z.gtb_spec (Z.abs (p1 - p2)) 50); [|lia].
    eexists. reflexivity.
Qed.

(** The specification's two samples: gap 51 conflicts, gap 50 does not. *)
Example gap_51_conflicts :
  exists c, detect_priority_conflict (mk_rule "A" "operational" 100)
                                     (mk_rule "B" "operational" 151) = Ok (Some c).
Proof. eexists. vm_compute. reflexivity. Qed.

Example gap_50_is_quiet :
  detect_priority_conflict (mk_rule "A" "operational" 100)
                           (mk_rule "B" "operational" 150) = Ok None.
Proof. vm_compute. reflexivity. Qed.

Example different_tiers_are_quiet :
  detect_priority_conflict (mk_rule "A" "safety" 1)
                           (mk_rule "B" "operational" 1000) = Ok None.
Proof. vm_compute. reflexivity. Qed.

End ConflictFacts.

(* ===================================================================== *)
(** ** Strings: proofs *)
(* ===================================================================== *)

Module StringFacts.
Import MatchSpec.





Lemma case_variant_refl (s : string) : case_variant s s.
Proof. induction s; constructor; [left; reflexivity | assumption]. Qed.

End StringFacts.

(* ===================================================================== *)
(** ** Enforcement: proofs *)
(* ===================================================================== *)

Module EnforcementFacts.
Import Enforcement MatchSpec StringFacts.

Lemma find_keyword_some (kws : list string) (content_lower k : string) :
  In k kws -> contains (lower k) content_lower = true ->
  exists k', find_keyword kws content_lower = Some k'.
Proof.
  induction kws as [| k0 kws IH]; intros Hin Hc; [destruct Hin|].
  cbn [find_keyword]. destruct (contains (lower k0) content_lower) eqn:E; [eauto|].
  destruct Hin as [-> | Hin]; [congruence | eauto].
Qed.

Lemma find_keyword_sound (kws : list string) (content_lower k : string) :
  find_keyword kws content_lower = Some k ->
  In k kws /\ contains (lower k) content_lower = true.
Proof.
  induction kws as [| k0 kws IH]; cbn [find_keyword]; [discriminate|].
  destruct (contains (lower k0) content_lower) eqn:E.
  - intros [= <-]. split; [left; reflexivity | exact E].
  - intros Hf. destruct (IH Hf). split; [right|]; assumption.
Qed.

(** The scan of [first_match], pattern by pattern. *)
Lemma first_match_cons (p : RulePattern) (ps : list RulePattern) (content : string) :
  first_match (p :: ps) content =
  match find_keyword (keywords p) (lower content) with
  | Some k => Some k
  | None => first_match ps content
  end.
Proof. cbn [first_match]. destruct (keywords p); reflexivity. Qed.

Lemma first_match_complete (ps : list RulePattern) (content : string) (p : RulePattern)
    (k : string) :
  In p ps -> In k (keywords p) -> contains (lower k) (lower content) = true ->
  exists k', first_match ps content = Some k'.
Proof.
  induction ps as [| p0 ps IH]; intros Hp Hk Hc; [destruct Hp|].
  rewrite first_match_cons.
  destruct (find_keyword (keywords p0) (lower content)) eqn:E; [eauto|].
  destruct Hp as [-> | Hp]; [|eauto].
  destruct (find_keyword_some _ _ _ Hk Hc) as [k' Hk']. congruence.
Qed.

Lemma first_match_sound (ps : list RulePattern) (content k : string) :
  first_match ps content = Some k ->
  exists p, In p ps /\ In k (keywords p) /\ contains (lower k) (lower content) = true.
Proof.
  induction ps as [| p0 ps IH]; [discriminate|].
  rewrite first_match_cons.
  destruct (find_keyword (keywords p0) (lower content)) eqn:E.
  - intros [= <-]. destruct (find_keyword_sound _ _ _ E).
    exists p0. repeat split; [left; reflexivity | assumption | assumption].
  - intros Hf. destruct (IH Hf) as (p & ? & ? & ?).
    exists p. repeat split; [right|..]; assumption.
Qed.

(** The scanning loops decide exactly [keyword_match]. *)
Lemma first_match_iff (rule : Rule) (content : string) :
  (exists k, first_match (patterns rule) content = Some k) <-> keyword_match rule content.
Proof.
  split.
  - intros [k Hk]. destruct (first_match_sound _ _ _ Hk) as (p & ? & ? & ?).
    exists p, k. auto.
  - intros (p & k & Hp & Hk & Hc). eapply first_match_complete; eassumption.
Qed.

(** C5: when a keyword of the rule occurs in the content, the strict
    enforcer returns a violation with action BLOCK, blocked, no user
    override, and the constant confidence 0.95; the enforcer takes no
    evaluation context and reads no enforcement level, so this holds for
    every rule and whatever the context. *)
Theorem strict_enforcer_blocks (self : StrictEnforcer) (rule : Rule) (content : string) :
  keyword_match rule content ->
  exists v, fst (strict_enforce self rule content) = Some v
    /\ action_taken v = BLOCK
    /\ blocked v = true
    /\ user_override_allowed v = false
    /\ confidence_score v = 0.95%float.
Proof.
  intros Hm. apply first_match_iff in Hm as [k Hk].
  unfold strict_enforce. rewrite Hk. cbn [fst].
  eexists. split; [reflexivity|]. repeat split.
Qed.

Lemma strict_enforcer_blocks_witness :
  exists v,
    fst (strict_enforce {| strict_enforcement_count := 0; block_count := 0 |}
           (sample_safety_rule ["Dangerous Weapons"])
           "How to make dangerous weapons") = Some v
    /\ action_taken v = BLOCK
    /\ blocked v = true
    /\ user_override_allowed v = false
    /\ confidence_score v = 0.95%float.
Proof.
  apply strict_enforcer_blocks.
  exists (sample_pattern ["Dangerous Weapons"]), "Dangerous Weapons".
  split; [left; reflexivity|]. split; [left; reflexivity|]. reflexivity.
Defined.

(** C8: on an enforcement failure the fallback handler returns a
    non-blocking WARNING violation when the rule's tier is Safety, and
    nothing for a rule of any other tier. *)
Theorem fallback_asymmetry (self : FallbackHandler) (rule : Rule)
    (content error : string) :
  match tier rule with
  | SAFETY =>
      exists v, fst (handle_failure self rule content error) = Some v
        /\ action_taken v = WARNING
        /\ blocked v = false
        /\ rule_tier v = SAFETY
  | OPERATIONAL | PREFERENCE =>
      fst (handle_failure self rule content error) = None
  end.
Proof.
  unfold handle_failure. destruct (tier rule) eqn:E; cbn [bool_decide fst].
  - rewrite bool_decide_eq_true_2 by reflexivity. cbn [fst].
    eexists. split; [reflexivity|]. repeat split.
  - rewrite bool_decide_eq_false_2 by discriminate. reflexivity.
  - rewrite bool_decide_eq_false_2 by discriminate. reflexivity.
Qed.

End EnforcementFacts.

(* ===================================================================== *)
(** ** The result cache: proofs *)
(* ===================================================================== *)

Module CacheFacts.
Import Engine EngineSpec.

Section DictFacts.
Context {V : Type}.
Implicit Types (d : list (string * V)) (k : string).

Lemma dict_get_del_eq d k : dict_get (dict_del d k) k = None.
Proof.
  induction d as [| [k' v] d IH]; [reflexivity|]. cbn [dict_del].
  case_bool_decide as E; [exact IH|].
  cbn [dict_get]. rewrite bool_decide_eq_false_2 by exact E. exact IH.
Qed.

Lemma dict_get_del_ne d k k' : k' <> k -> dict_get (dict_del d k) k' = dict_get d k'.
Proof.
  intros Hne. induction d as [| [k0 v] d IH]; [reflexivity|]. cbn [dict_del].
  case_bool_decide as E.
  - subst k0. cbn [dict_get]. rewrite bool_decide_eq_false_2 by congruence. exact IH.
  - cbn [dict_get]. rewrite IH. reflexivity.
Qed.

Lemma dict_get_set_eq d k (v : V) : dict_get (dict_set d k v) k = Some v.
Proof.
  induction d as [| [k0 v0] d IH]; cbn [dict_set dict_get].
  - rewrite bool_decide_eq_true_2 by reflexivity. reflexivity.
  - case_bool_decide as E; cbn [dict_get].
    + rewrite bool_decide_eq_true_2 by reflexivity. reflexivity.
    + rewrite bool_decide_eq_false_2 by exact E. exact IH.
Qed.
End DictFacts.

Lemma total_seconds_lt_fresh (now timestamp ttl : Z) :
  total_seconds_lt (now - timestamp) ttl = true <-> fresh now timestamp ttl.
Proof. unfold total_seconds_lt, fresh. apply Z.ltb_lt. Qed.

(** C9: a lookup returns a cached result only if the entry's age is
    strictly below the TTL; an entry whose age has reached the TTL is
    never returned, and the lookup removes it from the cache, leaving
    every other key as it was. *)
Theorem cached_result_only_within_ttl (H : Hashing) (self : RuleEngine) (now : Z)
    (content_hash : string) (context : option RuleContext) :
  let key := cache_key H content_hash context in
  let out := _get_cached_result H self now content_hash context in
  (forall r, fst out = Some r ->
     exists item, dict_get (evaluation_cache self) key = Some item
       /\ cached_result item = r
       /\ fresh now (cached_timestamp item) (cache_ttl self)
       /\ snd out = self)
  /\ (forall item, dict_get (evaluation_cache self) key = Some item ->
        fresh now (cached_timestamp item) (cache_ttl self) ->
        fst out = Some (cached_result item))
  /\ (forall item, dict_get (evaluation_cache self) key = Some item ->
        ~ fresh now (cached_timestamp item) (cache_ttl self) ->
        fst out = None
        /\ dict_get (evaluation_cache (snd out)) key = None
        /\ forall k, k <> key ->
             dict_get (evaluation_cache (snd out)) k
             = dict_get (evaluation_cache self) k).
Proof.
  intros key out. subst out. unfold _get_cached_result. fold key.
  destruct (dict_get (evaluation_cache self) key) as [item|] eqn:E.
  - destruct (total_seconds_lt (now - cached_timestamp item) (cache_ttl self)) eqn:T.
    + apply total_seconds_lt_fresh in T. cbn [fst snd]. split; [|split].
      * intros r [= <-]. exists item. auto.
      * intros item' [= <-] _. reflexivity.
      * intros item' [= <-] Hn. contradiction.
    + assert (~ fresh now (cached_timestamp item) (cache_ttl self)) as Hn.
      { rewrite <- total_seconds_lt_fresh. congruence. }
      cbn [fst snd set_cache evaluation_cache]. split; [|split].
      * intros r [=].
      * intros item' [= <-] Hf. contradiction.
      * intros item' _ _. split; [reflexivity|]. split.
        -- apply dict_get_del_eq.
        -- intros k Hk. apply dict_get_del_ne. exact Hk.
  - cbn [fst snd]. split; [|split]; intros ? [=].
Qed.

(** An entry stored at time 0 under the default TTL of 300 s: served at
    299.999999 s, dropped at 300 s sharp. *)
Example served_just_before_ttl (r : ValidationResult) :
  fst (_get_cached_result sample_hashing (engine_with_entry r) 299999999 "abc" None)
  = Some r.
Proof. reflexivity. Qed.

Example dropped_at_ttl (r : ValidationResult) :
  _get_cached_result sample_hashing (engine_with_entry r) 300000000 "abc" None
  = (None, init None).
Proof. reflexivity. Qed.

Lemma cached_result_only_within_ttl_witness :
  fst (_get_cached_result sample_hashing (engine_with_entry _create_empty_result)
                          299999999 "abc" None) = Some _create_empty_result
  /\ fst (_get_cached_result sample_hashing (engine_with_entry _create_empty_result)
                             300000000 "abc" None) = None
  /\ dict_get (evaluation_cache
                 (snd (_get_cached_result sample_hashing
                         (engine_with_entry _create_empty_result)
                         300000000 "abc" None)))
              (cache_key sample_hashing "abc" None) = None.
Proof.
  pose proof (cached_result_only_within_ttl sample_hashing
                (engine_with_entry _create_empty_result) 299999999 "abc" None)
    as (_ & Hfresh & _).
  pose proof (cached_result_only_within_ttl sample_hashing
                (engine_with_entry _create_empty_result) 300000000 "abc" None)
    as (_ & _ & Hstale).
  split.
  - apply (Hfresh {| cached_result := _create_empty_result; cached_timestamp := 0 |});
      [reflexivity | unfold fresh; cbn; lia].
  - destruct (Hstale {| cached_result := _create_empty_result; cached_timestamp := 0 |})
      as (Hnone & Hgone & _); [reflexivity | unfold fresh; cbn; lia |].
    split; [exact Hnone | exact Hgone].
Defined.

End CacheFacts.

(* ===================================================================== *)
(** ** The orchestrator: proofs *)
(* ===================================================================== *)

Module EngineFacts.
Import Engine EngineSpec MatchSpec Enforcement StringFacts EnforcementFacts.

(** *** Error results *)

Lemma create_error_result_raises (request : RuleEvaluationRequest) (error : string) :
  _create_error_result request error = Raise (NameError "RuleSeverity").
Proof. reflexivity. Qed.

(** Every other global the error path names is bound. *)
Lemma other_names_are_bound :
  Forall (fun n => load_global n = Ok tt)
         ["ValidationResult"; "Violation"; "RuleTier"; "ViolationType"; "ActionTaken"].
Proof. repeat constructor. Qed.

Lemma evaluate_after_failure (H : Hashing) (self self' : RuleEngine) (clock : Clock)
    (request : RuleEvaluationRequest) (e : exn) :
  evaluate_body H self clock request = (Raise e, self') ->
  fst (evaluate H self clock request) = Raise (NameError "RuleSeverity").
Proof. intros Hb. unfold evaluate. rewrite Hb. reflexivity. Qed.

(** C2 (the code departs from it): [_create_error_result] names
    [RuleSeverity], which rule_engine.py never imports, so building the
    error result raises [NameError]; with a repository whose lookup
    fails, [evaluate] lets that exception out instead of returning an
    error result. *)
Theorem evaluate_propagates_name_error :
  (forall request error,
      _create_error_result request error = Raise (NameError "RuleSeverity"))
  /\ (forall H self clock request e,
        fst (evaluate_body H self clock request) = Raise e ->
        fst (evaluate H self clock request) = Raise (NameError "RuleSeverity"))
  /\ fst (evaluate sample_hashing (init (Some unavailable_repository))
                   sample_clock (sample_request "hello"))
     = Raise (NameError "RuleSeverity").
Proof.
  split; [intros; reflexivity|]. split; [|vm_compute; reflexivity].
  intros H self clock request e Hb.
  destruct (evaluate_body H self clock request) as [r self'] eqn:E.
  cbn [fst] in Hb. subst r. eapply evaluate_after_failure. exact E.
Qed.

(** *** User override of Safety rules *)

(** [rule.enforcement_level] holds a plain [str], so reading its
    [.value] fails whatever the rule. *)
Lemma get_action_raises (rule : Rule) :
  _get_action_for_rule rule
  = Raise (AttributeError "'str' object has no attribute 'value'").
Proof. reflexivity. Qed.





Lemma validated_safety_rule_no_override (rule : Rule) :
  Manager.validate_rule rule = [] -> tier rule = SAFETY -> user_override rule = false.
Proof.
  unfold Manager.validate_rule. intros Hv Ht.
  repeat (apply app_eq_nil in Hv; destruct Hv as [? Hv]).
  rewrite Ht in *. destruct (user_override rule); [|reflexivity].
  rewrite bool_decide_eq_true_2 in * by reflexivity. discriminate.
Qed.

Lemma safety_fold_violations (request : RuleEvaluationRequest) (cl : string)
    (pats : list SafetyEngine.pattern_data) (acc : ValidationResult * SafetyEngine.t) :
  violations (fst (fold_left (SafetyEngine.step request cl) pats acc))
    = (violations (fst acc) ++ safety_hits request cl pats)%list
  /\ critical_violations (fst (fold_left (SafetyEngine.step request cl) pats acc))
    = (critical_violations (fst acc) ++ safety_hits request cl pats)%list
  /\ suggestions (fst (fold_left (SafetyEngine.step request cl) pats acc))
    = suggestions (fst acc)
  /\ valid (fst (fold_left (SafetyEngine.step request cl) pats acc))
    = match safety_hits request cl pats with [] => valid (fst acc) | _ => false end.
Proof.
  revert acc. induction pats as [| pd pats IH]; intros acc.
  - cbn. rewrite !app_nil_r. auto.
  - cbn [fold_left].
    destruct (IH (SafetyEngine.step request cl acc pd)) as (I1 & I2 & I3 & I4).
    rewrite I1, I2, I3, I4. clear IH I1 I2 I3 I4.
    destruct acc as [res st]. unfold safety_hits, SafetyEngine.step.
    cbn [List.filter].
    destruct (contains (SafetyEngine.pattern pd) cl) eqn:E;
      cbn [map fst violations critical_violations suggestions valid].
    + rewrite <- !app_assoc. cbn [app]. repeat split.
      destruct (map _ _); reflexivity.
    + repeat split.
Qed.

Lemma safety_fold_count (request : RuleEvaluationRequest) (cl : string)
    (pats : list SafetyEngine.pattern_data) (acc : ValidationResult * SafetyEngine.t) :
  SafetyEngine.evaluation_count (snd (fold_left (SafetyEngine.step request cl) pats acc))
  = SafetyEngine.evaluation_count (snd acc).
Proof.
  revert acc. induction pats as [| pd pats IH]; intros acc; [reflexivity|].
  cbn [fold_left]. rewrite IH. destruct acc as [res st]. unfold SafetyEngine.step.
  destruct (contains (SafetyEngine.pattern pd) cl); reflexivity.
Qed.

Lemma safety_hits_shape (request : RuleEvaluationRequest) (cl : string)
    (pats : list SafetyEngine.pattern_data) :
  Forall (fun v => rule_tier v = SAFETY /\ blocked v = true
                   /\ user_override_allowed v = false)
         (safety_hits request cl pats).
Proof.
  unfold safety_hits. apply List.Forall_forall. intros v Hv.
  apply in_map_iff in Hv as (pd & <- & _). repeat split.
Qed.

Lemma safety_hits_complete (request : RuleEvaluationRequest) (cl : string)
    (pats : list SafetyEngine.pattern_data) (pd : SafetyEngine.pattern_data) :
  In pd pats -> contains (SafetyEngine.pattern pd) cl = true ->
  In (SafetyEngine.make_violation request pd) (safety_hits request cl pats).
Proof.
  intros Hin Hc. unfold safety_hits. apply in_map. apply filter_In. auto.
Qed.

(** What one run of the Safety evaluator returns. *)
Lemma safety_evaluate_spec (self : SafetyEngine.t) (request : RuleEvaluationRequest) :
  exists r e,
    SafetyEngine.evaluate self request = (Ok r, e)
    /\ violations r
       = safety_hits request (lower (content request)) SafetyEngine._get_safety_patterns
    /\ critical_violations r = violations r
    /\ suggestions r = []
    /\ valid r = match violations r with [] => true | _ => false end
    /\ SafetyEngine.evaluation_count e = SafetyEngine.evaluation_count self + 1.
Proof.
  unfold SafetyEngine.evaluate.
  pose proof (safety_fold_violations request (lower (content request))
                SafetyEngine._get_safety_patterns
                (new_result true 1.0%float 1.0%float, self)) as (F1 & F2 & F3 & F4).
  pose proof (safety_fold_count request (lower (content request))
                SafetyEngine._get_safety_patterns
                (new_result true 1.0%float 1.0%float, self)) as F5.
  destruct (fold_left _ _ _) as [res st].
  cbn [fst snd new_result violations critical_violations suggestions valid app] in *.
  eexists. eexists. split; [reflexivity|].
  cbn [violations critical_violations suggestions valid SafetyEngine.evaluation_count].
  rewrite F1, F2, F3, F4, F5. repeat split.
Qed.

(** The claim's premise in the code's terms: the Safety evaluator's
    partial result blocks exactly when the content trips one of its
    patterns. *)
Lemma safety_blocks_iff (request : RuleEvaluationRequest) (pats : list SafetyEngine.pattern_data) :
  existsb blocked (safety_hits request (lower (content request)) pats) = true
  <-> exists pd, In pd pats
        /\ contains (SafetyEngine.pattern pd) (lower (content request)) = true.
Proof.
  split.
  - intros Hb. apply existsb_exists in Hb as (v & Hv & _).
    unfold safety_hits in Hv. apply in_map_iff in Hv as (pd & _ & Hf).
    apply filter_In in Hf. eauto.
  - intros (pd & Hin & Hc). apply existsb_exists.
    exists (SafetyEngine.make_violation request pd).
    split; [apply safety_hits_complete; assumption | reflexivity].
Qed.

Lemma group_fold_some (rules : list Rule) (d : RuleTier -> option (list Rule))
    (t : RuleTier) :
  (d t <> None \/ exists rule, In rule rules /\ tier rule = t) ->
  fold_left group_step rules d t <> None.
Proof.
  revert d. induction rules as [| r rules IH]; intros d [Hd | (rule & Hin & Ht)].
  - exact Hd.
  - destruct Hin.
  - cbn [fold_left]. apply IH. left. unfold group_step.
    case_bool_decide; [discriminate | exact Hd].
  - cbn [fold_left]. apply IH. destruct Hin as [-> | Hin].
    + left. unfold group_step. rewrite bool_decide_eq_true_2 by (symmetry; exact Ht).
      discriminate.
    + right. eauto.
Qed.

(** *** Early termination *)

Lemma by_tiers_stops (self : RuleEngine) (request : RuleEvaluationRequest)
    (rules : list Rule) :
  safety_matches (content request) ->
  (exists rule, In rule rules /\ tier rule = SAFETY) ->
  only_safety_ran self (_evaluate_by_tiers self request rules)
  /\ critical_violations (fst (_evaluate_by_tiers self request rules))
     = safety_hits request (lower (content request)) SafetyEngine._get_safety_patterns.
Proof.
  intros Hm Hs. unfold _evaluate_by_tiers.
  destruct (group_by_tier rules SAFETY) as [tier_rules|] eqn:G;
    [| exfalso; revert G; apply group_fold_some; right; exact Hs].
  cbn [tier_loop]. rewrite G. unfold run_tier_engine.
  destruct (safety_evaluate_spec (safety_engine self) (tier_request request tier_rules))
    as (r & e & Hev & Hv & Hc & Hsg & Hvalid & Hcount).
  rewrite Hev.
  change (content (tier_request request tier_rules)) with (content request) in Hv.
  change (safety_hits (tier_request request tier_rules)) with (safety_hits request) in Hv.
  pose proof (proj2 (safety_blocks_iff request SafetyEngine._get_safety_patterns) Hm) as Hb.
  rewrite <- Hv in Hb.
  assert (is_blocked (_merge_tier_result (new_result true 1.0%float 1.0%float) r) = true)
    as Hblocked by exact Hb.
  rewrite Hblocked. cbn [bool_decide decide_rel andb].
  rewrite bool_decide_eq_true_2 by reflexivity. cbn [andb].
  unfold only_safety_ran.
  cbn [fst snd operational_engine preference_engine safety_engine set_safety
       suggestions valid violations critical_violations _merge_tier_result
       new_result app is_blocked].
  rewrite Hsg, Hc, Hcount.
  assert (valid r = false) as Hf.
  { rewrite Hvalid. destruct (violations r); [discriminate Hb | reflexivity]. }
  rewrite Hf. repeat split; try exact Hb; try exact Hv.
  rewrite Hv. eapply Forall_impl; [apply safety_hits_shape|].
  cbn beta. intros v (? & ? & ?). auto.
Qed.

Lemma tiered_stops (self : RuleEngine) (request : RuleEvaluationRequest) :
  safety_matches (content request) ->
  req_tier request = None \/ req_tier request = Some SAFETY ->
  only_safety_ran self (evaluate_tiered self request)
  /\ critical_violations (fst (evaluate_tiered self request))
     = safety_hits request (lower (content request)) SafetyEngine._get_safety_patterns.
Proof.
  intros Hm Ht. unfold evaluate_tiered. cbn [tiered_loop].
  assert (match req_tier request with
          | Some t => negb (bool_decide (t = SAFETY))
          | None => false
          end = false) as Hskip.
  { destruct Ht as [-> | ->]; [reflexivity|].
    rewrite bool_decide_eq_true_2 by reflexivity. reflexivity. }
  rewrite Hskip. unfold run_tier_engine.
  destruct (safety_evaluate_spec (safety_engine self) request)
    as (r & e & Hev & Hv & Hc & Hsg & Hvalid & Hcount).
  rewrite Hev.
  pose proof (proj2 (safety_blocks_iff request SafetyEngine._get_safety_patterns) Hm) as Hb.
  rewrite <- Hv in Hb.
  assert (is_blocked (_merge_tier_result (new_result true 1.0%float 1.0%float) r) = true)
    as Hblocked by exact Hb.
  rewrite Hblocked. rewrite bool_decide_eq_true_2 by reflexivity. cbn [andb].
  unfold only_safety_ran.
  cbn [fst snd operational_engine preference_engine safety_engine set_safety
       suggestions valid violations critical_violations _merge_tier_result
       new_result app is_blocked].
  rewrite Hsg, Hc, Hcount.
  assert (valid r = false) as Hf.
  { rewrite Hvalid. destruct (violations r); [discriminate Hb | reflexivity]. }
  rewrite Hf. repeat split; try exact Hb; try exact Hv.
  rewrite Hv. eapply Forall_impl; [apply safety_hits_shape|].
  cbn beta. intros v (? & ? & ?). auto.
Qed.

(** C4, as stated, fails: content that matches a Safety rule and a
    Preference rule by their own keywords, early termination asked for.
    The tier evaluators match their built-in pattern tables and never
    read the rules' keywords, so the Safety tier files nothing, the
    Operational and Preference evaluators run, and the result is valid,
    with no critical violation and with a suggestion. *)
Lemma matching_rules_do_not_stop_tiers :
  early_termination keyword_request = true
  /\ Forall2 (fun rule t => tier rule = t /\ keyword_match rule (content keyword_request))
             keyword_rules [SAFETY; PREFERENCE]
  /\ valid (fst (_evaluate_by_tiers (init None) keyword_request keyword_rules)) = true
  /\ violations (fst (_evaluate_by_tiers (init None) keyword_request keyword_rules)) = []
  /\ critical_violations
       (fst (_evaluate_by_tiers (init None) keyword_request keyword_rules)) = []
  /\ length (suggestions
               (fst (_evaluate_by_tiers (init None) keyword_request keyword_rules)))
     = 1%nat
  /\ PreferenceEngine.evaluation_count
       (preference_engine
          (snd (_evaluate_by_tiers (init None) keyword_request keyword_rules))) = 1.
Proof.
  split; [reflexivity|]. split.
  { constructor; [|constructor; [|constructor]]; (split; [reflexivity|]).
    - exists (sample_pattern ["dangerous weapons"]), "dangerous weapons".
      split; [left; reflexivity|]. split; [left; reflexivity | reflexivity].
    - exists (sample_pattern ["informal tone"]), "informal tone".
      split; [left; reflexivity|]. split; [left; reflexivity | reflexivity]. }
  repeat split; vm_compute; reflexivity.
Qed.

(** C4 (amended): once the Safety tier evaluator has produced a blocking
    violation (which it does exactly when the content trips a pattern of
    its built-in table), neither the Operational nor the Preference
    evaluator runs for that request, in [_evaluate_by_tiers] and in
    [evaluate_tiered] alike and whatever the request's early-termination
    flag; the result then lists every Safety violation in
    [critical_violations] and its [suggestions] are empty, also for
    content that would trip a Preference pattern. *)
Theorem safety_block_stops_lower_tiers (self : RuleEngine)
    (request : RuleEvaluationRequest) (rules : list Rule) :
  safety_matches (content request) ->
  ((exists rule, In rule rules /\ tier rule = SAFETY) ->
     only_safety_ran self (_evaluate_by_tiers self request rules)
     /\ forall pd, In pd SafetyEngine._get_safety_patterns ->
          contains (SafetyEngine.pattern pd) (lower (content request)) = true ->
          In (SafetyEngine.make_violation request pd)
             (critical_violations (fst (_evaluate_by_tiers self request rules))))
  /\ (req_tier request = None \/ req_tier request = Some SAFETY ->
      only_safety_ran self (evaluate_tiered self request)
      /\ forall pd, In pd SafetyEngine._get_safety_patterns ->
           contains (SafetyEngine.pattern pd) (lower (content request)) = true ->
           In (SafetyEngine.make_violation request pd)
              (critical_violations (fst (evaluate_tiered self request)))).
Proof.
  intros Hm. split.
  - intros Hs. destruct (by_tiers_stops self request rules Hm Hs) as [Ho Hc].
    split; [exact Ho|]. intros pd Hin Hp. rewrite Hc.
    apply safety_hits_complete; assumption.
  - intros Ht. destruct (tiered_stops self request Hm Ht) as [Ho Hc].
    split; [exact Ho|]. intros pd Hin Hp. rewrite Hc.
    apply safety_hits_complete; assumption.
Qed.

Lemma safety_block_stops_lower_tiers_witness :
  let request := sample_request "How to make a bomb in an informal tone" in
  let rules := [sample_safety_rule ["bomb"]; sample_preference_rule ["informal tone"]] in
  preference_matches (content request)
  /\ only_safety_ran (init None) (_evaluate_by_tiers (init None) request rules)
  /\ only_safety_ran (init None) (evaluate_tiered (init None) request).
Proof.
  intros request rules.
  assert (safety_matches (content request)) as Hm.
  { exists {| SafetyEngine.pattern := "how to make a bomb";
              SafetyEngine.pattern_severity := CRITICAL;
              SafetyEngine.category := "dangerous_content" |}.
    split; [right; left; reflexivity | reflexivity]. }
  destruct (safety_block_stops_lower_tiers (init None) request rules Hm) as [A B].
  split.
  - exists {| PreferenceEngine.pattern := "informal tone";
              PreferenceEngine.category := "tone";
              PreferenceEngine.suggestion := "Consider using a more professional tone" |}.
    split; [left; reflexivity | reflexivity].
  - destruct A as [A _];
      [exists (sample_safety_rule ["bomb"]); split; [left|]; reflexivity|].
    destruct B as [B _]; [left; reflexivity|].
    exact (conj A B).
Defined.

(** *** Letter case *)










End EngineFacts.

(* ===================================================================== *)
(** ** The tier evaluators: proofs *)
(* ===================================================================== *)

Module TierFacts.
Import Engine EngineSpec PipelineSpec.

Lemma operational_fold (request : RuleEvaluationRequest) (cl : string)
    (pats : list OperationalEngine.pattern_data)
    (acc : ValidationResult * OperationalEngine.t) :
  violations (fst (fold_left (OperationalEngine.step request cl) pats acc))
    = (violations (fst acc) ++ operational_hits request cl pats)%list
  /\ warnings (fst (fold_left (OperationalEngine.step request cl) pats acc))
    = (warnings (fst acc)
       ++ List.filter (fun v => bool_decide (action_taken v = WARNING))
                      (operational_hits request cl pats))%list
  /\ critical_violations (fst (fold_left (OperationalEngine.step request cl) pats acc))
    = critical_violations (fst acc)
  /\ suggestions (fst (fold_left (OperationalEngine.step request cl) pats acc))
    = suggestions (fst acc)
  /\ valid (fst (fold_left (OperationalEngine.step request cl) pats acc))
    = (if existsb blocked (operational_hits request cl pats) then false
       else valid (fst acc))
  /\ OperationalEngine.evaluation_count
       (snd (fold_left (OperationalEngine.step request cl) pats acc))
    = OperationalEngine.evaluation_count (snd acc).
Proof.
  revert acc. induction pats as [| pd pats IH]; intros acc.
  - cbn. rewrite !app_nil_r. auto 6.
  - cbn [fold_left].
    destruct (IH (OperationalEngine.step request cl acc pd)) as (I1 & I2 & I3 & I4 & I5 & I6).
    rewrite I1, I2, I3, I4, I5, I6. clear IH I1 I2 I3 I4 I5 I6.
    destruct acc as [res st]. unfold operational_hits, OperationalEngine.step.
    cbn [List.filter].
    destruct (contains (OperationalEngine.pattern pd) cl) eqn:E;
      cbn [map fst snd violations warnings critical_violations suggestions valid
           existsb List.filter OperationalEngine.evaluation_count].
    + cbn [OperationalEngine.make_violation action_taken blocked].
      rewrite <- !app_assoc. cbn [app].
      destruct (bool_decide (OperationalEngine.action pd = WARNING)) eqn:W,
               (bool_decide (OperationalEngine.action pd = BLOCK)) eqn:B;
        cbn [orb app]; rewrite <- ?app_assoc; cbn [app]; repeat split;
        destruct (existsb _ _); reflexivity.
    + repeat split.
Qed.

Lemma preference_fold (cl : string) (pats : list PreferenceEngine.pattern_data)
    (acc : ValidationResult * PreferenceEngine.t) :
  suggestions (fst (fold_left (PreferenceEngine.step cl) pats acc))
    = (suggestions (fst acc) ++ preference_hits cl pats)%list
  /\ violations (fst (fold_left (PreferenceEngine.step cl) pats acc)) = violations (fst acc)
  /\ warnings (fst (fold_left (PreferenceEngine.step cl) pats acc)) = warnings (fst acc)
  /\ critical_violations (fst (fold_left (PreferenceEngine.step cl) pats acc))
    = critical_violations (fst acc)
  /\ valid (fst (fold_left (PreferenceEngine.step cl) pats acc)) = valid (fst acc)
  /\ PreferenceEngine.evaluation_count (snd (fold_left (PreferenceEngine.step cl) pats acc))
    = PreferenceEngine.evaluation_count (snd acc).
Proof.
  revert acc. induction pats as [| pd pats IH]; intros acc.
  - cbn. rewrite !app_nil_r. auto 6.
  - cbn [fold_left].
    destruct (IH (PreferenceEngine.step cl acc pd)) as (I1 & I2 & I3 & I4 & I5 & I6).
    rewrite I1, I2, I3, I4, I5, I6. clear IH I1 I2 I3 I4 I5 I6.
    destruct acc as [res st]. unfold preference_hits, PreferenceEngine.step.
    cbn [List.filter].
    destruct (contains (PreferenceEngine.pattern pd) cl) eqn:E;
      cbn [map fst snd violations warnings critical_violations suggestions valid
           PreferenceEngine.evaluation_count].
    + rewrite <- !app_assoc. repeat split.
    + repeat split.
Qed.

(** What one run of the Operational evaluator returns. *)
Lemma operational_evaluate_spec (self : OperationalEngine.t)
    (request : RuleEvaluationRequest) :
  exists r e,
    OperationalEngine.evaluate self request = (Ok r, e)
    /\ violations r
       = operational_hits request (lower (content request))
                          OperationalEngine._get_operational_patterns
    /\ warnings r
       = List.filter (fun v => bool_decide (action_taken v = WARNING)) (violations r)
    /\ critical_violations r = []
    /\ suggestions r = []
    /\ valid r = negb (existsb blocked (violations r))
    /\ OperationalEngine.evaluation_count e
       = OperationalEngine.evaluation_count self + 1.
Proof.
  unfold OperationalEngine.evaluate.
  pose proof (operational_fold request (lower (content request))
                OperationalEngine._get_operational_patterns
                (new_result true 1.0%float 0.9%float, self))
    as (F1 & F2 & F3 & F4 & F5 & F6).
  destruct (fold_left _ _ _) as [res st].
  cbn [fst snd new_result violations warnings critical_violations suggestions valid app] in *.
  eexists. eexists. split; [reflexivity|].
  cbn [violations warnings critical_violations suggestions valid
       OperationalEngine.evaluation_count].
  rewrite F1, F2, F3, F4, F5, F6. repeat split.
Qed.

(** What one run of the Preference evaluator returns. *)
Lemma preference_evaluate_spec (self : PreferenceEngine.t)
    (request : RuleEvaluationRequest) :
  exists r e,
    PreferenceEngine.evaluate self request = (Ok r, e)
    /\ suggestions r
       = preference_hits (lower (content request))
                         PreferenceEngine._get_preference_patterns
    /\ violations r = []
    /\ warnings r = []
    /\ critical_violations r = []
    /\ valid r = true
    /\ PreferenceEngine.evaluation_count e = PreferenceEngine.evaluation_count self + 1.
Proof.
  unfold PreferenceEngine.evaluate.
  pose proof (preference_fold (lower (content request))
                PreferenceEngine._get_preference_patterns
                (new_result true 1.0%float 0.8%float, self))
    as (F1 & F2 & F3 & F4 & F5 & F6).
  destruct (fold_left _ _ _) as [res st].
  cbn [fst snd new_result violations warnings critical_violations suggestions valid app] in *.
  eexists. eexists. split; [reflexivity|].
  cbn [violations warnings critical_violations suggestions valid
       PreferenceEngine.evaluation_count].
  rewrite F1, F2, F3, F4, F5, F6. repeat split.
Qed.

End TierFacts.

(* ===================================================================== *)
(** ** The tier loops: proofs *)
(* ===================================================================== *)

Module PipelineFacts.
Import Engine EngineSpec PipelineSpec TierFacts.

Lemma filter_none {A} (f : A -> bool) (l : list A) :
  (forall x, In x l -> f x = false) -> List.filter f l = [].
Proof.
  induction l as [| x l IH]; intros Hf; [reflexivity|]. cbn [List.filter].
  rewrite (Hf x) by (left; reflexivity). apply IH. intros y Hy. apply Hf. right. exact Hy.
Qed.

Lemma filter_is_sublist {A} (f : A -> bool) (l : list A) : sublist (List.filter f l) l.
Proof.
  induction l as [| x l IH]; [constructor|]. cbn [List.filter].
  destruct (f x); [apply sublist_skip | apply sublist_cons]; exact IH.
Qed.

Lemma safety_fold_warnings (request : RuleEvaluationRequest) (cl : string)
    (pats : list SafetyEngine.pattern_data) (acc : ValidationResult * SafetyEngine.t) :
  warnings (fst (fold_left (SafetyEngine.step request cl) pats acc)) = warnings (fst acc).
Proof.
  revert acc. induction pats as [| pd pats IH]; intros acc; [reflexivity|].
  cbn [fold_left]. rewrite IH. destruct acc as [res st]. unfold SafetyEngine.step.
  destruct (contains (SafetyEngine.pattern pd) cl); reflexivity.
Qed.

Lemma safety_evaluate_warnings (self : SafetyEngine.t) (request : RuleEvaluationRequest)
    (r : ValidationResult) (e : SafetyEngine.t) :
  SafetyEngine.evaluate self request = (Ok r, e) -> warnings r = [].
Proof.
  unfold SafetyEngine.evaluate.
  pose proof (safety_fold_warnings request (lower (content request))
                SafetyEngine._get_safety_patterns
                (new_result true 1.0%float 1.0%float, self)) as W.
  destruct (fold_left _ _ _) as [res st]. cbn [fst new_result warnings] in W.
  intros [= <- _]. exact W.
Qed.

Lemma coherent_new (s c : float) : coherent (new_result true s c).
Proof. repeat split; constructor. Qed.

Lemma coherent_merge (a b : ValidationResult) :
  coherent a -> coherent b -> coherent (_merge_tier_result a b).
Proof.
  intros (Va & Ca & Wa) (Vb & Cb & Wb). unfold coherent, _merge_tier_result, is_blocked.
  cbn [valid violations critical_violations warnings].
  rewrite existsb_app. fold (is_blocked a). fold (is_blocked b). rewrite Va, Vb.
  split; [|split; apply sublist_app; assumption].
  destruct (is_blocked a), (is_blocked b); reflexivity.
Qed.

Lemma coherent_direct_step (request : RuleEvaluationRequest) (r : ValidationResult)
    (rule : Rule) :
  coherent r -> coherent (direct_step request r rule).
Proof.
  intros (Vr & Cr & Wr). unfold direct_step.
  destruct (_evaluate_single_rule rule (content request) (context request))
    as [[v|]|]; [|repeat split; assumption..].
  unfold coherent, is_blocked. cbn [valid violations critical_violations warnings].
  rewrite existsb_app. cbn [existsb]. rewrite orb_false_r. fold (is_blocked r).
  split; [|split].
  - rewrite Vr. destruct (blocked v), (is_blocked r); reflexivity.
  - destruct (is_critical v).
    + apply sublist_app; [exact Cr | reflexivity].
    + apply sublist_inserts_r. exact Cr.
  - destruct (bool_decide (action_taken v = WARNING)).
    + apply sublist_app; [exact Wr | reflexivity].
    + apply sublist_inserts_r. exact Wr.
Qed.

Lemma coherent_direct (request : RuleEvaluationRequest) (rules : list Rule)
    (r : ValidationResult) :
  coherent r -> coherent (_evaluate_rules_directly r rules request).
Proof.
  unfold _evaluate_rules_directly. revert r.
  induction rules as [| rule rules IH]; intros r Hr; [exact Hr|].
  cbn [fold_left]. apply IH, coherent_direct_step, Hr.
Qed.

Lemma safety_hits_all_block (request : RuleEvaluationRequest) (cl : string)
    (pats : list SafetyEngine.pattern_data) :
  existsb blocked (safety_hits request cl pats)
  = match safety_hits request cl pats with [] => false | _ => true end.
Proof. unfold safety_hits. destruct (List.filter _ pats); reflexivity. Qed.

Lemma safety_evaluate_spec_full (self : RuleEngine) (request : RuleEvaluationRequest) :
  exists r e, SafetyEngine.evaluate (safety_engine self) request = (Ok r, e) /\ coherent r.
Proof.
  destruct (EngineFacts.safety_evaluate_spec (safety_engine self) request)
    as (r & e & Hev & Hv & Hc & _ & Hvalid & _).
  exists r, e. split; [exact Hev|].
  pose proof (safety_evaluate_warnings _ _ _ _ Hev) as Hw.
  unfold coherent, is_blocked. rewrite Hvalid, Hc, Hw, Hv, safety_hits_all_block.
  split; [|split; [reflexivity | apply sublist_nil_l]].
  destruct (safety_hits _ _ _); reflexivity.
Qed.

(** Whatever the tier, the evaluator returns, and what it returns is
    coherent. *)
Lemma run_tier_engine_coherent (self : RuleEngine) (tier : RuleTier)
    (request : RuleEvaluationRequest) :
  exists r self', run_tier_engine self tier request = (Ok r, self') /\ coherent r.
Proof.
  unfold run_tier_engine. destruct tier.
  - destruct (safety_evaluate_spec_full self request) as (r & e & Hev & Hc).
    rewrite Hev. eauto.
  - destruct (operational_evaluate_spec (operational_engine self) request)
      as (r & e & Hev & Hv & Hw & Hc & _ & Hvalid & _).
    rewrite Hev. eexists. eexists. split; [reflexivity|].
    unfold coherent, is_blocked. rewrite Hvalid, Hc, Hw.
    split; [reflexivity|]. split; [apply sublist_nil_l | apply filter_is_sublist].
  - destruct (preference_evaluate_spec (preference_engine self) request)
      as (r & e & Hev & _ & Hv & Hw & Hc & Hvalid & _).
    rewrite Hev. eexists. eexists. split; [reflexivity|].
    unfold coherent, is_blocked. rewrite Hvalid, Hc, Hw, Hv.
    repeat split; constructor.
Qed.

Lemma tier_loop_coherent (tiers : list RuleTier) (request : RuleEvaluationRequest)
    (rbt : RuleTier -> option (list Rule)) (acc : ValidationResult * RuleEngine) :
  coherent (fst acc) -> coherent (fst (tier_loop tiers request rbt acc)).
Proof.
  revert acc. induction tiers as [| tier rest IH]; intros [result self] Hc; [exact Hc|].
  cbn [tier_loop]. destruct (rbt tier) as [tier_rules|]; [|apply IH; exact Hc].
  destruct (run_tier_engine_coherent self tier (tier_request request tier_rules))
    as (r & self' & Hr & Hcr).
  rewrite Hr. cbn [fst] in Hc.
  destruct (bool_decide (tier = SAFETY) && is_blocked (_merge_tier_result result r)).
  - apply coherent_merge; assumption.
  - apply IH. apply coherent_merge; assumption.
Qed.

Lemma tiered_loop_coherent (tiers : list RuleTier) (request : RuleEvaluationRequest)
    (acc : ValidationResult * RuleEngine) :
  coherent (fst acc) -> coherent (fst (tiered_loop tiers request acc)).
Proof.
  revert acc. induction tiers as [| tier rest IH]; intros [result self] Hc; [exact Hc|].
  cbn [tiered_loop].
  destruct (match req_tier request with
            | Some t => negb (bool_decide (t = tier))
            | None => false
            end); [apply IH; exact Hc|].
  destruct (run_tier_engine_coherent self tier request) as (r & self' & Hr & Hcr).
  rewrite Hr. cbn [fst] in Hc.
  destruct (bool_decide (tier = SAFETY) && is_blocked (_merge_tier_result result r)).
  - apply coherent_merge; assumption.
  - apply IH. apply coherent_merge; assumption.
Qed.

(** X1: every result of the tier pipeline is coherent, whatever the
    content, the rules and the engine's state: [valid] is true exactly
    when no violation is blocking, and [critical_violations] and
    [warnings] are sub-lists of [violations]. *)
Theorem tier_results_are_coherent (self : RuleEngine) (request : RuleEvaluationRequest)
    (rules : list Rule) :
  coherent (fst (_evaluate_by_tiers self request rules))
  /\ coherent (fst (evaluate_tiered self request)).
Proof.
  split.
  - unfold _evaluate_by_tiers.
    pose proof (tier_loop_coherent [SAFETY; OPERATIONAL; PREFERENCE] request
                  (group_by_tier rules) (new_result true 1.0%float 1.0%float, self)
                  (coherent_new _ _)) as Hc.
    destruct (tier_loop _ _ _ _) as [result self']. exact Hc.
  - unfold evaluate_tiered. apply tiered_loop_coherent, coherent_new.
Qed.

(** *** Content that trips no pattern *)

Lemma spotless_merge (a b : ValidationResult) :
  spotless a -> spotless b -> spotless (_merge_tier_result a b).
Proof.
  intros (A1 & A2 & A3 & A4 & A5) (B1 & B2 & B3 & B4 & B5).
  unfold spotless, _merge_tier_result.
  cbn [valid violations critical_violations warnings suggestions].
  rewrite A1, A2, A3, A4, A5, B1, B2, B3, B4, B5. repeat split.
Qed.

Lemma spotless_not_blocked (r : ValidationResult) : spotless r -> is_blocked r = false.
Proof. intros (_ & Hv & _). unfold is_blocked. rewrite Hv. reflexivity. Qed.

Lemma run_tier_engine_clean (self : RuleEngine) (tier : RuleTier)
    (request : RuleEvaluationRequest) :
  clean (content request) ->
  exists r self', run_tier_engine self tier request = (Ok r, self') /\ spotless r.
Proof.
  intros (Cs & Co & Cp). unfold run_tier_engine. destruct tier.
  - destruct (EngineFacts.safety_evaluate_spec (safety_engine self) request)
      as (r & e & Hev & Hv & Hc & Hs & Hvalid & _).
    pose proof (safety_evaluate_warnings _ _ _ _ Hev) as Hw.
    rewrite Hev. eexists. eexists. split; [reflexivity|].
    unfold safety_hits in Hv. rewrite (filter_none _ _ Cs) in Hv. cbn [map] in Hv.
    unfold spotless. rewrite Hvalid, Hc, Hv, Hw, Hs. repeat split.
  - destruct (operational_evaluate_spec (operational_engine self) request)
      as (r & e & Hev & Hv & Hw & Hc & Hs & Hvalid & _).
    rewrite Hev. eexists. eexists. split; [reflexivity|].
    unfold operational_hits in Hv. rewrite (filter_none _ _ Co) in Hv. cbn [map] in Hv.
    unfold spotless. rewrite Hvalid, Hc, Hw, Hv, Hs. repeat split.
  - destruct (preference_evaluate_spec (preference_engine self) request)
      as (r & e & Hev & Hs & Hv & Hw & Hc & Hvalid & _).
    rewrite Hev. eexists. eexists. split; [reflexivity|].
    unfold preference_hits in Hs. rewrite (filter_none _ _ Cp) in Hs. cbn [map] in Hs.
    unfold spotless. rewrite Hvalid, Hc, Hw, Hv, Hs. repeat split.
Qed.

Lemma tier_loop_clean (tiers : list RuleTier) (request : RuleEvaluationRequest)
    (rbt : RuleTier -> option (list Rule)) (acc : ValidationResult * RuleEngine) :
  clean (content request) -> spotless (fst acc) ->
  spotless (fst (tier_loop tiers request rbt acc)).
Proof.
  intros Hclean. revert acc.
  induction tiers as [| tier rest IH]; intros [result self] Hs; [exact Hs|].
  cbn [tier_loop]. destruct (rbt tier) as [tier_rules|]; [|apply IH; exact Hs].
  destruct (run_tier_engine_clean self tier (tier_request request tier_rules) Hclean)
    as (r & self' & Hr & Hsr).
  rewrite Hr. cbn [fst] in Hs.
  pose proof (spotless_merge _ _ Hs Hsr) as Hm.
  rewrite (spotless_not_blocked _ Hm), andb_false_r. apply IH. exact Hm.
Qed.

Lemma tiered_loop_clean (tiers : list RuleTier) (request : RuleEvaluationRequest)
    (acc : ValidationResult * RuleEngine) :
  clean (content request) -> spotless (fst acc) ->
  spotless (fst (tiered_loop tiers request acc)).
Proof.
  intros Hclean. revert acc.
  induction tiers as [| tier rest IH]; intros [result self] Hs; [exact Hs|].
  cbn [tiered_loop].
  destruct (match req_tier request with
            | Some t => negb (bool_decide (t = tier))
            | None => false
            end); [apply IH; exact Hs|].
  destruct (run_tier_engine_clean self tier request Hclean) as (r & self' & Hr & Hsr).
  rewrite Hr. cbn [fst] in Hs.
  pose proof (spotless_merge _ _ Hs Hsr) as Hm.
  rewrite (spotless_not_blocked _ Hm), andb_false_r. apply IH. exact Hm.
Qed.

(** X2: content in which no built-in pattern of any tier occurs gets a
    valid result with no violation, no critical violation, no warning
    and no suggestion, from [_evaluate_by_tiers] whatever the applicable
    rules (their own keywords are never consulted) and from
    [evaluate_tiered] whatever the tier filter. *)
Theorem clean_content_passes (self : RuleEngine) (request : RuleEvaluationRequest)
    (rules : list Rule) :
  clean (content request) ->
  spotless (fst (_evaluate_by_tiers self request rules))
  /\ spotless (fst (evaluate_tiered self request)).
Proof.
  intros Hclean. split.
  - unfold _evaluate_by_tiers.
    assert (spotless (new_result true 1.0%float 1.0%float)) as H0 by (repeat split).
    pose proof (tier_loop_clean [SAFETY; OPERATIONAL; PREFERENCE] request
                  (group_by_tier rules) (new_result true 1.0%float 1.0%float, self)
                  Hclean H0) as Hs.
    destruct (tier_loop _ _ _ _) as [result self']. exact Hs.
  - unfold evaluate_tiered. apply tiered_loop_clean; [exact Hclean | repeat split].
Qed.

Lemma clean_content_passes_witness :
  spotless (fst (_evaluate_by_tiers (init None)
                   (sample_request "How to make dangerous weapons")
                   [MatchSpec.sample_safety_rule ["dangerous weapons"]]))
  /\ spotless (fst (evaluate_tiered (init None)
                      (sample_request "How to make dangerous weapons"))).
Proof.
  apply clean_content_passes.
  repeat split; intros pd Hin; cbn in Hin;
    repeat (destruct Hin as [<- | Hin]; [reflexivity|]); destruct Hin.
Defined.

(** *** Tiers that are not visited *)

Lemma untouched_refl (t : RuleTier) (self : RuleEngine) : untouched t self self.
Proof. destruct t; reflexivity. Qed.

Lemma untouched_trans (t : RuleTier) (a b c : RuleEngine) :
  untouched t a b -> untouched t b c -> untouched t a c.
Proof. destruct t; cbn; intros H1 H2; congruence. Qed.

(** Running one tier's evaluator leaves the other two alone, and files
    violations of its own tier only. *)
Lemma run_tier_engine_frame (self : RuleEngine) (tier t : RuleTier)
    (request : RuleEvaluationRequest) :
  t <> tier ->
  exists r self', run_tier_engine self tier request = (Ok r, self')
    /\ untouched t self self'
    /\ Forall (fun v => rule_tier v = tier) (violations r).
Proof.
  intros Hne. unfold run_tier_engine. destruct tier.
  - destruct (EngineFacts.safety_evaluate_spec (safety_engine self) request)
      as (r & e & Hev & Hv & _).
    rewrite Hev. eexists. eexists. split; [reflexivity|]. split.
    + destruct t; [congruence | reflexivity | reflexivity].
    + rewrite Hv. eapply Forall_impl; [apply EngineFacts.safety_hits_shape|].
      cbn beta. intros v (? & _). assumption.
  - destruct (operational_evaluate_spec (operational_engine self) request)
      as (r & e & Hev & Hv & _).
    rewrite Hev. eexists. eexists. split; [reflexivity|]. split.
    + destruct t; [reflexivity | congruence | reflexivity].
    + rewrite Hv. unfold operational_hits. apply List.Forall_forall. intros v Hin.
      apply in_map_iff in Hin as (pd & <- & _). reflexivity.
  - destruct (preference_evaluate_spec (preference_engine self) request)
      as (r & e & Hev & _ & Hv & _).
    rewrite Hev. eexists. eexists. split; [reflexivity|]. split.
    + destruct t; [reflexivity | reflexivity | congruence].
    + rewrite Hv. constructor.
Qed.

Lemma merge_violations_forall (P : Violation -> Prop) (a b : ValidationResult) :
  Forall P (violations a) -> Forall P (violations b) ->
  Forall P (violations (_merge_tier_result a b)).
Proof. intros Ha Hb. cbn [_merge_tier_result violations]. apply Forall_app. auto. Qed.

Lemma tier_loop_skips (tiers : list RuleTier) (request : RuleEvaluationRequest)
    (rbt : RuleTier -> option (list Rule)) (t : RuleTier)
    (acc : ValidationResult * RuleEngine) :
  rbt t = None ->
  Forall (fun v => rule_tier v <> t) (violations (fst acc)) ->
  untouched t (snd acc) (snd (tier_loop tiers request rbt acc))
  /\ Forall (fun v => rule_tier v <> t) (violations (fst (tier_loop tiers request rbt acc))).
Proof.
  intros Hnone. revert acc.
  induction tiers as [| tier rest IH]; intros [result self] Hv;
    [split; [apply untouched_refl | exact Hv]|].
  cbn [tier_loop]. destruct (rbt tier) as [tier_rules|] eqn:E; [|apply IH; exact Hv].
  assert (t <> tier) as Hne by congruence.
  destruct (run_tier_engine_frame self tier t (tier_request request tier_rules) Hne)
    as (r & self' & Hr & Hu & Hf).
  rewrite Hr. cbn [fst snd] in *.
  assert (Forall (fun v => rule_tier v <> t) (violations (_merge_tier_result result r)))
    as Hm.
  { apply merge_violations_forall; [exact Hv|].
    eapply Forall_impl; [exact Hf|]. cbn beta. intros v ->. congruence. }
  destruct (bool_decide (tier = SAFETY) && is_blocked (_merge_tier_result result r)).
  - cbn [fst snd]. split; assumption.
  - destruct (IH (_merge_tier_result result r, self') Hm) as [Hu' Hf'].
    cbn [fst snd] in Hu'. split; [eapply untouched_trans; eassumption | exact Hf'].
Qed.

Lemma group_fold_none (rules : list Rule) (d : RuleTier -> option (list Rule))
    (t : RuleTier) :
  d t = None -> (forall rule, In rule rules -> tier rule <> t) ->
  fold_left group_step rules d t = None.
Proof.
  revert d. induction rules as [| r rules IH]; intros d Hd Hr; [exact Hd|].
  cbn [fold_left]. apply IH.
  - unfold group_step. rewrite bool_decide_eq_false_2; [exact Hd|].
    intros ->. apply (Hr r); [left|]; reflexivity.
  - intros rule Hin. apply Hr. right. exact Hin.
Qed.

(** X3: [_evaluate_by_tiers] visits a tier only if some applicable rule
    belongs to it.  When no applicable rule is of tier [t], the
    evaluator of [t] does not run (its state and counters are unchanged)
    and the result holds no violation of tier [t]; so without a
    Safety-tier rule among the applicable ones, the Safety patterns are
    not checked at all. *)
Theorem tier_without_rules_is_skipped (self : RuleEngine)
    (request : RuleEvaluationRequest) (rules : list Rule) (t : RuleTier) :
  (forall rule, In rule rules -> tier rule <> t) ->
  untouched t self (snd (_evaluate_by_tiers self request rules))
  /\ Forall (fun v => rule_tier v <> t)
            (violations (fst (_evaluate_by_tiers self request rules))).
Proof.
  intros Hr. unfold _evaluate_by_tiers.
  pose proof (tier_loop_skips [SAFETY; OPERATIONAL; PREFERENCE] request
                (group_by_tier rules) t (new_result true 1.0%float 1.0%float, self)
                (group_fold_none rules _ t eq_refl Hr) (List.Forall_nil _)) as [Hu Hf].
  destruct (tier_loop _ _ _ _) as [result self']. cbn [fst snd] in *. split; assumption.
Qed.

Lemma tier_without_rules_is_skipped_witness :
  safety_matches "how to make a bomb"
  /\ untouched SAFETY (init None)
       (snd (_evaluate_by_tiers (init None) (sample_request "how to make a bomb") []))
  /\ violations (fst (_evaluate_by_tiers (init None)
                        (sample_request "how to make a bomb") [])) = [].
Proof.
  split.
  - exists {| SafetyEngine.pattern := "how to make a bomb";
              SafetyEngine.pattern_severity := CRITICAL;
              SafetyEngine.category := "dangerous_content" |}.
    split; [right; left; reflexivity | reflexivity].
  - destruct (tier_without_rules_is_skipped (init None)
                (sample_request "how to make a bomb") [] SAFETY) as [Hu _].
    + intros rule [].
    + split; [exact Hu | reflexivity].
Defined.

Lemma tiered_loop_filter (tiers : list RuleTier) (request : RuleEvaluationRequest)
    (t t' : RuleTier) (acc : ValidationResult * RuleEngine) :
  req_tier request = Some t' -> t <> t' ->
  Forall (fun v => rule_tier v = t') (violations (fst acc)) ->
  untouched t (snd acc) (snd (tiered_loop tiers request acc))
  /\ Forall (fun v => rule_tier v = t') (violations (fst (tiered_loop tiers request acc))).
Proof.
  intros Hreq Hne. revert acc.
  induction tiers as [| tier rest IH]; intros [result self] Hv;
    [split; [apply untouched_refl | exact Hv]|].
  cbn [tiered_loop]. rewrite Hreq.
  destruct (bool_decide (t' = tier)) eqn:E; cbn [negb]; [|apply IH; exact Hv].
  apply bool_decide_eq_true_1 in E. subst tier.
  destruct (run_tier_engine_frame self t' t request Hne) as (r & self' & Hr & Hu & Hf).
  rewrite Hr. cbn [fst snd] in *.
  pose proof (merge_violations_forall _ _ _ Hv Hf) as Hm.
  destruct (bool_decide (t' = SAFETY) && is_blocked (_merge_tier_result result r)).
  - cbn [fst snd]. split; assumption.
  - destruct (IH (_merge_tier_result result r, self') Hm) as [Hu' Hf'].
    cbn [fst snd] in Hu'. split; [eapply untouched_trans; eassumption | exact Hf'].
Qed.

(** X4: with a tier filter, [evaluate_tiered] runs the evaluator of that
    tier only: the evaluators of the other two tiers are left untouched
    and every violation of the result is of the requested tier. *)
Theorem tier_filter_isolates (self : RuleEngine) (request : RuleEvaluationRequest)
    (t t' : RuleTier) :
  req_tier request = Some t' -> t <> t' ->
  untouched t self (snd (evaluate_tiered self request))
  /\ Forall (fun v => rule_tier v = t') (violations (fst (evaluate_tiered self request))).
Proof.
  intros Hreq Hne. unfold evaluate_tiered.
  apply (tiered_loop_filter _ request t t' (new_result true 1.0%float 1.0%float, self)
           Hreq Hne (List.Forall_nil _)).
Qed.

Lemma tier_filter_isolates_witness :
  EngineSpec.safety_matches "how to make a bomb"
  /\ untouched SAFETY (init None)
       (snd (evaluate_tiered (init None)
               {| content := "how to make a bomb"; context := None; rule_ids := None;
                  req_tier := Some PREFERENCE; rule_types := None; options := ∅;
                  req_timeout_ms := 1000; parallel_evaluation := true;
                  early_termination := true |}))
  /\ violations
       (fst (evaluate_tiered (init None)
               {| content := "how to make a bomb"; context := None; rule_ids := None;
                  req_tier := Some PREFERENCE; rule_types := None; options := ∅;
                  req_timeout_ms := 1000; parallel_evaluation := true;
                  early_termination := true |})) = [].
Proof.
  split.
  - exists {| SafetyEngine.pattern := "how to make a bomb";
              SafetyEngine.pattern_severity := CRITICAL;
              SafetyEngine.category := "dangerous_content" |}.
    split; [right; left; reflexivity | reflexivity].
  - destruct (tier_filter_isolates (init None)
                {| content := "how to make a bomb"; context := None; rule_ids := None;
                   req_tier := Some PREFERENCE; rule_types := None; options := ∅;
                   req_timeout_ms := 1000; parallel_evaluation := true;
                   early_termination := true |} SAFETY PREFERENCE eq_refl)
      as [Hu _]; [discriminate|].
    split; [exact Hu | reflexivity].
Defined.

End PipelineFacts.

(* ===================================================================== *)
(** ** User override of Safety violations: proofs *)
(* ===================================================================== *)

Module OverrideFacts.
Import Enforcement Engine EngineSpec PipelineSpec MatchSpec.





(** A Safety rule that declares [user_override=True] and whose keyword
    occurs in the content: single-rule evaluation raises, the Safety
    tier evaluator blocks without override. *)
Lemma overridable_safety_rule_files_nothing :
  user_override (sample_safety_rule ["bomb"]) = true
  /\ _evaluate_single_rule (sample_safety_rule ["bomb"]) "How to make a bomb" None
     = Raise (AttributeError "'str' object has no attribute 'value'")
  /\ Forall (fun v => rule_tier v = SAFETY /\ user_override_allowed v = false)
            (violations (fst (_evaluate_by_tiers (init None)
                                (sample_request "How to make a bomb")
                                [sample_safety_rule ["bomb"]])))
  /\ violations (fst (_evaluate_by_tiers (init None)
                        (sample_request "How to make a bomb")
                        [sample_safety_rule ["bomb"]])) <> [].
Proof.
  split; [reflexivity|]. split; [vm_compute; reflexivity|]. split.
  - vm_compute. repeat constructor.
  - vm_compute. discriminate.
Qed.

End OverrideFacts.

(* ===================================================================== *)
(** ** The result cache, storing and evicting: proofs *)
(* ===================================================================== *)

Module EvictionFacts.
Import Engine EngineSpec PipelineSpec CacheFacts.

Section DictMore.
Context {V : Type}.
Implicit Types (d : list (string * V)) (k : string).

Lemma dict_del_keys d k k' :
  In k' (map fst (dict_del d k)) <-> In k' (map fst d) /\ k' <> k.
Proof.
  induction d as [| [k0 v] d IH]; cbn [dict_del map fst In]; [tauto|].
  case_bool_decide as E; cbn [map fst In]; rewrite IH; split.
  - tauto.
  - intros [[-> | ?] ?]; [contradiction | tauto].
  - intros [<- | ?]; [split; [left; reflexivity | exact E] | tauto].
  - tauto.
Qed.

Lemma dict_del_absent d k : ~ In k (map fst d) -> dict_del d k = d.
Proof.
  induction d as [| [k0 v] d IH]; cbn [dict_del map fst In]; intros Hn; [reflexivity|].
  rewrite bool_decide_eq_false_2 by tauto. rewrite IH by tauto. reflexivity.
Qed.

Lemma dict_del_sublist d k : sublist (dict_del d k) d.
Proof.
  induction d as [| [k0 v] d IH]; cbn [dict_del]; [constructor|].
  case_bool_decide; [apply sublist_cons | apply sublist_skip]; exact IH.
Qed.

Lemma dict_del_nodup d k : List.NoDup (map fst d) -> List.NoDup (map fst (dict_del d k)).
Proof.
  induction d as [| [k0 v] d IH]; cbn [dict_del map fst]; intros Hn; [exact Hn|].
  apply List.NoDup_cons_iff in Hn as [Hk Hn]. case_bool_decide; [auto|].
  cbn [map fst]. apply List.NoDup_cons_iff. split; [|auto].
  rewrite dict_del_keys. tauto.
Qed.

Lemma dict_del_present_length d k :
  List.NoDup (map fst d) -> In k (map fst d) -> S (length (dict_del d k)) = length d.
Proof.
  induction d as [| [k0 v] d IH]; cbn [dict_del map fst In length]; intros Hn Hin;
    [destruct Hin|].
  apply List.NoDup_cons_iff in Hn as [Hk Hn]. case_bool_decide as E.
  - subst k0. rewrite dict_del_absent by exact Hk. reflexivity.
  - cbn [length]. rewrite IH; [reflexivity | exact Hn | tauto].
Qed.

Lemma dict_del_length_le d k : (length (dict_del d k) <= length d)%nat.
Proof. apply sublist_length, dict_del_sublist. Qed.

Lemma dict_set_keys d k (v : V) k' :
  In k' (map fst (dict_set d k v)) <-> In k' (map fst d) \/ k' = k.
Proof.
  induction d as [| [k0 v0] d IH]; cbn [dict_set map fst In]; [intuition congruence|].
  case_bool_decide as E; cbn [map fst In]; [subst k0; intuition congruence|].
  rewrite IH. tauto.
Qed.

Lemma dict_set_nodup d k (v : V) : List.NoDup (map fst d) -> List.NoDup (map fst (dict_set d k v)).
Proof.
  induction d as [| [k0 v0] d IH]; cbn [dict_set map fst]; intros Hn.
  - repeat constructor. intros [].
  - apply List.NoDup_cons_iff in Hn as [Hk Hn]. case_bool_decide as E; cbn [map fst].
    + subst k0. apply List.NoDup_cons_iff. auto.
    + apply List.NoDup_cons_iff. split; [|auto]. rewrite dict_set_keys. intros [? | ?]; auto.
Qed.

Lemma dict_set_length_le d k (v : V) : (length (dict_set d k v) <= S (length d))%nat.
Proof.
  induction d as [| [k0 v0] d IH]; cbn [dict_set length]; [lia|].
  case_bool_decide; cbn [length]; lia.
Qed.

Lemma dict_get_set_ne d k k' (v : V) :
  k' <> k -> dict_get (dict_set d k v) k' = dict_get d k'.
Proof.
  intros Hne. induction d as [| [k0 v0] d IH]; cbn [dict_set dict_get].
  - rewrite bool_decide_eq_false_2 by congruence. reflexivity.
  - case_bool_decide as E; cbn [dict_get].
    + subst k0. rewrite !bool_decide_eq_false_2 by congruence. reflexivity.
    + rewrite IH. reflexivity.
Qed.

Lemma dict_get_in d k (v : V) : dict_get d k = Some v -> In (k, v) d.
Proof.
  induction d as [| [k0 v0] d IH]; cbn [dict_get]; [discriminate|].
  case_bool_decide as E; [intros [= <-]; subst; left; reflexivity | right; auto].
Qed.

Lemma dict_in_get d k (v : V) : List.NoDup (map fst d) -> In (k, v) d -> dict_get d k = Some v.
Proof.
  induction d as [| [k0 v0] d IH]; cbn [dict_get map fst]; intros Hn Hin; [destruct Hin|].
  apply List.NoDup_cons_iff in Hn as [Hk Hn]. destruct Hin as [[= -> ->] | Hin].
  - rewrite bool_decide_eq_true_2 by reflexivity. reflexivity.
  - rewrite bool_decide_eq_false_2; [auto|].
    intros ->. apply Hk. change k with (fst (k, v)). apply in_map. exact Hin.
Qed.

Lemma dict_get_none d k : dict_get d k = None <-> ~ In k (map fst d).
Proof.
  induction d as [| [k0 v0] d IH]; cbn [dict_get map fst In]; [tauto|].
  case_bool_decide as E; [split; [discriminate | tauto]|]. rewrite IH. tauto.
Qed.

(** Deleting distinct keys that are all present removes one entry each. *)
Lemma fold_del_length (ks : list string) d :
  List.NoDup ks -> List.NoDup (map fst d) -> (forall k, In k ks -> In k (map fst d)) ->
  (length (fold_left dict_del ks d) + length ks = length d)%nat.
Proof.
  revert d. induction ks as [| k ks IH]; intros d Hks Hd Hin; cbn [fold_left length];
    [lia|].
  apply List.NoDup_cons_iff in Hks as [Hk Hks].
  rewrite <- (dict_del_present_length d k Hd) by (apply Hin; left; reflexivity).
  rewrite <- (IH (dict_del d k)); [lia | exact Hks | apply dict_del_nodup, Hd|].
  intros k' Hk'. apply dict_del_keys. split; [apply Hin; right; exact Hk'|].
  intros ->. contradiction.
Qed.

Lemma fold_del_nodup (ks : list string) d :
  List.NoDup (map fst d) -> List.NoDup (map fst (fold_left dict_del ks d)).
Proof.
  revert d. induction ks as [| k ks IH]; intros d Hd; [exact Hd|].
  cbn [fold_left]. apply IH, dict_del_nodup, Hd.
Qed.

Lemma fold_del_keys (ks : list string) d k' :
  In k' (map fst (fold_left dict_del ks d)) <-> In k' (map fst d) /\ ~ In k' ks.
Proof.
  revert d. induction ks as [| k ks IH]; intros d; cbn [fold_left In]; [tauto|].
  rewrite IH, dict_del_keys. intuition congruence.
Qed.

Lemma fold_del_sublist (ks : list string) d : sublist (fold_left dict_del ks d) d.
Proof.
  revert d. induction ks as [| k ks IH]; intros d; [reflexivity|].
  cbn [fold_left]. etransitivity; [apply IH | apply dict_del_sublist].
Qed.

End DictMore.

End EvictionFacts.

Module EvictionOrder.
Import Engine EngineSpec PipelineSpec CacheFacts EvictionFacts.

Lemma insert_by_timestamp_in (x z : string * CacheItem) (l : list (string * CacheItem)) :
  In z (insert_by_timestamp x l) <-> z = x \/ In z l.
Proof.
  induction l as [| y l IH]; cbn [insert_by_timestamp In]; [intuition congruence|].
  destruct (cached_timestamp (snd y) <? cached_timestamp (snd x))%Z; cbn [In].
  - rewrite IH. intuition congruence.
  - intuition congruence.
Qed.

Lemma insert_by_timestamp_perm (x : string * CacheItem) (l : list (string * CacheItem)) :
  Permutation (insert_by_timestamp x l) (x :: l).
Proof.
  induction l as [| y l IH]; cbn [insert_by_timestamp]; [reflexivity|].
  destruct (cached_timestamp (snd y) <? cached_timestamp (snd x))%Z; [|reflexivity].
  rewrite IH. apply perm_swap.
Qed.

Lemma sort_perm (d : list (string * CacheItem)) :
  Permutation (fold_right insert_by_timestamp [] d) d.
Proof.
  induction d as [| x d IH]; cbn [fold_right]; [reflexivity|].
  rewrite insert_by_timestamp_perm, IH. reflexivity.
Qed.

Lemma insert_by_timestamp_sorted (x : string * CacheItem) (l : list (string * CacheItem)) :
  StronglySorted older_or_same l -> StronglySorted older_or_same (insert_by_timestamp x l).
Proof.
  induction 1 as [| y l Hs IH Hy]; cbn [insert_by_timestamp]; [repeat constructor|].
  destruct (Z.ltb_spec (cached_timestamp (snd y)) (cached_timestamp (snd x))) as [Hlt | Hge].
  - constructor; [exact IH|]. apply List.Forall_forall. intros z Hz.
    apply insert_by_timestamp_in in Hz as [-> | Hz].
    + unfold older_or_same. lia.
    + eapply List.Forall_forall in Hy; eassumption.
  - constructor; [constructor; assumption|]. constructor; [exact Hge|].
    eapply Forall_impl; [exact Hy|]. unfold older_or_same. cbn beta. intros z Hz. lia.
Qed.

Lemma sort_sorted (d : list (string * CacheItem)) :
  StronglySorted older_or_same (fold_right insert_by_timestamp [] d).
Proof.
  induction d as [| x d IH]; cbn [fold_right]; [constructor|].
  apply insert_by_timestamp_sorted, IH.
Qed.

Lemma sorted_app_order {A} (R : A -> A -> Prop) (l1 l2 : list A) (a b : A) :
  StronglySorted R (l1 ++ l2) -> In a l1 -> In b l2 -> R a b.
Proof.
  induction l1 as [| x l1 IH]; intros Hs Ha Hb; [destruct Ha|].
  cbn [app] in Hs. apply StronglySorted_inv in Hs as [Hs Hx].
  destruct Ha as [-> | Ha]; [|auto].
  eapply List.Forall_forall in Hx; [exact Hx|]. apply in_or_app. right. exact Hb.
Qed.

Lemma keys_unique {V} (l : list (string * V)) (k : string) (a b : V) :
  List.NoDup (map fst l) -> In (k, a) l -> In (k, b) l -> a = b.
Proof.
  intros Hn Ha Hb. apply (dict_in_get _ _ _ Hn) in Ha. apply (dict_in_get _ _ _ Hn) in Hb.
  congruence.
Qed.

Lemma take_in {A} (n : nat) (l : list A) (x : A) : In x (take n l) -> In x l.
Proof.
  revert n. induction l as [| y l IH]; intros [| n]; cbn; try tauto.
  intros [-> | Hin]; [left; reflexivity | right; eauto].
Qed.

Lemma sorted_keys_perm (d : list (string * CacheItem)) :
  Permutation (sorted_by_timestamp d) (map fst d).
Proof. unfold sorted_by_timestamp. apply Permutation_map, sort_perm. Qed.

Lemma oldest_keys_nodup (n : nat) (d : list (string * CacheItem)) :
  List.NoDup (map fst d) -> List.NoDup (take n (sorted_by_timestamp d)).
Proof.
  intros Hn. apply NoDup_ListNoDup.
  apply (sublist_NoDup _ (sorted_by_timestamp d)); [|apply sublist_take].
  apply NoDup_ListNoDup.
  eapply Permutation_NoDup; [symmetry; apply sorted_keys_perm | exact Hn].
Qed.

Lemma oldest_keys_present (n : nat) (d : list (string * CacheItem)) (k : string) :
  In k (take n (sorted_by_timestamp d)) -> In k (map fst d).
Proof.
  intros Hin. eapply Permutation_in; [apply sorted_keys_perm|]. eapply take_in, Hin.
Qed.

Lemma eviction_length (d : list (string * CacheItem)) :
  List.NoDup (map fst d) -> (100 <= length d)%nat ->
  (length (fold_left dict_del (take 100 (sorted_by_timestamp d)) d) + 100 = length d)%nat.
Proof.
  intros Hn Hlen.
  rewrite <- (fold_del_length (take 100 (sorted_by_timestamp d)) d
                (oldest_keys_nodup 100 d Hn) Hn (oldest_keys_present 100 d)).
  rewrite length_take_le; [reflexivity|].
  rewrite (Permutation_length (sorted_keys_perm d)), length_map. exact Hlen.
Qed.

(** X5: the cache never outgrows its bound.  If the cache is a
    dictionary of at most 1000 entries, it still is one after
    [_cache_result] stored a result and after [_get_cached_result]
    looked one up. *)
Theorem cache_stays_bounded (H : Hashing) (self : RuleEngine) (now : Z)
    (content_hash : string) (context : option RuleContext) (r : ValidationResult) :
  cache_ok self ->
  cache_ok (_cache_result H self now content_hash context r)
  /\ cache_ok (snd (_get_cached_result H self now content_hash context)).
Proof.
  intros [Hn Hlen]. split.
  - unfold _cache_result, cache_ok.
    pose proof (dict_set_nodup (evaluation_cache self) (cache_key H content_hash context)
                  {| cached_result := r; cached_timestamp := now |} Hn) as Hn'.
    pose proof (dict_set_length_le (evaluation_cache self)
                  (cache_key H content_hash context)
                  {| cached_result := r; cached_timestamp := now |}) as Hlen'.
    destruct (Z.gtb_spec (Z.of_nat (length
                (dict_set (evaluation_cache self) (cache_key H content_hash context)
                   {| cached_result := r; cached_timestamp := now |}))) 1000) as [Hgt | Hle];
      cbn [set_cache evaluation_cache].
    + split; [apply fold_del_nodup, Hn'|].
      pose proof (eviction_length _ Hn' ltac:(lia)). lia.
    + split; [exact Hn' | lia].
  - unfold _get_cached_result, cache_ok.
    destruct (dict_get (evaluation_cache self) (cache_key H content_hash context))
      as [item|]; [|cbn [snd]; auto].
    destruct (total_seconds_lt _ _); cbn [snd set_cache evaluation_cache]; [auto|].
    split; [apply dict_del_nodup, Hn|].
    pose proof (dict_del_length_le (evaluation_cache self)
                  (cache_key H content_hash context)). lia.
Qed.

Lemma cache_stays_bounded_witness :
  cache_ok (_cache_result sample_hashing (init None) 7 "abc" None _create_empty_result)
  /\ cache_ok (snd (_get_cached_result sample_hashing (init None) 7 "abc" None)).
Proof.
  apply cache_stays_bounded. split; [constructor | cbn; lia].
Defined.

(** X6: eviction is oldest-first.  When storing a result takes the
    cache beyond 1000 entries, exactly 100 entries are deleted, the
    survivors keep their order, and every evicted entry is at least as
    old as every entry that stays. *)
Theorem eviction_takes_the_oldest (H : Hashing) (self : RuleEngine) (now : Z)
    (content_hash : string) (context : option RuleContext) (r : ValidationResult) :
  let stored :=
    dict_set (evaluation_cache self) (cache_key H content_hash context)
             {| cached_result := r; cached_timestamp := now |} in
  let kept := evaluation_cache (_cache_result H self now content_hash context r) in
  List.NoDup (map fst (evaluation_cache self)) ->
  (1000 < length stored)%nat ->
  (length kept + 100 = length stored)%nat
  /\ sublist kept stored
  /\ forall k_out item_out k_in item_in,
       dict_get stored k_out = Some item_out -> dict_get kept k_out = None ->
       dict_get kept k_in = Some item_in ->
       cached_timestamp item_out <= cached_timestamp item_in.
Proof.
  intros stored kept Hn Hlen.
  pose proof (dict_set_nodup (evaluation_cache self) (cache_key H content_hash context)
                {| cached_result := r; cached_timestamp := now |} Hn) as Hn'.
  fold stored in Hn'.
  assert (kept = fold_left dict_del (take 100 (sorted_by_timestamp stored)) stored) as ->.
  { subst kept. unfold _cache_result. fold stored.
    destruct (Z.gtb_spec (Z.of_nat (length stored)) 1000); [reflexivity | lia]. }
  split; [apply eviction_length; [exact Hn' | lia]|].
  split; [apply fold_del_sublist|].
  intros k_out item_out k_in item_in Hout Hgone Hin.
  set (sorted := fold_right insert_by_timestamp [] stored).
  assert (List.NoDup (map fst sorted)) as Hns.
  { eapply Permutation_NoDup; [symmetry; apply Permutation_map, sort_perm | exact Hn']. }
  assert (take 100 (sorted_by_timestamp stored) = map fst (take 100 sorted)) as Hkeys.
  { unfold sorted_by_timestamp. fold sorted. apply firstn_map. }
  rewrite Hkeys in Hgone, Hin.
  (* the evicted entry sits among the first hundred of the sorted entries *)
  assert (In (k_out, item_out) (take 100 sorted)) as Hfirst.
  { apply dict_get_none in Hgone. rewrite fold_del_keys in Hgone.
    apply dict_get_in in Hout.
    assert (In k_out (map fst (take 100 sorted))) as Hk.
    { destruct (in_dec string_dec k_out (map fst (take 100 sorted))); [assumption|].
      exfalso. apply Hgone. split; [|assumption].
      change k_out with (fst (k_out, item_out)). apply in_map. exact Hout. }
    apply in_map_iff in Hk as ([k x] & Hkx & Hx). cbn [fst] in Hkx. subst k.
    assert (x = item_out) as ->; [|exact Hx].
    eapply (keys_unique sorted k_out); [exact Hns | eapply take_in, Hx|].
    eapply Permutation_in; [symmetry; apply sort_perm | exact Hout]. }
  (* the entry that stays sits after them *)
  assert (In (k_in, item_in) (drop 100 sorted)) as Hrest.
  { pose proof (dict_get_in _ _ _ Hin) as Hi.
    assert (In k_in (map fst (fold_left dict_del (map fst (take 100 sorted)) stored)))
      as Hk by (change k_in with (fst (k_in, item_in)); apply in_map; exact Hi).
    apply fold_del_keys in Hk as [_ Hnot].
    assert (In (k_in, item_in) sorted) as Hs.
    { eapply Permutation_in; [symmetry; apply sort_perm|].
      apply list_elem_of_In. eapply elem_of_sublist;
        [apply list_elem_of_In; exact Hi | apply fold_del_sublist]. }
    rewrite <- (take_drop 100 sorted) in Hs. apply in_app_or in Hs as [Hs | Hs];
      [|exact Hs].
    exfalso. apply Hnot. change k_in with (fst (k_in, item_in)). apply in_map. exact Hs. }
  pose proof (sort_sorted stored) as Hsorted. fold sorted in Hsorted.
  rewrite <- (take_drop 100 sorted) in Hsorted.
  exact (sorted_app_order older_or_same _ _ _ _ Hsorted Hfirst Hrest).
Qed.

Lemma eviction_takes_the_oldest_witness :
  length (evaluation_cache
            (_cache_result sample_hashing full_engine 5000 "abc" None
                           _create_empty_result)) = 901%nat
  /\ dict_get (evaluation_cache
                 (_cache_result sample_hashing full_engine 5000 "abc" None
                                _create_empty_result)) "99" = None
  /\ cached_timestamp <$>
       dict_get (evaluation_cache
                   (_cache_result sample_hashing full_engine 5000 "abc" None
                                  _create_empty_result)) "100" = Some 100.
Proof.
  destruct (eviction_takes_the_oldest sample_hashing full_engine 5000 "abc" None
              _create_empty_result) as (Hlen & _ & _).
  - apply NoDup_ListNoDup. apply (bool_decide_unpack _). vm_compute. exact I.
  - vm_compute. lia.
  - split; [|split; vm_compute; reflexivity].
    assert (length (dict_set (evaluation_cache full_engine)
                      (cache_key sample_hashing "abc" None)
                      {| cached_result := _create_empty_result;
                         cached_timestamp := 5000 |}) = 1001%nat) as E
      by (vm_compute; reflexivity).
    rewrite E in Hlen. lia.
Defined.

End EvictionOrder.

(* ===================================================================== *)
(** ** Serving from the cache: proofs *)
(* ===================================================================== *)

Module ServingFacts.
Import Engine EngineSpec PipelineSpec CacheFacts EvictionFacts.

Lemma store_without_eviction (H : Hashing) (self : RuleEngine) (now : Z)
    (content_hash : string) (context : option RuleContext) (r : ValidationResult) :
  (length (evaluation_cache self) < 1000)%nat ->
  _cache_result H self now content_hash context r
  = set_cache self
      (dict_set (evaluation_cache self) (cache_key H content_hash context)
                {| cached_result := r; cached_timestamp := now |}).
Proof.
  intros Hlen. unfold _cache_result.
  pose proof (dict_set_length_le (evaluation_cache self)
                (cache_key H content_hash context)
                {| cached_result := r; cached_timestamp := now |}).
  destruct (Z.gtb_spec (Z.of_nat (length
              (dict_set (evaluation_cache self) (cache_key H content_hash context)
                 {| cached_result := r; cached_timestamp := now |}))) 1000);
    [lia | reflexivity].
Qed.

Lemma store_then_lookup (H : Hashing) (self : RuleEngine) (now now' : Z)
    (content_hash : string) (context : option RuleContext) (r : ValidationResult) :
  (length (evaluation_cache self) < 1000)%nat ->
  fresh now' now (cache_ttl self) ->
  _get_cached_result H (_cache_result H self now content_hash context r)
                     now' content_hash context
  = (Some r, _cache_result H self now content_hash context r).
Proof.
  intros Hlen Hfresh. rewrite (store_without_eviction H self now _ _ r Hlen).
  unfold _get_cached_result. cbn [set_cache evaluation_cache cache_ttl].
  rewrite dict_get_set_eq. cbn [cached_timestamp cached_result].
  rewrite (proj2 (total_seconds_lt_fresh now' now (cache_ttl self)) Hfresh).
  reflexivity.
Qed.

(** X7: what [_cache_result] stores, [_get_cached_result] serves.  With
    room left in the cache, a result stored at time [now] under a key is
    returned by a lookup of that key at any time [now'] less than the
    TTL later, the lookup changes nothing, and the entries under other
    keys are as they were before the store. *)
Theorem stored_result_is_served (H : Hashing) (self : RuleEngine) (now now' : Z)
    (content_hash : string) (context : option RuleContext) (r : ValidationResult) :
  (length (evaluation_cache self) < 1000)%nat ->
  fresh now' now (cache_ttl self) ->
  _get_cached_result H (_cache_result H self now content_hash context r)
                     now' content_hash context
  = (Some r, _cache_result H self now content_hash context r)
  /\ forall k, k <> cache_key H content_hash context ->
       dict_get (evaluation_cache (_cache_result H self now content_hash context r)) k
       = dict_get (evaluation_cache self) k.
Proof.
  intros Hlen Hfresh. split; [apply store_then_lookup; assumption|].
  intros k Hk. rewrite (store_without_eviction H self now _ _ r Hlen).
  cbn [set_cache evaluation_cache]. apply dict_get_set_ne. exact Hk.
Qed.

Lemma stored_result_is_served_witness :
  _get_cached_result sample_hashing
    (_cache_result sample_hashing (init None) 0 "abc" None _create_empty_result)
    299999999 "abc" None
  = (Some _create_empty_result,
     _cache_result sample_hashing (init None) 0 "abc" None _create_empty_result).
Proof.
  apply (stored_result_is_served sample_hashing (init None) 0 299999999 "abc" None
           _create_empty_result); [cbn; lia | unfold fresh; cbn; lia].
Defined.

Lemma run_tier_engine_keeps (self : RuleEngine) (tier : RuleTier)
    (request : RuleEvaluationRequest) :
  same_store self (snd (run_tier_engine self tier request)).
Proof.
  unfold run_tier_engine, same_store. destruct tier.
  - destruct (SafetyEngine.evaluate _ _). cbn. auto.
  - destruct (OperationalEngine.evaluate _ _). cbn. auto.
  - destruct (PreferenceEngine.evaluate _ _). cbn. auto.
Qed.

Lemma same_store_trans (a b c : RuleEngine) :
  same_store a b -> same_store b c -> same_store a c.
Proof. unfold same_store. intros (? & ? & ? & ?) (? & ? & ? & ?). repeat split; congruence. Qed.

Lemma tier_loop_keeps (tiers : list RuleTier) (request : RuleEvaluationRequest)
    (rbt : RuleTier -> option (list Rule)) (acc : ValidationResult * RuleEngine) :
  same_store (snd acc) (snd (tier_loop tiers request rbt acc)).
Proof.
  revert acc. induction tiers as [| tier rest IH]; intros [result self];
    [repeat split|].
  cbn [tier_loop]. destruct (rbt tier) as [tier_rules|]; [|apply IH].
  pose proof (run_tier_engine_keeps self tier (tier_request request tier_rules)) as Hk.
  destruct (run_tier_engine self tier (tier_request request tier_rules))
    as [[tier_result | e] self'] eqn:E; cbn [snd] in Hk |- *.
  - destruct (bool_decide (tier = SAFETY) && is_blocked _); [exact Hk|].
    eapply same_store_trans; [exact Hk | apply (IH (_, self'))].
  - eapply same_store_trans; [exact Hk | apply (IH (_, self'))].
Qed.

Lemma by_tiers_keeps (self : RuleEngine) (request : RuleEvaluationRequest)
    (rules : list Rule) :
  same_store self (snd (_evaluate_by_tiers self request rules)).
Proof.
  unfold _evaluate_by_tiers.
  pose proof (tier_loop_keeps [SAFETY; OPERATIONAL; PREFERENCE] request
                (group_by_tier rules) (new_result true 1.0%float 1.0%float, self)) as Hk.
  destruct (tier_loop _ _ _ _) as [result self']. exact Hk.
Qed.

Lemma applicable_rules_read_repository (a b : RuleEngine) (now : Z)
    (request : RuleEvaluationRequest) :
  rule_manager b = rule_manager a ->
  _get_applicable_rules b now request = _get_applicable_rules a now request.
Proof. intros Hm. unfold _get_applicable_rules. rewrite Hm. reflexivity. Qed.

Lemma lookup_keeps (H : Hashing) (self : RuleEngine) (now : Z) (content_hash : string)
    (context : option RuleContext) :
  cache_ttl (snd (_get_cached_result H self now content_hash context)) = cache_ttl self
  /\ rule_manager (snd (_get_cached_result H self now content_hash context))
     = rule_manager self
  /\ (length (evaluation_cache (snd (_get_cached_result H self now content_hash context)))
      <= length (evaluation_cache self))%nat.
Proof.
  unfold _get_cached_result.
  destruct (dict_get _ _) as [item|]; [|cbn; auto].
  destruct (total_seconds_lt _ _); cbn [snd set_cache cache_ttl rule_manager evaluation_cache];
    [auto|].
  repeat split. apply dict_del_length_le.
Qed.

(** X8: a repeated request is served from the cache.  When a request
    misses the cache, has applicable rules and the cache has room, then
    [evaluate] returns a result and stores it, and evaluating the same
    request again less than the TTL after the store returns the same
    result and leaves the whole engine as it was: no tier evaluator runs
    again, no statistic moves. *)
Theorem repeated_request_is_served_from_cache (H : Hashing) (self : RuleEngine)
    (clock clock' : Clock) (request : RuleEvaluationRequest)
    (rule : Rule) (rules : list Rule) :
  (length (evaluation_cache self) < 1000)%nat ->
  fst (_get_cached_result H self (at_lookup clock)
         (_get_content_hash H (content request)) (context request)) = None ->
  _get_applicable_rules self (at_context clock) request = Ok (rule :: rules) ->
  fresh (at_lookup clock') (at_store clock) (cache_ttl self) ->
  exists r self1,
    evaluate H self clock request = (Ok r, self1)
    /\ evaluate H self1 clock' request = (Ok r, self1).
Proof.
  intros Hlen Hmiss Hrules Hfresh.
  unfold evaluate at 1. unfold evaluate_body.
  pose proof (lookup_keeps H self (at_lookup clock)
                (_get_content_hash H (content request)) (context request))
    as (Httl & Hmgr & Hlen0).
  destruct (_get_cached_result H self (at_lookup clock) _ _) as [cached self0].
  cbn [fst snd] in *. subst cached.
  rewrite (applicable_rules_read_repository self self0 _ _ Hmgr), Hrules.
  pose proof (by_tiers_keeps self0 request (rule :: rules)) as (Kc & Kt & _ & _).
  destruct (_evaluate_by_tiers self0 request (rule :: rules)) as [result self2].
  cbn [snd] in Kc, Kt.
  eexists. eexists. split; [reflexivity|].
  assert (_get_cached_result H
            (_cache_result H (_update_statistics self2 result) (at_store clock)
               (_get_content_hash H (content request)) (context request) result)
            (at_lookup clock') (_get_content_hash H (content request)) (context request)
          = (Some result,
             _cache_result H (_update_statistics self2 result) (at_store clock)
               (_get_content_hash H (content request)) (context request) result))
    as Hserved.
  { apply store_then_lookup.
    - cbn [_update_statistics set_stats evaluation_cache]. rewrite Kc. lia.
    - cbn [_update_statistics set_stats cache_ttl]. rewrite Kt, Httl. exact Hfresh. }
  unfold evaluate, evaluate_body. rewrite Hserved. reflexivity.
Qed.

Lemma repeated_request_is_served_from_cache_witness :
  exists r self1,
    evaluate sample_hashing (init (Some one_rule_repository)) sample_clock
             (sample_request "how to make a bomb") = (Ok r, self1)
    /\ evaluate sample_hashing self1
                {| at_lookup := 299999999; at_context := 299999999;
                   at_store := 299999999 |}
                (sample_request "how to make a bomb") = (Ok r, self1).
Proof.
  apply (repeated_request_is_served_from_cache sample_hashing
           (init (Some one_rule_repository)) sample_clock _
           (sample_request "how to make a bomb")
           (MatchSpec.validated_safety_rule ["bomb"]) []);
    [cbn; lia | reflexivity | reflexivity | unfold fresh; cbn; lia].
Defined.

(** X9: an engine built without a rule manager finds nothing.  On a
    cache miss, [evaluate] returns the empty valid result for every
    content, also content that trips a Safety pattern, and leaves the
    engine exactly as it was: no tier evaluator runs, nothing is cached
    and no statistic is updated. *)
Theorem no_repository_no_findings (H : Hashing) (self : RuleEngine) (clock : Clock)
    (request : RuleEvaluationRequest) :
  rule_manager self = None ->
  dict_get (evaluation_cache self)
           (cache_key H (_get_content_hash H (content request)) (context request)) = None ->
  evaluate H self clock request = (Ok (new_result true 1.0%float 1.0%float), self).
Proof.
  intros Hm Hmiss. unfold evaluate, evaluate_body, _get_cached_result.
  rewrite Hmiss. unfold _get_applicable_rules. rewrite Hm. reflexivity.
Qed.

Lemma no_repository_no_findings_witness :
  safety_matches "how to make a bomb"
  /\ evaluate sample_hashing (init None) sample_clock (sample_request "how to make a bomb")
     = (Ok (new_result true 1.0%float 1.0%float), init None).
Proof.
  split.
  - exists {| SafetyEngine.pattern := "how to make a bomb";
              SafetyEngine.pattern_severity := CRITICAL;
              SafetyEngine.category := "dangerous_content" |}.
    split; [right; left; reflexivity | reflexivity].
  - apply no_repository_no_findings; reflexivity.
Defined.

End ServingFacts.

(* ===================================================================== *)
(** ** Context applicability: proofs *)
(* ===================================================================== *)

Module ContextFacts.
Import Engine EngineSpec PipelineSpec ContextSpec PipelineFacts.

Lemma startswith_strip (p s : string) :
  startswith s p = true <-> exists rest, strip_prefix p s = Some rest.
Proof.
  revert s. induction p as [| a p IH]; intros s.
  - destruct s; cbn [startswith strip_prefix]; split; eauto.
  - destruct s as [| b s]; cbn [startswith strip_prefix];
      [split; [discriminate | intros [? [=]]]|].
    destruct (ascii_dec a b); [apply IH | split; [discriminate | intros [? [=]]]].
Qed.

Lemma strip_prefix_app (p s rest : string) :
  strip_prefix p s = Some rest -> s = (p +:+ rest).
Proof.
  revert s. induction p as [| a p IH]; intros s; cbn [strip_prefix].
  - intros [= ->]. reflexivity.
  - destruct s as [| b s]; [discriminate|].
    destruct (ascii_dec a b) as [<- |]; [|discriminate].
    intros Hs. cbn. rewrite (IH s Hs). reflexivity.
Qed.

Lemma after_colon_domain (tag rest : string) :
  strip_prefix "domain:" tag = Some rest -> after_colon tag = Ok rest.
Proof. intros Hs. rewrite (strip_prefix_app _ _ _ Hs). reflexivity. Qed.

Lemma after_colon_role (tag rest : string) :
  strip_prefix "role:" tag = Some rest -> after_colon tag = Ok rest.
Proof. intros Hs. rewrite (strip_prefix_app _ _ _ Hs). reflexivity. Qed.

(** The effective context carries the attribute unless the metadata
    holds the same key. *)
Lemma effective_domain (c : RuleContext) :
  metadata c !! "domain" = None ->
  get_effective_context c !! "domain" = Some (opt_str (domain c)).
Proof.
  intros Hm. unfold get_effective_context. rewrite lookup_union_r by exact Hm.
  reflexivity.
Qed.

Lemma effective_user_role (c : RuleContext) :
  metadata c !! "user_role" = None ->
  get_effective_context c !! "user_role" = Some (opt_str (user_role c)).
Proof.
  intros Hm. unfold get_effective_context. rewrite lookup_union_r by exact Hm.
  reflexivity.
Qed.

Lemma effective_context_nonempty (c : RuleContext) : get_effective_context c <> ∅.
Proof.
  intros He.
  assert (is_Some (get_effective_context c !! "timestamp")) as [v Hv].
  { unfold get_effective_context. apply lookup_union_is_Some. right. eexists. reflexivity. }
  rewrite He, lookup_empty in Hv. discriminate.
Qed.

Lemma tags_with_prefix (prefix : string) (r : Rule) :
  Forall (fun tag => startswith tag prefix = true) (tags_with prefix r).
Proof.
  apply List.Forall_forall. intros tag Hin. apply filter_In in Hin. apply Hin.
Qed.

Lemma any_m_tag_equals (value : PyVal) (tgs : list string) :
  Forall (fun tag => startswith tag "domain:" = true) tgs ->
  any_m (tag_equals value) tgs
  = Ok (some_tag "domain:" (fun x => bool_decide (PStr x = value)) tgs).
Proof.
  induction 1 as [| tag tgs Ht _ IH]; [reflexivity|].
  apply startswith_strip in Ht as [rest Hr].
  cbn [any_m some_tag existsb]. unfold tag_equals at 1.
  rewrite (after_colon_domain _ _ Hr), Hr. cbn [bind].
  destruct (bool_decide (PStr rest = value)); [reflexivity|].
  rewrite IH. reflexivity.
Qed.

Lemma any_m_tag_within (u : string) (tgs : list string) :
  Forall (fun tag => startswith tag "role:" = true) tgs ->
  any_m (tag_within (PStr u)) tgs = Ok (some_tag "role:" (fun x => contains x u) tgs).
Proof.
  induction 1 as [| tag tgs Ht _ IH]; [reflexivity|].
  apply startswith_strip in Ht as [rest Hr].
  cbn [any_m some_tag existsb]. unfold tag_within at 1.
  rewrite (after_colon_role _ _ Hr), Hr. cbn [bind str_in].
  destruct (contains rest u); [reflexivity|].
  rewrite IH. reflexivity.
Qed.

Lemma some_tag_ext (prefix : string) (f g : string -> bool) (tgs : list string) :
  (forall x, f x = g x) -> some_tag prefix f tgs = some_tag prefix g tgs.
Proof.
  intros Hfg. unfold some_tag. induction tgs as [| tag tgs IH]; [reflexivity|].
  cbn [existsb]. rewrite IH. destruct (strip_prefix prefix tag); [rewrite Hfg|]; reflexivity.
Qed.

(** X10: a rule without [domain:] and [role:] tags is applicable to
    every context dictionary, and the check never raises. *)
Theorem untagged_rule_applies_everywhere (r : Rule) (ctx : gmap string PyVal) :
  tags_with "domain:" r = [] -> tags_with "role:" r = [] ->
  is_applicable_to_context r ctx = Ok true.
Proof.
  unfold tags_with. intros Hd Hr. unfold is_applicable_to_context.
  destruct (bool_decide (ctx = ∅)); [reflexivity|].
  rewrite Hd, Hr. destruct (ctx !! "domain"), (ctx !! "user_role"); reflexivity.
Qed.

Lemma untagged_rule_applies_everywhere_witness :
  is_applicable_to_context (tagged_rule ["team:blue"; "beta"])
                           (get_effective_context (sample_context None None))
  = Ok true.
Proof. apply untagged_rule_applies_everywhere; reflexivity. Defined.

(** X11: [domain:] tags are matched by equality.  For a rule with
    [domain:] tags and no [role:] tags, and a context whose metadata
    does not override the domain, the rule is applicable exactly when
    one of its [domain:] tags names the context's domain; so it is not
    applicable to a context that has no domain. *)
Theorem domain_tags_match_by_equality (r : Rule) (c : RuleContext) :
  metadata c !! "domain" = None ->
  tags_with "domain:" r <> [] -> tags_with "role:" r = [] ->
  is_applicable_to_context r (get_effective_context c)
  = Ok (some_tag "domain:" (fun x => bool_decide (Some x = domain c))
                 (tags_with "domain:" r)).
Proof.
  intros Hm Hd Hr. unfold is_applicable_to_context.
  rewrite bool_decide_eq_false_2 by apply effective_context_nonempty.
  rewrite (effective_domain c Hm). fold (tags_with "domain:" r). fold (tags_with "role:" r).
  rewrite Hr.
  assert (any_m (tag_equals (opt_str (domain c))) (tags_with "domain:" r)
          = Ok (some_tag "domain:" (fun x => bool_decide (Some x = domain c))
                         (tags_with "domain:" r))) as Hany.
  { rewrite any_m_tag_equals by apply tags_with_prefix. f_equal.
    apply some_tag_ext. intros x. destruct (domain c) as [d|]; cbn [opt_str].
    - apply bool_decide_ext. split; congruence.
    - rewrite !bool_decide_eq_false_2 by discriminate. reflexivity. }
  destruct (tags_with "domain:" r) as [| tag tgs] eqn:E; [contradiction|].
  rewrite Hany. cbn [bind].
  destruct (some_tag _ _ _); cbn [negb]; [|reflexivity].
  destruct (get_effective_context c !! "user_role"); reflexivity.
Qed.

Lemma domain_tags_match_by_equality_witness :
  is_applicable_to_context (tagged_rule ["domain:medical"])
                           (get_effective_context (sample_context (Some "medical") None))
  = Ok true
  /\ is_applicable_to_context (tagged_rule ["domain:medical"])
                              (get_effective_context (sample_context (Some "medic") None))
     = Ok false
  /\ is_applicable_to_context (tagged_rule ["domain:medical"])
                              (get_effective_context (sample_context None None))
     = Ok false.
Proof.
  split; [|split].
  - rewrite (domain_tags_match_by_equality (tagged_rule ["domain:medical"])
               (sample_context (Some "medical") None));
      [reflexivity | reflexivity | discriminate | reflexivity].
  - rewrite (domain_tags_match_by_equality (tagged_rule ["domain:medical"])
               (sample_context (Some "medic") None));
      [reflexivity | reflexivity | discriminate | reflexivity].
  - rewrite (domain_tags_match_by_equality (tagged_rule ["domain:medical"])
               (sample_context None None));
      [reflexivity | reflexivity | discriminate | reflexivity].
Defined.

(** X12: [role:] tags are matched by containment, not equality.  For a
    rule with [role:] tags and no [domain:] tags, and a context with a
    user role the metadata does not override, the rule is applicable
    exactly when the text of one of its [role:] tags occurs somewhere
    inside the user role. *)
Theorem role_tags_match_by_containment (r : Rule) (c : RuleContext) (u : string) :
  user_role c = Some u -> metadata c !! "user_role" = None ->
  tags_with "domain:" r = [] -> tags_with "role:" r <> [] ->
  is_applicable_to_context r (get_effective_context c)
  = Ok (some_tag "role:" (fun x => contains x u) (tags_with "role:" r)).
Proof.
  intros Hu Hm Hd Hr. unfold is_applicable_to_context.
  rewrite bool_decide_eq_false_2 by apply effective_context_nonempty.
  rewrite (effective_user_role c Hm), Hu. cbn [opt_str].
  fold (tags_with "domain:" r). fold (tags_with "role:" r). rewrite Hd.
  pose proof (any_m_tag_within u _ (tags_with_prefix "role:" r)) as Hany.
  destruct (tags_with "role:" r) as [| tag tgs] eqn:E; [contradiction|].
  rewrite Hany.
  destruct (get_effective_context c !! "domain"); cbn [bind negb];
    destruct (some_tag _ _ _); reflexivity.
Qed.

Lemma role_tags_match_by_containment_witness :
  is_applicable_to_context (tagged_rule ["role:admin"])
                           (get_effective_context (sample_context None (Some "superadmin")))
  = Ok true
  /\ is_applicable_to_context (tagged_rule ["role:admin"])
                              (get_effective_context (sample_context None (Some "adm")))
     = Ok false.
Proof.
  split.
  - rewrite (role_tags_match_by_containment (tagged_rule ["role:admin"])
               (sample_context None (Some "superadmin")) "superadmin");
      [reflexivity | reflexivity | reflexivity | reflexivity | discriminate].
  - rewrite (role_tags_match_by_containment (tagged_rule ["role:admin"])
               (sample_context None (Some "adm")) "adm");
      [reflexivity | reflexivity | reflexivity | reflexivity | discriminate].
Defined.

(** X13: a rule with [role:] tags meets a context without user role.
    The applicability check then raises [TypeError] (the containment
    test runs on [None]), single-rule evaluation raises with it, and
    direct evaluation skips the rule without a trace, whatever the
    content. *)
Theorem role_tag_without_user_role_raises (r : Rule) (c : RuleContext)
    (request : RuleEvaluationRequest) (result : ValidationResult) :
  user_role c = None -> metadata c !! "user_role" = None ->
  tags_with "domain:" r = [] -> tags_with "role:" r <> [] ->
  context request = Some c ->
  is_applicable_to_context r (get_effective_context c)
  = Raise (TypeError "argument of type 'NoneType' is not iterable")
  /\ _evaluate_single_rule r (content request) (Some c)
     = Raise (TypeError "argument of type 'NoneType' is not iterable")
  /\ _evaluate_rules_directly result [r] request = result.
Proof.
  intros Hu Hm Hd Hr Hc.
  assert (is_applicable_to_context r (get_effective_context c)
          = Raise (TypeError "argument of type 'NoneType' is not iterable")) as Ha.
  { unfold is_applicable_to_context.
    rewrite bool_decide_eq_false_2 by apply effective_context_nonempty.
    rewrite (effective_user_role c Hm), Hu. cbn [opt_str].
    fold (tags_with "domain:" r). fold (tags_with "role:" r). rewrite Hd.
    pose proof (tags_with_prefix "role:" r) as Hp.
    destruct (tags_with "role:" r) as [| tag tgs] eqn:E; [contradiction|].
    apply Forall_inv in Hp. apply startswith_strip in Hp as [rest Hrest].
    cbn [any_m]. unfold tag_within at 1. rewrite (after_colon_role _ _ Hrest).
    cbn [bind str_in].
    destruct (get_effective_context c !! "domain"); reflexivity. }
  split; [exact Ha|].
  assert (_evaluate_single_rule r (content request) (Some c)
          = Raise (TypeError "argument of type 'NoneType' is not iterable")) as He.
  { unfold _evaluate_single_rule. rewrite Ha. reflexivity. }
  split; [exact He|].
  unfold _evaluate_rules_directly. cbn [fold_left]. unfold direct_step.
  rewrite Hc, He. reflexivity.
Qed.

Lemma role_tag_without_user_role_raises_witness :
  Enforcement.first_match (patterns (tagged_rule ["role:editor"])) "informal tone"
  = Some "tone"
  /\ _evaluate_rules_directly (new_result true 1.0%float 1.0%float)
       [tagged_rule ["role:editor"]]
       {| content := "informal tone"; context := Some (sample_context None None);
          rule_ids := None; req_tier := None; rule_types := None; options := ∅;
          req_timeout_ms := 1000; parallel_evaluation := true;
          early_termination := true |}
     = new_result true 1.0%float 1.0%float.
Proof.
  split; [reflexivity|].
  eapply (role_tag_without_user_role_raises (tagged_rule ["role:editor"])
            (sample_context None None)); [reflexivity.. | discriminate | reflexivity].
Defined.

End ContextFacts.

(* ===================================================================== *)
(** ** Enforcers, validator and rule lookup: more proofs *)
(* ===================================================================== *)

Module EnforcementMoreFacts.
Import Engine EngineSpec MatchSpec ContextSpec Enforcement EnforcementFacts ContextFacts.

Lemma first_match_reports (rule : Rule) (content k : string) :
  first_match (patterns rule) content = Some k ->
  exists p, In p (patterns rule) /\ In k (keywords p)
            /\ contains (lower k) (lower content) = true.
Proof. apply first_match_sound. Qed.

Lemma first_match_none (rule : Rule) (content : string) :
  first_match (patterns rule) content = None <-> ~ keyword_match rule content.
Proof.
  rewrite <- first_match_iff. destruct (first_match (patterns rule) content).
  - split; [discriminate | intros Hn; exfalso; apply Hn; eauto].
  - split; [intros _ [k Hk]; discriminate | reflexivity].
Qed.

(** X14: the strict and the advisory enforcer fire exactly on a keyword
    match and report what they matched.  Each returns a violation if and
    only if some keyword of the rule occurs in the content (case
    ignored); the violation names a keyword that does occur, under the
    rule's id and tier; the advisory one is a non-blocking WARNING the
    user may override; and every call is counted, a call that matched
    being counted as a block or a warning as well. *)
Theorem enforcers_fire_on_match_only (s1 : StrictEnforcer) (s2 : AdvisoryEnforcer)
    (rule : Rule) (content : string) :
  ((exists v, fst (strict_enforce s1 rule content) = Some v) <-> keyword_match rule content)
  /\ ((exists v, fst (advisory_enforce s2 rule content) = Some v)
      <-> keyword_match rule content)
  /\ (forall v, fst (strict_enforce s1 rule content) = Some v ->
        reports_match rule content v
        /\ block_count (snd (strict_enforce s1 rule content)) = block_count s1 + 1)
  /\ (forall v, fst (advisory_enforce s2 rule content) = Some v ->
        reports_match rule content v
        /\ action_taken v = WARNING /\ blocked v = false
        /\ user_override_allowed v = true
        /\ warning_count (snd (advisory_enforce s2 rule content)) = warning_count s2 + 1)
  /\ (fst (strict_enforce s1 rule content) = None ->
        block_count (snd (strict_enforce s1 rule content)) = block_count s1)
  /\ strict_enforcement_count (snd (strict_enforce s1 rule content))
     = strict_enforcement_count s1 + 1
  /\ advisory_enforcement_count (snd (advisory_enforce s2 rule content))
     = advisory_enforcement_count s2 + 1.
Proof.
  rewrite <- !first_match_iff. unfold strict_enforce, advisory_enforce.
  destruct (first_match (patterns rule) content) as [k|] eqn:E; cbn [fst snd].
  - destruct (first_match_reports _ _ _ E) as (p & Hp & Hk & Hc).
    split; [split; eauto|]. split; [split; eauto|].
    split; [intros v [= <-]; split; [exists p, k; repeat split; assumption | reflexivity]|].
    split; [intros v [= <-]; split; [exists p, k; repeat split; assumption | repeat split]|].
    split; [discriminate|]. split; reflexivity.
  - split; [split; intros [? [=]]|]. split; [split; intros [? [=]]|].
    split; [intros ? [=]|]. split; [intros ? [=]|].
    split; [reflexivity|]. split; reflexivity.
Qed.

Lemma effective_role_lookup (c : RuleContext) :
  get_effective_context c !! "user_role" = Some (effective_role c).
Proof.
  unfold effective_role, get_effective_context.
  destruct (metadata c !! "user_role") as [v|] eqn:E.
  - apply lookup_union_Some_l. exact E.
  - rewrite lookup_union_r by exact E. reflexivity.
Qed.

(** X15: the adaptive enforcer and its admin bypass.  When the context
    presents the user role "admin" (through the attribute, or through a
    metadata entry of that name, which takes precedence), the enforcer
    returns nothing whatever the content, and counts no suggestion.  In
    every other case it returns a violation exactly on a keyword match,
    and that violation is a non-blocking SUGGESTION the user may
    override. *)
Theorem adaptive_enforcer_admin_bypass (self : AdaptiveEnforcer) (rule : Rule)
    (content : string) (c : RuleContext) :
  (effective_role c = PStr "admin" ->
     adaptive_enforce self rule content (Some c)
     = (None, {| adaptive_enforcement_count := adaptive_enforcement_count self + 1;
                 suggestion_count := suggestion_count self |}))
  /\ (effective_role c <> PStr "admin" ->
       ((exists v, fst (adaptive_enforce self rule content (Some c)) = Some v)
        <-> keyword_match rule content)
       /\ forall v, fst (adaptive_enforce self rule content (Some c)) = Some v ->
            reports_match rule content v /\ action_taken v = SUGGESTION
            /\ blocked v = false /\ user_override_allowed v = true).
Proof.
  unfold adaptive_enforce. rewrite effective_role_lookup. cbn [default].
  split.
  - intros ->. rewrite bool_decide_eq_true_2 by reflexivity. reflexivity.
  - intros Hne. rewrite bool_decide_eq_false_2 by exact Hne.
    rewrite <- first_match_iff.
    destruct (first_match (patterns rule) content) as [k|] eqn:E; cbn [fst].
    + destruct (first_match_reports _ _ _ E) as (p & Hp & Hk & Hc).
      split; [split; eauto|]. intros v [= <-]. split; [|repeat split].
      exists p, k. repeat split; assumption.
    + split; [split; [intros [? [=]] | intros [? [=]]] | intros ? [=]].
Qed.

Lemma adaptive_enforcer_admin_bypass_witness :
  keyword_match (tagged_rule []) "informal tone"
  /\ fst (adaptive_enforce {| adaptive_enforcement_count := 0; suggestion_count := 0 |}
             (tagged_rule []) "informal tone" (Some escalated_context)) = None
  /\ exists v,
       fst (adaptive_enforce {| adaptive_enforcement_count := 0; suggestion_count := 0 |}
              (tagged_rule []) "informal tone"
              (Some (sample_context None (Some "guest")))) = Some v.
Proof.
  assert (keyword_match (tagged_rule []) "informal tone") as Hm.
  { exists (sample_pattern ["tone"]), "tone".
    split; [left; reflexivity|]. split; [left; reflexivity | reflexivity]. }
  split; [exact Hm|]. split.
  - destruct (adaptive_enforcer_admin_bypass
                {| adaptive_enforcement_count := 0; suggestion_count := 0 |}
                (tagged_rule []) "informal tone" escalated_context) as [Ha _].
    rewrite Ha; reflexivity.
  - destruct (adaptive_enforcer_admin_bypass
                {| adaptive_enforcement_count := 0; suggestion_count := 0 |}
                (tagged_rule []) "informal tone" (sample_context None (Some "guest")))
      as [_ Hb].
    destruct Hb as [Hiff _]; [vm_compute; discriminate|].
    apply Hiff. exact Hm.
Defined.

(** *** The validator *)

Lemma app_nil_iff {A} (l1 l2 : list A) : (l1 ++ l2 = [] <-> l1 = [] /\ l2 = [])%list.
Proof. destruct l1; cbn; split; intros; try tauto; try discriminate; intuition discriminate. Qed.

(** X16: the validator accepts a rule (returns no error) if and only if
    its id, name and description are not blank, it has at least one
    pattern, its priority lies in 1..1000 and its timeout in 1..10000,
    and, when it is a Safety rule, it uses strict enforcement and does
    not allow user override. *)
Theorem validator_accepts_iff (rule : Rule) :
  Manager.validate_rule rule = [] <-> acceptable rule.
Proof.
  unfold Manager.validate_rule, acceptable. rewrite !app_nil_iff.
  destruct (blank (id rule)), (blank (name rule)), (blank (description rule));
    try (split; [intros (? & ? & ? & ?); discriminate
                | intros (? & ? & ? & ?); discriminate]).
  destruct (patterns rule) as [| p ps];
    [split; [intros (_ & _ & _ & _ & _ & ? & _); discriminate
            | intros (_ & _ & _ & _ & ? & _); congruence]|].
  destruct (Z.leb_spec 1 (priority rule)), (Z.leb_spec (priority rule) 1000);
    cbn [andb negb];
    try (split; [intros (_ & _ & _ & _ & _ & _ & ? & _); discriminate
                | intros (_ & _ & _ & _ & _ & ? & _); lia]).
  destruct (Z.leb_spec 1 (timeout_ms rule)), (Z.leb_spec (timeout_ms rule) 10000);
    cbn [andb negb];
    try (split; [intros (_ & _ & _ & _ & _ & _ & _ & ?); discriminate
                | intros (_ & _ & _ & _ & _ & _ & ?); lia]).
  destruct (tier rule), (enforcement_level rule), (user_override rule);
    cbn [bool_decide decide_rel andb negb];
    (split;
     [intros (_ & _ & _ & He & Ho & _);
      repeat split; try discriminate; try lia; try (intros [=]);
      try (rewrite ?bool_decide_eq_true_2, ?bool_decide_eq_false_2 in He, Ho
             by (reflexivity || discriminate); cbn in He, Ho; discriminate)
     |intros (_ & _ & _ & Hs & _);
      rewrite ?bool_decide_eq_true_2, ?bool_decide_eq_false_2
        by (reflexivity || discriminate);
      cbn [andb negb]; repeat split;
      try (destruct Hs as [? ?]; [reflexivity|]; discriminate)]).
Qed.

End EnforcementMoreFacts.

(* ===================================================================== *)
(** ** Rule lookup and conflict resolution: more proofs *)
(* ===================================================================== *)

Module LookupFacts.
Import Engine EngineSpec PipelineSpec.

Lemma is_active_rule_true (o : option Rule) :
  is_active_rule o = Ok true ->
  exists r, o = Some r /\ status r = ACTIVE /\ status_given r = false.
Proof.
  destruct o as [r|]; cbn [is_active_rule]; [|discriminate].
  unfold held_status. destruct (status_given r) eqn:Hg; cbn [dot_value bind];
    [discriminate|].
  intros [= E]. apply bool_decide_eq_true in E. exists r.
  split; [reflexivity|]. split; [|exact Hg].
  destruct (status r); try reflexivity; discriminate.
Qed.

Lemma is_active_rule_given (r : Rule) :
  status_given r = true ->
  is_active_rule (Some r)
  = Raise (AttributeError "'str' object has no attribute 'value'").
Proof. intros Hg. cbn [is_active_rule]. unfold held_status. rewrite Hg. reflexivity. Qed.

Lemma is_active_rule_returns (o : option Rule) :
  (forall r, o = Some r -> status_given r = false) ->
  exists b, is_active_rule o = Ok b.
Proof.
  destruct o as [r|]; cbn [is_active_rule]; [|eauto].
  intros Hg. unfold held_status. rewrite (Hg r eq_refl). cbn [dot_value bind]. eauto.
Qed.

Lemma rules_by_ids_active (m : RuleManager) (ids : list string) (rules : list Rule) :
  rules_by_ids m ids = Ok rules ->
  Forall (fun r => status r = ACTIVE /\ status_given r = false
                   /\ exists rule_id, In rule_id ids /\ get_rule m rule_id = Ok (Some r))
         rules
  /\ (length rules <= length ids)%nat.
Proof.
  revert rules. induction ids as [| i ids IH]; intros rules; cbn [rules_by_ids].
  - intros [= <-]. split; [constructor | reflexivity].
  - destruct (get_rule m i) as [o|] eqn:G; cbn [bind]; [|discriminate].
    destruct (is_active_rule o) as [active|] eqn:A; cbn [bind]; [|discriminate].
    destruct (rules_by_ids m ids) as [rest|]; cbn [bind]; [|discriminate].
    destruct (IH rest eq_refl) as [Hf Hl].
    assert (Forall (fun r => status r = ACTIVE /\ status_given r = false
              /\ exists rule_id, In rule_id (i :: ids) /\ get_rule m rule_id = Ok (Some r))
              rest) as Hf'.
    { eapply Forall_impl; [exact Hf|]. cbn beta. intros r (Hs & Hg & rid & Hin & Hr).
      split; [exact Hs|]. split; [exact Hg|]. exists rid. split; [right|]; assumption. }
    destruct active.
    + destruct (is_active_rule_true o A) as (r & -> & Hs & Hg). intros [= <-].
      split; [|cbn [length]; lia]. constructor; [|exact Hf'].
      split; [exact Hs|]. split; [exact Hg|]. exists i. split; [left; reflexivity | exact G].
    + destruct o; intros [= <-]; (split; [exact Hf' | cbn [length]; lia]).
Qed.

Lemma rules_by_ids_given (m : RuleManager) (ids : list string) :
  (forall rule_id, In rule_id ids -> exists o, get_rule m rule_id = Ok o) ->
  (exists rule_id r, In rule_id ids /\ get_rule m rule_id = Ok (Some r)
                     /\ status_given r = true) ->
  rules_by_ids m ids = Raise (AttributeError "'str' object has no attribute 'value'").
Proof.
  induction ids as [| i ids IH]; intros Hall (rid & r & Hin & Hr & Hg); [destruct Hin|].
  cbn [rules_by_ids]. destruct (Hall i (or_introl eq_refl)) as [o G]. rewrite G. cbn [bind].
  destruct (is_active_rule o) as [active|] eqn:A; cbn [bind].
  - assert (rules_by_ids m ids
            = Raise (AttributeError "'str' object has no attribute 'value'")) as ->.
    { apply IH; [intros k Hk; apply Hall; right; exact Hk|].
      destruct Hin as [<- | Hin]; [|eauto].
      rewrite Hr in G. injection G as <-.
      rewrite (is_active_rule_given r Hg) in A. discriminate. }
    reflexivity.
  - destruct o as [r0|]; [|discriminate]. cbn [is_active_rule] in A. unfold held_status in A.
    destruct (status_given r0); cbn [dot_value bind] in A; [|discriminate].
    injection A as <-. reflexivity.
Qed.

Lemma rules_by_ids_returns (m : RuleManager) (ids : list string) :
  (forall rule_id, In rule_id ids -> exists o, get_rule m rule_id = Ok o) ->
  (forall rule_id r, In rule_id ids -> get_rule m rule_id = Ok (Some r) ->
     status_given r = false) ->
  exists rules, rules_by_ids m ids = Ok rules.
Proof.
  induction ids as [| i ids IH]; intros Hall Hnone; [eexists; reflexivity|].
  cbn [rules_by_ids]. destruct (Hall i (or_introl eq_refl)) as [o G]. rewrite G. cbn [bind].
  destruct (is_active_rule_returns o) as [b ->].
  { intros r ->. apply (Hnone i r); [left; reflexivity | exact G]. }
  cbn [bind]. destruct IH as [rest ->].
  - intros k Hk. apply Hall. right. exact Hk.
  - intros k r Hk. apply Hnone. right. exact Hk.
  - cbn [bind]. eauto.
Qed.

(** X17: rules requested by id.  When the request names rule ids, the
    id filter alone decides, whatever tier and types the request names
    as well.  The filter reads [rule.status.value], which a rule holds
    only while its status is the default member: if the repository
    answers every requested id and one of the rules found was built with
    an explicit status (as rule_parser.py builds every rule), the query
    raises [AttributeError]; if none was, the query returns, and every
    rule it returns is active, is held by the repository under a
    requested id, and unknown ids are dropped silently.  A failing
    repository lookup fails the whole query. *)
Theorem rules_by_id_are_active (self : RuleEngine) (m : RuleManager) (now : Z)
    (request : RuleEvaluationRequest) (i : string) (ids : list string) :
  rule_manager self = Some m -> rule_ids request = Some (i :: ids) ->
  (forall rules, _get_applicable_rules self now request = Ok rules ->
        Forall (fun r => status r = ACTIVE /\ status_given r = false
                  /\ exists rule_id, In rule_id (i :: ids)
                                     /\ get_rule m rule_id = Ok (Some r)) rules
        /\ (length rules <= length (i :: ids))%nat)
  /\ ((forall rule_id, In rule_id (i :: ids) -> exists o, get_rule m rule_id = Ok o) ->
      (exists rule_id r, In rule_id (i :: ids) /\ get_rule m rule_id = Ok (Some r)
                         /\ status_given r = true) ->
      _get_applicable_rules self now request
      = Raise (AttributeError "'str' object has no attribute 'value'"))
  /\ ((forall rule_id, In rule_id (i :: ids) -> exists o, get_rule m rule_id = Ok o) ->
      (forall rule_id r, In rule_id (i :: ids) -> get_rule m rule_id = Ok (Some r) ->
         status_given r = false) ->
      exists rules, _get_applicable_rules self now request = Ok rules)
  /\ (forall rule_id e, In rule_id (i :: ids) -> get_rule m rule_id = Raise e ->
        exists e', _get_applicable_rules self now request = Raise e').
Proof.
  intros Hm Hi.
  assert (_get_applicable_rules self now request = rules_by_ids m (i :: ids)) as Hq.
  { unfold _get_applicable_rules. rewrite Hm, Hi. reflexivity. }
  rewrite Hq. split; [intros rules; apply rules_by_ids_active|].
  split; [apply rules_by_ids_given|]. split; [apply rules_by_ids_returns|].
  generalize (i :: ids). intros l. induction l as [| j l IH]; intros rid e [].
  - subst j. intros G. cbn [rules_by_ids]. rewrite G. eauto.
  - intros G. cbn [rules_by_ids]. destruct (get_rule m j); cbn [bind]; [|eauto].
    destruct (is_active_rule _); cbn [bind]; [|eauto].
    destruct (IH rid e H G) as [e' He']. rewrite He'. eauto.
Qed.

Lemma rules_by_id_are_active_witness :
  _get_applicable_rules (init (Some parsed_repository)) 0 by_id_request
  = Raise (AttributeError "'str' object has no attribute 'value'")
  /\ exists rules,
       _get_applicable_rules (init (Some one_rule_repository)) 0 by_id_request = Ok rules.
Proof.
  split.
  - apply (proj1 (proj2 (rules_by_id_are_active (init (Some parsed_repository))
                           parsed_repository 0 by_id_request "a" ["b"] eq_refl eq_refl))).
    + intros rule_id _. eexists. reflexivity.
    + exists "b", (parsed_rule "b"). split; [right; left; reflexivity|].
      split; reflexivity.
  - apply (proj1 (proj2 (proj2 (rules_by_id_are_active (init (Some one_rule_repository))
                           one_rule_repository 0 by_id_request "a" ["b"] eq_refl eq_refl)))).
    + intros rule_id _. eexists. reflexivity.
    + intros rule_id r _ [= <-]. reflexivity.
Defined.

End LookupFacts.

Module ConflictMoreFacts.
Import Conflict PrioritySpec.

(** X18: the priority-gap detector does not depend on the order of its
    arguments.  Detecting (A, B) and detecting (B, A) both report a
    conflict, both report none, or both raise; two reported conflicts
    mirror each other in their rule ids and tiers. *)
Theorem priority_gap_detection_is_symmetric (r1 r2 : RuleDict) :
  match detect_priority_conflict r1 r2, detect_priority_conflict r2 r1 with
  | Ok (Some c), Ok (Some c') =>
      rule_1_id c' = rule_2_id c /\ rule_2_id c' = rule_1_id c
      /\ tier_1 c' = tier_2 c /\ tier_2 c' = tier_1 c
  | Ok None, Ok None => True
  | Raise _, Raise _ => True
  | _, _ => False
  end.
Proof.
  unfold detect_priority_conflict.
  destruct (decide (get r1 "tier" (PStr "preference") = get r2 "tier" (PStr "preference")))
    as [Ht | Ht].
  - rewrite (bool_decide_eq_true_2 _ Ht), (bool_decide_eq_true_2 _ (eq_sym Ht)).
    destruct (get r1 "priority" (PInt 100)) as [|p1| |], (get r2 "priority" (PInt 100))
      as [|p2| |]; cbn [py_sub bind]; try exact I.
    replace (Z.abs (p2 - p1)) with (Z.abs (p1 - p2)) by lia.
    destruct (Z.abs (p1 - p2) >? 50)%Z; [|exact I].
    cbn. rewrite Ht. repeat split.
  - rewrite (bool_decide_eq_false_2 _ Ht).
    rewrite bool_decide_eq_false_2 by congruence. exact I.
Qed.

(** X19: with different scores the priority-based resolver does not
    depend on the order of its arguments: both orders name the same
    winner and the same loser (with equal scores the order decides). *)
Theorem resolution_is_order_independent (r1 r2 : RuleDict) (s1 s2 : Z) :
  score r1 = Ok s1 -> score r2 = Ok s2 -> s1 <> s2 ->
  exists res res',
    resolve r1 r2 = Ok res /\ resolve r2 r1 = Ok res'
    /\ winning_rule_id res' = winning_rule_id res
    /\ losing_rule_id res' = losing_rule_id res.
Proof.
  intros H1 H2 Hne.
  destruct (ConflictFacts.resolve_by_scores r1 r2 s1 s2 H1 H2) as (res & Hr & Hw & Hl).
  destruct (ConflictFacts.resolve_by_scores r2 r1 s2 s1 H2 H1) as (res' & Hr' & Hw' & Hl').
  exists res, res'. rewrite Hw, Hl, Hw', Hl'.
  destruct (Z.gtb_spec s1 s2), (Z.gtb_spec s2 s1); try lia; auto.
Qed.

Lemma resolution_is_order_independent_witness :
  exists res res',
    resolve safety_10 preference_900 = Ok res
    /\ resolve preference_900 safety_10 = Ok res'
    /\ winning_rule_id res' = winning_rule_id res
    /\ losing_rule_id res' = losing_rule_id res.
Proof.
  apply (resolution_is_order_independent safety_10 preference_900 1990 200);
    [reflexivity | reflexivity | lia].
Defined.

(** X20: within one tier the smaller priority number wins.  For two
    rules with the same tier entry (whatever it is) and integer
    priorities [p1 < p2], the resolver names the rule of priority [p1]
    the winner in either argument order. *)
Theorem lower_priority_number_wins_within_tier (r1 r2 : RuleDict) (p1 p2 : Z) :
  get r1 "tier" (PStr "preference") = get r2 "tier" (PStr "preference") ->
  get r1 "priority" (PInt 100) = PInt p1 ->
  get r2 "priority" (PInt 100) = PInt p2 ->
  p1 < p2 ->
  exists res res',
    resolve r1 r2 = Ok res /\ resolve r2 r1 = Ok res'
    /\ winning_rule_id res = id_of r1 /\ winning_rule_id res' = id_of r1
    /\ losing_rule_id res = id_of r2 /\ losing_rule_id res' = id_of r2.
Proof.
  intros Ht Hp1 Hp2 Hlt.
  assert (score r1 = Ok (weight_of (get r1 "tier" (PStr "preference")) + (1000 - p1))) as S1
    by (unfold score; rewrite Hp1; reflexivity).
  assert (score r2 = Ok (weight_of (get r1 "tier" (PStr "preference")) + (1000 - p2))) as S2
    by (unfold score; rewrite Hp2, Ht; reflexivity).
  destruct (ConflictFacts.resolve_by_scores _ _ _ _ S1 S2) as (res & Hr & Hw & Hl).
  destruct (ConflictFacts.resolve_by_scores _ _ _ _ S2 S1) as (res' & Hr' & Hw' & Hl').
  exists res, res'. rewrite Hw, Hl, Hw', Hl'.
  destruct (Z.gtb_spec (weight_of (get r1 "tier" (PStr "preference")) + (1000 - p1))
                       (weight_of (get r1 "tier" (PStr "preference")) + (1000 - p2)));
    [|lia].
  destruct (Z.gtb_spec (weight_of (get r1 "tier" (PStr "preference")) + (1000 - p2))
                       (weight_of (get r1 "tier" (PStr "preference")) + (1000 - p1)));
    [lia|]. auto 6.
Qed.

Lemma lower_priority_number_wins_within_tier_witness :
  exists res res',
    resolve (mk_rule "A" "operational" 5) (mk_rule "B" "operational" 6) = Ok res
    /\ resolve (mk_rule "B" "operational" 6) (mk_rule "A" "operational" 5) = Ok res'
    /\ winning_rule_id res = PStr "A" /\ winning_rule_id res' = PStr "A"
    /\ losing_rule_id res = PStr "B" /\ losing_rule_id res' = PStr "B".
Proof.
  apply (lower_priority_number_wins_within_tier
           (mk_rule "A" "operational" 5) (mk_rule "B" "operational" 6) 5 6);
    [reflexivity | reflexivity | reflexivity | lia].
Defined.

End ConflictMoreFacts.

(* ===================================================================== *)
(** ** The rule store: proofs *)
(* ===================================================================== *)

Module StoreFacts.
Import Engine BaseManager StoreSpec.
Import CacheFacts EvictionFacts.

Lemma dict_set_length {V} (d : list (string * V)) (k : string) (v : V) :
  length (dict_set d k v)
  = match dict_get d k with Some _ => length d | None => S (length d) end.
Proof.
  induction d as [| [k0 v0] d IH]; cbn [dict_set dict_get length]; [reflexivity|].
  case_bool_decide; cbn [length]; [reflexivity|]. rewrite IH.
  destruct (dict_get d k); reflexivity.
Qed.

Lemma remove_first_sublist (rule_eq : Rule -> Rule -> bool) (x : Rule) (l : list Rule) :
  sublist (remove_first rule_eq x l) l.
Proof.
  induction l as [| y l IH]; cbn [remove_first]; [constructor|].
  destruct (rule_eq y x); [apply sublist_cons; reflexivity | apply sublist_skip; exact IH].
Qed.

Lemma init_consistent : consistent init.
Proof.
  constructor; cbn.
  - constructor.
  - discriminate.
  - constructor.
  - constructor.
  - discriminate.
  - reflexivity.
Qed.

Lemma update_cache_consistent (self : t) (now : Z) (rule : Rule) :
  consistent self -> dict_get (rules self) (id rule) = Some rule ->
  consistent (_update_cache self now rule).
Proof.
  intros C Hr. constructor; cbn [_update_cache rules rules_by_tier rules_by_type
                                 rule_count _rule_cache].
  - apply C.
  - apply C.
  - apply C.
  - apply C.
  - intros k r. destruct (decide (k = id rule)) as [-> | Hne].
    + rewrite dict_get_set_eq. intros [= <-]. exact Hr.
    + rewrite dict_get_set_ne by exact Hne. apply C.
  - apply C.
Qed.

Lemma add_rule_consistent (self : t) (now : Z) (rule : Rule) :
  consistent self -> consistent (snd (add_rule self now rule)).
Proof.
  intros C. unfold add_rule.
  destruct (Manager.validate_rule rule) as [| e es] eqn:V; [|exact C].
  constructor; cbn [snd _update_cache rules rules_by_tier rules_by_type
                    rule_count _rule_cache].
  - apply dict_set_nodup, C.
  - intros k r. destruct (decide (k = id rule)) as [-> | Hne].
    + rewrite dict_get_set_eq. intros [= <-]. split; [reflexivity | exact V].
    + rewrite dict_get_set_ne by exact Hne. apply C.
  - intros tr. case_bool_decide as E; [|apply C].
    apply Forall_app. split; [apply C|].
    constructor; [|constructor]. split; [congruence | exact V].
  - intros ty. case_bool_decide as E; [|apply C].
    apply Forall_app. split; [apply C|].
    constructor; [|constructor]. split; [congruence | exact V].
  - intros k r. destruct (decide (k = id rule)) as [-> | Hne].
    + rewrite !dict_get_set_eq. intros [= <-]. reflexivity.
    + rewrite !dict_get_set_ne by exact Hne. apply C.
  - reflexivity.
Qed.

Lemma Forall_sub {A} (P : A -> Prop) (l1 l2 : list A) :
  sublist l1 l2 -> Forall P l2 -> Forall P l1.
Proof.
  induction 1 as [| x l1 l2 _ IH | x l1 l2 _ IH]; intros HF.
  - constructor.
  - apply Forall_cons in HF as [Hx HF]. constructor; auto.
  - apply Forall_cons in HF as [_ HF]. auto.
Qed.

Lemma remove_rule_consistent (rule_eq : Rule -> Rule -> bool) (self : t) (rule_id : string) :
  consistent self -> consistent (snd (remove_rule rule_eq self rule_id)).
Proof.
  intros C. unfold remove_rule.
  destruct (dict_get (rules self) rule_id) as [rule|] eqn:G; [|exact C].
  constructor; cbn [snd rules rules_by_tier rules_by_type rule_count _rule_cache].
  - apply dict_del_nodup, C.
  - intros k r. destruct (decide (k = rule_id)) as [-> | Hne].
    + rewrite dict_get_del_eq. discriminate.
    + rewrite dict_get_del_ne by exact Hne. apply C.
  - intros tr. case_bool_decide as E; [|apply C].
    eapply Forall_sub; [apply remove_first_sublist | apply C].
  - intros ty. case_bool_decide as E; [|apply C].
    eapply Forall_sub; [apply remove_first_sublist | apply C].
  - intros k r. destruct (decide (k = rule_id)) as [-> | Hne].
    + rewrite dict_get_del_eq. discriminate.
    + rewrite !dict_get_del_ne by exact Hne. apply C.
  - reflexivity.
Qed.

Lemma drop_cache_consistent (self : t) (rule_id : string) :
  consistent self ->
  consistent {| rules := rules self;
                rules_by_tier := rules_by_tier self;
                rules_by_type := rules_by_type self;
                rule_count := rule_count self;
                _rule_cache := dict_del (_rule_cache self) rule_id;
                _cache_timestamp := dict_del (_cache_timestamp self) rule_id;
                _cache_ttl := _cache_ttl self |}.
Proof.
  intros C. constructor; cbn [rules rules_by_tier rules_by_type rule_count _rule_cache];
    try apply C.
  intros k r. destruct (decide (k = rule_id)) as [-> | Hne].
  - rewrite dict_get_del_eq. discriminate.
  - rewrite dict_get_del_ne by exact Hne. apply C.
Qed.

Lemma lookup_consistent (self : t) (now' : Z) (rule_id : string) :
  consistent self ->
  consistent (snd (match dict_get (rules self) rule_id with
                   | Some rule => (Some rule, _update_cache self now' rule)
                   | None => (None, self)
                   end)).
Proof.
  intros C. destruct (dict_get (rules self) rule_id) as [rule|] eqn:G; [|exact C].
  cbn [snd]. apply update_cache_consistent; [exact C|].
  destruct (stored_valid _ C _ _ G) as [-> _]. exact G.
Qed.

Lemma get_rule_consistent (self : t) (now now' : Z) (rule_id : string) :
  consistent self -> consistent (snd (get_rule self now now' rule_id)).
Proof.
  intros C. unfold get_rule.
  destruct (dict_get (_rule_cache self) rule_id) as [cached|];
    [destruct (_is_cache_valid self now rule_id); [exact C|]|].
  - apply (lookup_consistent _ now' rule_id (drop_cache_consistent self rule_id C)).
  - apply lookup_consistent, C.
Qed.

Lemma run_consistent (self : t) (c : call) : consistent self -> consistent (run self c).
Proof.
  destruct c; cbn [run];
    [apply add_rule_consistent | apply remove_rule_consistent | apply get_rule_consistent].
Qed.

Lemma after_consistent (calls : list call) : consistent (after calls).
Proof.
  unfold after. generalize init init_consistent.
  induction calls as [| c calls IH]; intros self C; [exact C|].
  cbn [fold_left]. apply IH, run_consistent, C.
Qed.

(** A lookup answers what the store holds, cached or not, at any clock
    reading. *)
Lemma get_rule_answer (self : t) (now now' : Z) (rule_id : string) :
  consistent self ->
  fst (get_rule self now now' rule_id) = dict_get (rules self) rule_id.
Proof.
  intros C. unfold get_rule.
  destruct (dict_get (_rule_cache self) rule_id) as [cached|] eqn:G.
  - destruct (_is_cache_valid self now rule_id).
    + cbn [fst]. symmetry. apply C, G.
    + cbn [rules]. destruct (dict_get (rules self) rule_id); reflexivity.
  - destruct (dict_get (rules self) rule_id); reflexivity.
Qed.

(** A lookup touches the look-aside cache only. *)
Lemma get_rule_frame (self : t) (now now' : Z) (rule_id : string) :
  let self' := snd (get_rule self now now' rule_id) in
  rules self' = rules self
  /\ rules_by_tier self' = rules_by_tier self
  /\ rules_by_type self' = rules_by_type self
  /\ rule_count self' = rule_count self.
Proof.
  unfold get_rule.
  destruct (dict_get (_rule_cache self) rule_id) as [cached|];
    [destruct (_is_cache_valid self now rule_id); [cbn; auto|]|];
    cbn [rules]; destruct (dict_get (rules self) rule_id); cbn; auto.
Qed.

(** X21: the look-aside cache of the rule store is transparent.  In
    every store reached from a fresh manager by [add_rule], [remove_rule]
    and [get_rule] calls, [get_rule] answers exactly what the store holds
    under the id, whatever the clock says about the cache entry's age;
    and the call changes neither the store, nor the indexes, nor the
    rule count. *)
Theorem get_rule_is_transparent (calls : list call) (now now' : Z) (rule_id : string) :
  let self := after calls in
  let self' := snd (get_rule self now now' rule_id) in
  fst (get_rule self now now' rule_id) = dict_get (rules self) rule_id
  /\ rules self' = rules self
  /\ rules_by_tier self' = rules_by_tier self
  /\ rules_by_type self' = rules_by_type self
  /\ rule_count self' = rule_count self.
Proof.
  cbv zeta. split; [apply get_rule_answer, after_consistent | apply get_rule_frame].
Qed.

Lemma keep_applicable_sublist (ctx : gmap string PyVal) (l l' : list Rule) :
  keep_applicable ctx l = Ok l' -> sublist l' l.
Proof.
  revert l'. induction l as [| r l IH]; intros l'; cbn [keep_applicable].
  - intros [= <-]. constructor.
  - destruct (is_applicable_to_context r ctx) as [b|]; cbn [bind]; [|discriminate].
    destruct (keep_applicable ctx l) as [rest|]; cbn [bind]; [|discriminate].
    specialize (IH rest eq_refl).
    destruct b; intros [= <-]; [apply sublist_skip | apply sublist_cons]; exact IH.
Qed.

Lemma active_rules_valid (self : t) :
  consistent self ->
  Forall (fun r => status r = ACTIVE /\ Manager.validate_rule r = []
                   /\ dict_get (rules self) (id r) = Some r)
         (get_active_rules self).
Proof.
  intros C. apply List.Forall_forall. intros r Hin.
  apply List.filter_In in Hin as [Hin Hs]. apply bool_decide_eq_true in Hs.
  split; [exact Hs|]. apply List.in_map_iff in Hin as ([k r'] & E & Hin).
  cbn [snd] in E. subst r'.
  pose proof (dict_in_get _ _ _ (ids_unique _ C) Hin) as G.
  destruct (stored_valid _ C _ _ G) as [-> V]. split; assumption.
Qed.

Lemma applicable_rules_valid (self : t) (context : option RuleContext) (l : list Rule) :
  consistent self -> get_applicable_rules self context = Ok l ->
  Forall (fun r => status r = ACTIVE /\ Manager.validate_rule r = []
                   /\ dict_get (rules self) (id r) = Some r) l.
Proof.
  intros C. unfold get_applicable_rules. destruct context as [c|].
  - intros Hk. eapply Forall_sub; [eapply keep_applicable_sublist, Hk|].
    apply active_rules_valid, C.
  - intros [= <-]. apply active_rules_valid, C.
Qed.

(** X22: whatever a reachable rule store hands out has passed the rule
    validator.  The rules of a tier index have that tier and, for the
    Safety tier, do not allow user override; the rules of a type index
    have that type; the active rules are active; a rule found by id
    carries that id; and the context filter returns active, validated
    rules of the store whenever it returns. *)
Theorem store_serves_validated_rules (calls : list call) :
  let self := after calls in
  (forall tr, Forall (fun r => tier r = tr /\ Manager.validate_rule r = []
                               /\ (tr = SAFETY -> user_override r = false))
                     (get_rules_by_tier self tr))
  /\ (forall ty, Forall (fun r => rule_type r = ty /\ Manager.validate_rule r = [])
                        (get_rules_by_type self ty))
  /\ Forall (fun r => status r = ACTIVE /\ Manager.validate_rule r = [])
            (get_active_rules self)
  /\ (forall now now' rule_id,
        match fst (get_rule self now now' rule_id) with
        | Some r => id r = rule_id /\ Manager.validate_rule r = []
        | None => True
        end)
  /\ (forall context,
        match get_applicable_rules self context with
        | Ok l => Forall (fun r => status r = ACTIVE /\ Manager.validate_rule r = []
                                   /\ dict_get (rules self) (id r) = Some r) l
        | Raise _ => True
        end).
Proof.
  cbv zeta. pose proof (after_consistent calls) as C.
  split; [|split; [|split; [|split]]].
  - intros tr. eapply Forall_impl; [apply (tier_index_valid _ C tr)|].
    cbn beta. intros r [Ht V]. split; [exact Ht|]. split; [exact V|].
    intros ->. apply EngineFacts.validated_safety_rule_no_override; assumption.
  - intros ty. apply (type_index_valid _ C ty).
  - eapply Forall_impl; [apply active_rules_valid, C|]. cbn beta. tauto.
  - intros now now' rule_id. rewrite get_rule_answer by exact C.
    destruct (dict_get (rules (after calls)) rule_id) as [r|] eqn:G; [|exact I].
    apply C, G.
  - intros context.
    destruct (get_applicable_rules (after calls) context) as [l|] eqn:G; [|exact I].
    eapply applicable_rules_valid; [exact C | exact G].
Qed.

Lemma added_rule_found (self : t) (now t1 t2 : Z) (rule : Rule) :
  Manager.validate_rule rule = [] ->
  fst (get_rule (snd (add_rule self now rule)) t1 t2 (id rule)) = Some rule.
Proof.
  intros V. unfold add_rule. rewrite V. cbn [snd]. unfold get_rule.
  cbn [_update_cache rules _rule_cache]. rewrite dict_get_set_eq.
  match goal with |- context [if ?b then _ else _] => destruct b end; [reflexivity|].
  rewrite dict_get_set_eq. reflexivity.
Qed.

(** X23: adding a rule.  [add_rule] succeeds exactly when the validator
    has no complaint.  A rule it accepts is from then on found under its
    id by [get_rule], at any clock reading, and sits in the index of its
    tier and of its type, and among the active rules if it is active; a
    rule it refuses raises an exception naming the complaints and leaves
    the store as it was. *)
Theorem added_rule_is_retrievable (self : t) (now : Z) (rule : Rule) :
  match add_rule self now rule with
  | (Ok _, self') =>
      Manager.validate_rule rule = []
      /\ (forall t1 t2, fst (get_rule self' t1 t2 (id rule)) = Some rule)
      /\ In rule (get_rules_by_tier self' (tier rule))
      /\ In rule (get_rules_by_type self' (rule_type rule))
      /\ (if bool_decide (status rule = ACTIVE)
          then In rule (get_active_rules self') else True)
  | (Raise e, self') =>
      Manager.validate_rule rule <> []
      /\ e = Exception ("Invalid rule: " +:+ join (Manager.validate_rule rule))
      /\ self' = self
  end.
Proof.
  pose proof (fun t1 t2 => added_rule_found self now t1 t2 rule) as Hfound.
  unfold add_rule in *.
  destruct (Manager.validate_rule rule) as [| e es] eqn:V;
    [|split; [discriminate | split; reflexivity]].
  split; [reflexivity|]. split; [intros t1 t2; apply Hfound; reflexivity|].
  unfold get_rules_by_tier, get_rules_by_type, get_active_rules.
  cbn [_update_cache rules rules_by_tier rules_by_type].
  rewrite !bool_decide_eq_true_2 by reflexivity.
  split; [apply List.in_or_app; right; left; reflexivity|].
  split; [apply List.in_or_app; right; left; reflexivity|].
  case_bool_decide as E; [|exact I].
  apply List.filter_In. split; [|apply bool_decide_eq_true_2, E].
  apply List.in_map_iff. exists (id rule, rule). split; [reflexivity|].
  apply dict_get_in, dict_get_set_eq.
Qed.

(** X24: the rule count.  In every reachable store the ids are unique
    and [rule_count] is the number of stored rules; adding an acceptable
    rule raises the count by one if its id is new and leaves it unchanged
    if the id was taken (the rule is replaced); removing a stored id
    lowers it by one, and removing an unknown id changes nothing. *)
Theorem rule_count_tracks_store (calls : list call) :
  let self := after calls in
  List.NoDup (map fst (rules self))
  /\ rule_count self = Z.of_nat (length (rules self))
  /\ (forall now rule,
        rule_count (snd (add_rule self now rule))
        = match Manager.validate_rule rule, dict_get (rules self) (id rule) with
          | [], None => rule_count self + 1
          | _, _ => rule_count self
          end)
  /\ (forall rule_eq rule_id,
        remove_rule rule_eq self rule_id
        = match dict_get (rules self) rule_id with
          | Some _ => (true, snd (remove_rule rule_eq self rule_id))
          | None => (false, self)
          end
        /\ rule_count (snd (remove_rule rule_eq self rule_id))
           = match dict_get (rules self) rule_id with
             | Some _ => rule_count self - 1
             | None => rule_count self
             end).
Proof.
  cbv zeta. pose proof (after_consistent calls) as C.
  set (self := after calls) in *.
  split; [apply C|]. split; [apply C|]. split.
  - intros now rule. unfold add_rule.
    destruct (Manager.validate_rule rule) as [| e es]; [|reflexivity].
    cbn [snd rule_count _update_cache rules]. rewrite dict_set_length, (count_agrees _ C).
    destruct (dict_get (rules self) (id rule)); lia.
  - intros rule_eq rule_id. unfold remove_rule.
    destruct (dict_get (rules self) rule_id) as [rule|] eqn:G; [|split; reflexivity].
    split; [reflexivity|]. cbn [snd rule_count]. rewrite (count_agrees _ C).
    pose proof (dict_del_present_length (rules self) rule_id (ids_unique _ C)) as Hl.
    assert (In rule_id (map fst (rules self))) as Hin.
    { apply List.in_map_iff. exists (rule_id, rule). split; [reflexivity|].
      apply dict_get_in, G. }
    specialize (Hl Hin). lia.
Qed.

(** X25: removing a rule.  After [remove_rule], in any reachable store
    and whether or not the id was known, [get_rule] finds nothing under
    the id at any clock reading, no active rule carries the id, and the
    rules stored under other ids are untouched. *)
Theorem removed_rule_is_gone (calls : list call) (rule_eq : Rule -> Rule -> bool)
    (rule_id : string) :
  let self := after calls in
  let self' := snd (remove_rule rule_eq self rule_id) in
  (forall t1 t2, fst (get_rule self' t1 t2 rule_id) = None)
  /\ Forall (fun r => id r <> rule_id) (get_active_rules self')
  /\ (forall k, k <> rule_id -> dict_get (rules self') k = dict_get (rules self) k).
Proof.
  cbv zeta. pose proof (after_consistent calls) as C.
  set (self := after calls) in *.
  pose proof (remove_rule_consistent rule_eq self rule_id C) as C'.
  assert (dict_get (rules (snd (remove_rule rule_eq self rule_id))) rule_id = None) as Hgone.
  { unfold remove_rule. destruct (dict_get (rules self) rule_id) eqn:G; [|exact G].
    cbn [snd rules]. apply dict_get_del_eq. }
  split; [intros t1 t2; rewrite get_rule_answer by exact C'; exact Hgone|].
  split.
  - eapply Forall_impl; [apply active_rules_valid, C'|]. cbn beta.
    intros r (_ & _ & G) E. rewrite E in G. congruence.
  - intros k Hne. unfold remove_rule.
    destruct (dict_get (rules self) rule_id); [|reflexivity].
    cbn [snd rules]. apply dict_get_del_ne, Hne.
Qed.

(** X26: replacing a rule leaves its old version in the indexes.
    [add_rule] only ever appends to the tier and type indexes, so after
    a rule is added again under the same id, [get_rule] and the store
    hold the new version alone, while the index of the old version's
    tier and type still lists the old version. *)
Theorem replaced_rule_stays_in_tier_index (calls : list call) (t1 t2 : Z) (r1 r2 : Rule) :
  Manager.validate_rule r1 = [] -> Manager.validate_rule r2 = [] ->
  id r1 = id r2 -> r1 <> r2 ->
  let self' := snd (add_rule (snd (add_rule (after calls) t1 r1)) t2 r2) in
  (forall a b, fst (get_rule self' a b (id r1)) = Some r2)
  /\ ~ In r1 (map snd (rules self'))
  /\ In r1 (get_rules_by_tier self' (tier r1))
  /\ In r1 (get_rules_by_type self' (rule_type r1)).
Proof.
  intros V1 V2 Hid Hne. cbv zeta.
  set (self1 := snd (add_rule (after calls) t1 r1)).
  assert (consistent (snd (add_rule self1 t2 r2))) as C.
  { apply add_rule_consistent, add_rule_consistent, after_consistent. }
  assert (forall a b, fst (get_rule (snd (add_rule self1 t2 r2)) a b (id r1)) = Some r2) as Hget.
  { intros a b. rewrite Hid. apply added_rule_found, V2. }
  split; [exact Hget|]. split.
  - intros Hin. apply List.in_map_iff in Hin as ([k r] & E & Hin). cbn [snd] in E. subst r.
    pose proof (dict_in_get _ _ _ (ids_unique _ C) Hin) as G.
    destruct (stored_valid _ C _ _ G) as [<- _].
    specialize (Hget 0 0). rewrite get_rule_answer in Hget by exact C. congruence.
  - assert (In r1 (rules_by_tier self1 (tier r1)) /\ In r1 (rules_by_type self1 (rule_type r1)))
      as [Ht Hy].
    { subst self1. unfold add_rule. rewrite V1.
      cbn [snd _update_cache rules_by_tier rules_by_type].
      rewrite !bool_decide_eq_true_2 by reflexivity.
      split; apply List.in_or_app; right; left; reflexivity. }
    unfold get_rules_by_tier, get_rules_by_type, add_rule. rewrite V2.
    cbn [snd _update_cache rules_by_tier rules_by_type].
    split; case_bool_decide; try assumption; apply List.in_or_app; left; assumption.
Qed.

Lemma replaced_rule_stays_in_tier_index_witness :
  let old := MatchSpec.validated_safety_rule ["bomb"] in
  let new := MatchSpec.validated_safety_rule ["poison"] in
  let self' := snd (add_rule (snd (add_rule (after []) 0 old)) 5 new) in
  fst (get_rule self' 9 9 "weapons") = Some new
  /\ In old (get_rules_by_tier self' SAFETY).
Proof.
  cbv zeta.
  destruct (replaced_rule_stays_in_tier_index [] 0 5
              (MatchSpec.validated_safety_rule ["bomb"])
              (MatchSpec.validated_safety_rule ["poison"]))
    as (Hg & _ & Ht & _); [reflexivity | reflexivity | reflexivity | discriminate|].
  split; [apply Hg | exact Ht].
Defined.

Lemma rules_by_types_all (P : Rule -> Prop) (m : RuleManager) (types : list RuleType)
    (rules : list Rule) :
  (forall ty l, Engine.get_rules_by_type m ty = Ok l -> Forall P l) ->
  rules_by_types m types = Ok rules -> Forall P rules.
Proof.
  intros Hm. revert rules. induction types as [| ty tys IH]; intros rules; cbn [rules_by_types].
  - intros [= <-]. constructor.
  - destruct (Engine.get_rules_by_type m ty) as [here|] eqn:G; cbn [bind]; [|discriminate].
    destruct (rules_by_types m tys) as [rest|]; cbn [bind]; [|discriminate].
    intros [= <-]. apply Forall_app. split; [eapply Hm, G | apply IH; reflexivity].
Qed.

(** X27: an engine built on the rule store evaluates validated rules
    only.  Whichever of its four queries [_get_applicable_rules] sends to
    a reachable store (by id, by tier, by type, or by context), every
    rule it gets back passed the rule validator, so a Safety-tier rule
    among them does not allow user override. *)
Theorem engine_evaluates_validated_rules (calls : list call) (t1 t2 : Z)
    (self : RuleEngine) (now : Z) (request : RuleEvaluationRequest) (rules : list Rule) :
  rule_manager self = Some (as_repository (after calls) t1 t2) ->
  _get_applicable_rules self now request = Ok rules ->
  Forall (fun r => Manager.validate_rule r = []
                   /\ (tier r = SAFETY -> user_override r = false)) rules.
Proof.
  intros Hm Hq. pose proof (after_consistent calls) as C.
  assert (Forall (fun r => Manager.validate_rule r = []) rules) as HV.
  { unfold _get_applicable_rules in Hq. rewrite Hm in Hq.
    destruct (rule_ids request) as [[| i ids]|].
    2:{ apply LookupFacts.rules_by_ids_active in Hq as [Hf _].
        eapply Forall_impl; [exact Hf|]. cbn beta. intros r (_ & _ & rid & _ & G).
        cbn [as_repository Engine.get_rule] in G. injection G as G.
        rewrite get_rule_answer in G by exact C. apply (stored_valid _ C _ _ G). }
    all: destruct (req_tier request) as [tr|];
      [cbn [as_repository Engine.get_rules_by_tier] in Hq; injection Hq as <-;
       eapply Forall_impl; [apply (tier_index_valid _ C tr)|]; cbn beta; tauto|].
    all: destruct (rule_types request) as [[| ty tys]|].
    all: try (eapply rules_by_types_all; [|exact Hq];
              intros ty' l; cbn [as_repository Engine.get_rules_by_type]; intros [= <-];
              eapply Forall_impl; [apply (type_index_valid _ C ty')|]; cbn beta; tauto).
    all: cbn [as_repository Engine.get_applicable_rules] in Hq;
      eapply Forall_impl; [eapply applicable_rules_valid; [exact C | exact Hq]|];
      cbn beta; tauto. }
  eapply Forall_impl; [exact HV|]. cbn beta. intros r V. split; [exact V|].
  apply EngineFacts.validated_safety_rule_no_override, V.
Qed.

Lemma engine_evaluates_validated_rules_witness :
  Forall (fun r => Manager.validate_rule r = []
                   /\ (tier r = SAFETY -> user_override r = false))
         [MatchSpec.validated_safety_rule ["bomb"]; operational_rule "format"].
Proof.
  apply (engine_evaluates_validated_rules
           [AddRule 0 (MatchSpec.validated_safety_rule ["bomb"]);
            AddRule 1 (operational_rule "format")] 2 3
           (Engine.init (Some (as_repository
              (after [AddRule 0 (MatchSpec.validated_safety_rule ["bomb"]);
                      AddRule 1 (operational_rule "format")]) 2 3)))
           4 (EngineSpec.sample_request "hello")).
  - reflexivity.
  - vm_compute. reflexivity.
Defined.

End StoreFacts.

(* ===================================================================== *)
(** ** Batches and statistics: proofs *)
(* ===================================================================== *)

Module BatchFacts.
Import Engine EngineBatch EngineSpec PipelineSpec CountSpec.

Lemma evaluate_raises_name_error (H : Hashing) (self self' : RuleEngine) (clock : Clock)
    (request : RuleEvaluationRequest) (e : exn) :
  evaluate H self clock request = (Raise e, self') -> e = NameError "RuleSeverity".
Proof.
  unfold evaluate. destruct (evaluate_body H self clock request) as [[r | e0] s].
  - discriminate.
  - rewrite EngineFacts.create_error_result_raises. intros [= <- _]. reflexivity.
Qed.

Lemma gather_length (H : Hashing) (self : RuleEngine) (clocks : nat -> Clock) (i : nat)
    (requests : list RuleEvaluationRequest) :
  length (fst (gather H self clocks i requests)) = length requests.
Proof.
  revert self i. induction requests as [| request rest IH]; intros self i; [reflexivity|].
  cbn [gather]. destruct (evaluate H self (clocks i) request) as [r self1].
  specialize (IH self1 (S i)). destruct (gather H self1 clocks (S i) rest) as [rs self2].
  cbn [fst length] in *. congruence.
Qed.

Lemma process_results_spec (requests : list RuleEvaluationRequest)
    (results : list (result ValidationResult)) :
  length requests = length results ->
  match process_results requests results with
  | Ok rs => results = map Ok rs
  | Raise e => e = NameError "RuleSeverity"
               /\ exists i e', results !! i = Some (Raise e')
  end.
Proof.
  revert requests. induction results as [| [r | e] results IH]; intros requests Hl;
    [reflexivity | |].
  - destruct requests as [| request requests]; [discriminate|].
    cbn [process_results tail]. injection Hl as Hl. specialize (IH requests Hl).
    destruct (process_results requests results) as [rs | e]; cbn [bind].
    + cbn [map]. congruence.
    + destruct IH as (He & i & e' & Hi). split; [exact He|]. exists (S i), e'. exact Hi.
  - destruct requests as [| request requests]; [discriminate|].
    cbn [process_results]. rewrite EngineFacts.create_error_result_raises. cbn [bind].
    split; [reflexivity|]. exists 0%nat, e. reflexivity.
Qed.

(** X28: a batch is all or nothing.  [evaluate_batch] runs the
    evaluations in request order, each on the engine the previous one
    left.  If every evaluation returns, the batch returns their results,
    one per request and in request order.  If any evaluation raises, the
    batch does not return an error result for it: building the error
    result raises [NameError] for [RuleSeverity], and the whole batch
    ends with that exception.  An empty batch returns the empty list and
    leaves the engine alone. *)
Theorem batch_is_all_or_nothing (H : Hashing) (self : RuleEngine) (clocks : nat -> Clock)
    (requests : list RuleEvaluationRequest) :
  evaluate_batch H self clocks [] = (Ok [], self)
  /\ snd (evaluate_batch H self clocks requests) = snd (gather H self clocks 0 requests)
  /\ match fst (evaluate_batch H self clocks requests) with
     | Ok rs => fst (gather H self clocks 0 requests) = map Ok rs
                /\ length rs = length requests
     | Raise e => e = NameError "RuleSeverity"
                  /\ exists i e', fst (gather H self clocks 0 requests) !! i = Some (Raise e')
     end.
Proof.
  split; [reflexivity|]. unfold evaluate_batch.
  destruct requests as [| request rest]; [repeat split|].
  pose proof (gather_length H self clocks 0 (request :: rest)) as Hl.
  destruct (gather H self clocks 0 (request :: rest)) as [results self'].
  cbn [fst snd] in *. split; [reflexivity|].
  pose proof (process_results_spec (request :: rest) results (eq_sym Hl)) as Hp.
  destruct (process_results (request :: rest) results) as [rs | e]; [|exact Hp].
  split; [exact Hp|]. rewrite <- Hl, Hp. symmetry. apply length_map.
Qed.





End BatchFacts.

(* ===================================================================== *)
(** ** Semantic conflicts: proofs *)
(* ===================================================================== *)

Module SemanticFacts.
Import Conflict SemanticDetector SemanticSpec.

Lemma startswith_app_l (s a b : string) :
  startswith s (a +:+ b) = true -> startswith s a = true.
Proof.
  revert s. induction a as [| c a IH]; intros s; [destruct s; reflexivity|].
  destruct s as [| d s]; [discriminate|]. simpl.
  destruct (ascii_dec c d); [apply IH | discriminate].
Qed.

Lemma contains_app_l (a b s : string) :
  contains (a +:+ b) s = true -> contains a s = true.
Proof.
  induction s as [| d s IH]; cbn [contains]; rewrite !orb_true_iff.
  - intros [Hs | Hf]; [left; eapply startswith_app_l, Hs | discriminate].
  - intros [Hs | Hc]; [left; eapply startswith_app_l, Hs | right; apply IH, Hc].
Qed.

Lemma first_contradiction_mirrored (rule_1 rule_2 : RuleDict) (desc_1 desc_2 : string)
    (patterns : list (string * string)) :
  first_contradiction rule_2 rule_1 desc_2 desc_1 patterns
  = option_map mirrored (first_contradiction rule_1 rule_2 desc_1 desc_2 patterns).
Proof.
  induction patterns as [| [pos neg] rest IH]; [reflexivity|].
  cbn [first_contradiction].
  replace ((contains pos desc_2 && contains neg desc_1)
           || (contains neg desc_2 && contains pos desc_1))
    with ((contains pos desc_1 && contains neg desc_2)
          || (contains neg desc_1 && contains pos desc_2))
    by (destruct (contains pos desc_1), (contains neg desc_2),
                 (contains neg desc_1), (contains pos desc_2); reflexivity).
  destruct ((contains pos desc_1 && contains neg desc_2)
            || (contains neg desc_1 && contains pos desc_2)); [reflexivity | exact IH].
Qed.

Lemma first_contradiction_last (rule_1 rule_2 : RuleDict) (desc_1 desc_2 : string)
    (front : list (string * string)) (pos neg : string) :
  contains pos desc_1 && contains neg desc_2 = true ->
  is_Some (first_contradiction rule_1 rule_2 desc_1 desc_2 (front ++ [(pos, neg)])).
Proof.
  intros Hm. induction front as [| [p n] front IH]; cbn [app first_contradiction].
  - rewrite Hm. cbn [orb]. eexists. reflexivity.
  - destruct (_ || _); [eexists; reflexivity | exact IH].
Qed.

(** X30: semantic conflicts.  The detector is symmetric: when it
    answers for two rules, it answers for them in the other order too,
    with the same verdict and the same description, the two ids
    exchanged.  And since the word [must] occurs inside [must_not], two
    rules whose descriptions both say [must_not], in any letter case, are
    reported as contradicting each other. *)
Theorem semantic_conflicts_are_mirrored (rule_1 rule_2 : RuleDict)
    (found : option SemanticConflict) :
  detect_semantic_conflict rule_1 rule_2 = Ok found ->
  detect_semantic_conflict rule_2 rule_1 = Ok (option_map mirrored found)
  /\ (forall desc_1 desc_2,
        rule_1 !! "description" = Some (PStr desc_1) ->
        rule_2 !! "description" = Some (PStr desc_2) ->
        contains "must_not" (lower desc_1) = true ->
        contains "must_not" (lower desc_2) = true ->
        is_Some found).
Proof.
  unfold detect_semantic_conflict.
  destruct (py_lower (get rule_1 "description" (PStr ""))) as [d1|] eqn:E1; cbn [bind];
    [|discriminate].
  destruct (py_lower (get rule_2 "description" (PStr ""))) as [d2|] eqn:E2; cbn [bind];
    [|discriminate].
  intros [= <-]. split; [rewrite first_contradiction_mirrored; reflexivity|].
  intros desc_1 desc_2 G1 G2 M1 M2. unfold get in E1, E2. rewrite G1 in E1. rewrite G2 in E2.
  cbn [default py_lower] in E1, E2. injection E1 as <-. injection E2 as <-.
  apply (first_contradiction_last rule_1 rule_2 _ _
           [("allow", "deny"); ("enable", "disable"); ("require", "forbid")]
           "must" "must_not").
  rewrite M2, (contains_app_l "must" "_not" _ M1). reflexivity.
Qed.

Lemma semantic_conflicts_are_mirrored_witness :
  exists c,
    detect_semantic_conflict (described "a" "Users MUST_NOT share keys")
                             (described "b" "Admins must_not share keys")
    = Ok (Some c)
    /\ detect_semantic_conflict (described "b" "Admins must_not share keys")
                                (described "a" "Users MUST_NOT share keys")
       = Ok (Some (mirrored c))
    /\ description c = "Contradictory terms: must vs must_not".
Proof.
  eexists. split; [vm_compute; reflexivity|]. split; [|reflexivity].
  exact (proj1 (semantic_conflicts_are_mirrored
                  (described "a" "Users MUST_NOT share keys")
                  (described "b" "Admins must_not share keys") _ eq_refl)).
Defined.

End SemanticFacts.
